(** * The options point-in-time store of trade-matrix-options

    A shallow embedding of [lib/database.js] (class [OptionsDatabase]), of
    the table [options_data] it works on ([schema.sql]) and of the request
    handler [app/api/cleanup-options/route.js], followed by the properties
    of ingestion (upsert), retention cleanup and querying.  The later
    sections add the other queries of the class, the other request
    handlers, [lib/auth.js], the command line of
    [cleanup-options-data.js], [cleanOptionsData] of the collector and
    the token manager, each with its properties in the last part.

    Conventions of the embedding.
    - A JavaScript number is a rational or NaN ([jsnum]); the rounding of
      IEEE doubles and the infinities are left out.  [parseFloat] on a
      string is a parameter of ingestion ([parseFloat_string]).
    - An instant (a [Date], a [TIMESTAMP WITH TIME ZONE] value or an ISO
      string that denotes one) is its number of milliseconds since the
      epoch, a [Z]; [null] is [None].
    - A [DECIMAL(10,2)] value is its number of hundredths, or NaN.
    - [COUNT] results, which the driver hands over as decimal strings and
      the code reads back with [parseInt] or by comparison with a number,
      are integers.
    - The table is the list of its rows in storage order.  A connection
      carries the table, the [id] sequence, the snapshot taken by [BEGIN]
      and the log of the statements it executed.
    - Only errors raised by the statements themselves are modelled: the
      constraints and column types of [schema.sql] and the syntax error of
      an empty [IN ()] list.  Loss of the connection is not.
    - Builtins of the host language that read text ([parseFloat],
      [parseInt], [trim], [toUpperCase]) and the database's reading of a
      timestamp parameter are parameters of the sections that use them;
      the instances named [..._decimal], [..._digits], [..._ascii] and
      [..._example] serve the examples only. *)

From Stdlib Require Import ZArith QArith Qround List String Ascii Bool Lia Lqa.
From Stdlib Require Import Sorting.Sorted Sorting.Permutation.
Import ListNotations.

Open Scope string_scope.
Open Scope list_scope.
Open Scope Z_scope.

(** ** Generic list operations standing for SQL clauses *)

Section ListOps.
Context {A : Type}.

(** [ORDER BY]: a stable insertion sort along a boolean order. *)
Fixpoint insert_by (leb : A -> A -> bool) (x : A) (l : list A) : list A :=
  match l with
  | [] => [x]
  | y :: l' => if leb x y then x :: l else y :: insert_by leb x l'
  end.

Fixpoint order_by (leb : A -> A -> bool) (l : list A) : list A :=
  match l with
  | [] => []
  | x :: l' => insert_by leb x (order_by leb l')
  end.

(** [DISTINCT] and the keys of [GROUP BY]: one representative of each
    class of [eqb]. *)
Fixpoint distinct (eqb : A -> A -> bool) (l : list A) : list A :=
  match l with
  | [] => []
  | x :: l' =>
      if existsb (eqb x) l' then distinct eqb l' else x :: distinct eqb l'
  end.
End ListOps.

(** [COUNT]: the number of rows, as an integer. *)
Definition count {A : Type} (l : list A) : Z := Z.of_nat (List.length l).

(** ** JavaScript values *)

Inductive jsnum : Type :=
| JFin (q : Q)
| JNaN.

Inductive jsval : Type :=
| JUndefined
| JNull
| JNumber (n : jsnum)
| JString (s : string).

(** The truthiness test of [cond ? a : b] (ECMAScript ToBoolean). *)
Definition ToBoolean (v : jsval) : bool :=
  match v with
  | JUndefined => false
  | JNull => false
  | JNumber (JFin q) => negb (Qeq_bool q 0)
  | JNumber JNaN => false
  | JString s => negb (String.eqb s "")
  end.

(** [str.split(' ')[0]]: the part of [s] before its first space. *)
Fixpoint before_space (s : string) : string :=
  match s with
  | EmptyString => EmptyString
  | String c s' =>
      if Ascii.eqb c " "%char then EmptyString else String c (before_space s')
  end.

(** [new Date(v)] keeps the integral part of a time value (TimeClip). *)
Definition TimeClip (v : Q) : Z := Z.quot (Qnum v) (Zpos (Qden v)).

(** ** Column values of [options_data] *)

Inductive numeric : Type :=
| Dec (hundredths : Z)
| NaN.

Definition numeric_eqb (a b : numeric) : bool :=
  match a, b with
  | Dec x, Dec y => x =? y
  | NaN, NaN => true
  | _, _ => false
  end.

(** The order of [numeric]: NaN is greater than every number. *)
Definition numeric_leb (a b : numeric) : bool :=
  match a, b with
  | Dec x, Dec y => x <=? y
  | _, NaN => true
  | NaN, Dec _ => false
  end.

Definition numeric_add (a b : numeric) : numeric :=
  match a, b with
  | Dec x, Dec y => Dec (x + y)
  | _, _ => NaN
  end.

(** The nearest integer, ties away from zero, as [numeric] rounds. *)
Definition round_half_away (q : Q) : Z :=
  Z.sgn (Qnum q) * ((2 * Z.abs (Qnum q) + Zpos (Qden q)) / (2 * Zpos (Qden q))).

(** Assignment to a [DECIMAL(10,2)] column: two places are kept, at most
    eight digits before the point are accepted, NaN is stored as it is. *)
Definition to_decimal_10_2 (n : jsnum) : option numeric :=
  match n with
  | JNaN => Some NaN
  | JFin q =>
      let h := round_half_away (q * 100)%Q in
      if Z.abs h <? 10 ^ 10 then Some (Dec h) else None
  end.

Inductive PriceField : Type :=
| Ask | Bid | Mid | Close | High | Last | Low | Open | PreviousClose.

(** A record as the collector hands it to [insertOptionsData]
    ([option] in the source). *)
Module Quote.
Record t : Type := make {
  expiration_date : option Z;
  strike : jsval;
  expiration_type : option string;
  ask : jsval;
  bid : jsval;
  mid : jsval;
  close : jsval;
  high : jsval;
  last : jsval;
  low : jsval;
  open : jsval;
  previous_close : jsval;
  option_type : option string;
  symbol : option string;
  timestamp : option Z
}.

Definition price (f : PriceField) (o : t) : jsval :=
  match f with
  | Ask => ask o | Bid => bid o | Mid => mid o
  | Close => close o | High => high o | Last => last o
  | Low => low o | Open => open o | PreviousClose => previous_close o
  end.
End Quote.

(** A stored row of [options_data] ([created_at], which no statement of
    [OptionsDatabase] reads or writes, is left out). *)
Module Row.
Record t : Type := make {
  id : Z;
  symbol : string;
  expiration_date : Z;
  strike : numeric;
  expiration_type : string;
  ask : option numeric;
  bid : option numeric;
  mid : option numeric;
  close : option numeric;
  high : option numeric;
  last : option numeric;
  low : option numeric;
  open : option numeric;
  previous_close : option numeric;
  option_type : string;
  option_symbol : string;
  timestamp : Z
}.

Definition price (f : PriceField) (r : t) : option numeric :=
  match f with
  | Ask => ask r | Bid => bid r | Mid => mid r
  | Close => close r | High => high r | Last => last r
  | Low => low r | Open => open r | PreviousClose => previous_close r
  end.
End Row.

(** The sixteen parameters [$1 .. $16] of the upsert statement. *)
Module Values.
Record t : Type := make {
  symbol : option string;
  expiration_date : option Z;
  strike : jsnum;
  expiration_type : option string;
  ask : option jsnum;
  bid : option jsnum;
  mid : option jsnum;
  close : option jsnum;
  high : option jsnum;
  last : option jsnum;
  low : option jsnum;
  open : option jsnum;
  previous_close : option jsnum;
  option_type : option string;
  option_symbol : option string;
  timestamp : option Z
}.

Definition price (f : PriceField) (v : t) : option jsnum :=
  match f with
  | Ask => ask v | Bid => bid v | Mid => mid v
  | Close => close v | High => high v | Last => last v
  | Low => low v | Open => open v | PreviousClose => previous_close v
  end.
End Values.

(** ** The connection *)

Inductive DbError : Type :=
| NotNullViolation (column : string)
| CheckViolation (column : string)
| ValueTooLong (column : string)
| NumericOverflow (column : string)
| SyntaxError
| NegativeLimit.

Inductive Statement : Type :=
| StBegin
| StCommit
| StRollback
| StUpsert
| StCountBySymbol
| StDelete (symbol : string)
| StSelect.

Record Database : Type := mkDatabase {
  table : list Row.t;
  id_seq : Z;
  log : list Statement
}.

Record Client : Type := mkClient {
  rows : list Row.t;
  serial : Z;
  snapshot : option (list Row.t);
  executed : list Statement
}.

Inductive Outcome (A : Type) : Type :=
| Returned (a : A)
| Thrown (e : DbError).
Arguments Returned {A} a.
Arguments Thrown {A} e.

(** [pool.connect()] and [client.release()]. *)
Definition connect (d : Database) : Client :=
  mkClient (table d) (id_seq d) None (log d).

Definition release (c : Client) : Database :=
  mkDatabase (rows c) (serial c) (executed c).

Definition record (s : Statement) (c : Client) : Client :=
  mkClient (rows c) (serial c) (snapshot c) (executed c ++ [s]).

Definition with_rows (t : list Row.t) (c : Client) : Client :=
  mkClient t (serial c) (snapshot c) (executed c).

(** [client.query('BEGIN')], ['COMMIT'] and ['ROLLBACK'].  The sequence
    behind [id SERIAL] is not transactional. *)
Definition query_BEGIN (c : Client) : Client :=
  let c := record StBegin c in
  mkClient (rows c) (serial c) (Some (rows c)) (executed c).

Definition query_COMMIT (c : Client) : Client :=
  let c := record StCommit c in
  mkClient (rows c) (serial c) None (executed c).

Definition query_ROLLBACK (c : Client) : Client :=
  let c := record StRollback c in
  match snapshot c with
  | Some t => mkClient t (serial c) None (executed c)
  | None => c
  end.

(** ** Ingestion: [insertOptionsData] *)

(** Errors of a statement are threaded through [DbError + _]. *)
Definition bindE {A B : Type} (x : DbError + A) (k : A -> DbError + B)
  : DbError + B :=
  match x with
  | inl e => inl e
  | inr a => k a
  end.

Notation "x <- e ;; k" := (bindE e (fun x => k))
  (at level 61, e at next level, right associativity).

Fixpoint all_spaces (s : string) : bool :=
  match s with
  | EmptyString => true
  | String c s' => Ascii.eqb c " "%char && all_spaces s'
  end.

(** Assignment to a [VARCHAR(n)] column: a longer string is refused unless
    the excess is made of spaces, which are cut off. *)
Definition varchar (n : nat) (column : string) (v : option string)
  : DbError + option string :=
  match v with
  | None => inr None
  | Some s =>
      if (String.length s <=? n)%nat then inr (Some s)
      else if all_spaces (substring n (String.length s - n) s)
           then inr (Some (substring 0 n s))
           else inl (ValueTooLong column)
  end.

Definition decimal_10_2 (column : string) (n : jsnum) : DbError + numeric :=
  match to_decimal_10_2 n with
  | Some d => inr d
  | None => inl (NumericOverflow column)
  end.

Definition decimal_10_2_null (column : string) (v : option jsnum)
  : DbError + option numeric :=
  match v with
  | None => inr None
  | Some n => d <- decimal_10_2 column n ;; inr (Some d)
  end.

Definition not_null {A : Type} (column : string) (v : option A)
  : DbError + A :=
  match v with
  | Some a => inr a
  | None => inl (NotNullViolation column)
  end.

Definition check_in (column : string) (allowed : list string) (s : string)
  : DbError + unit :=
  if existsb (String.eqb s) allowed then inr tt
  else inl (CheckViolation column).

(** The row proposed for insertion by [VALUES ($1, ..., $16)]: the values
    are first brought to the column types, then the [NOT NULL] and the
    [CHECK] constraints of [schema.sql] are verified. *)
Definition proposed_row (new_id : Z) (v : Values.t) : DbError + Row.t :=
  symbol <- varchar 20 "symbol" (Values.symbol v) ;;
  strike <- decimal_10_2 "strike" (Values.strike v) ;;
  expiration_type <- varchar 20 "expiration_type" (Values.expiration_type v) ;;
  ask <- decimal_10_2_null "ask" (Values.ask v) ;;
  bid <- decimal_10_2_null "bid" (Values.bid v) ;;
  mid <- decimal_10_2_null "mid" (Values.mid v) ;;
  close <- decimal_10_2_null "close" (Values.close v) ;;
  high <- decimal_10_2_null "high" (Values.high v) ;;
  last <- decimal_10_2_null "last" (Values.last v) ;;
  low <- decimal_10_2_null "low" (Values.low v) ;;
  open <- decimal_10_2_null "open" (Values.open v) ;;
  previous_close <-
    decimal_10_2_null "previous_close" (Values.previous_close v) ;;
  option_type <- varchar 10 "option_type" (Values.option_type v) ;;
  option_symbol <- varchar 100 "option_symbol" (Values.option_symbol v) ;;
  symbol <- not_null "symbol" symbol ;;
  expiration_date <- not_null "expiration_date" (Values.expiration_date v) ;;
  expiration_type <- not_null "expiration_type" expiration_type ;;
  option_type <- not_null "option_type" option_type ;;
  option_symbol <- not_null "option_symbol" option_symbol ;;
  timestamp <- not_null "timestamp" (Values.timestamp v) ;;
  _ <- check_in "expiration_type" ["Weekly"; "Monthly"] expiration_type ;;
  _ <- check_in "option_type" ["Put"; "Call"] option_type ;;
  inr (Row.make new_id symbol expiration_date strike expiration_type
         ask bid mid close high last low open previous_close
         option_type option_symbol timestamp).

(** [ON CONFLICT (option_symbol) DO UPDATE SET ...]: the nine prices,
    [option_symbol] and [timestamp] are taken from the proposed row
    ([EXCLUDED]); the other columns of the stored row stay. *)
Definition do_update (excluded old : Row.t) : Row.t :=
  Row.make (Row.id old) (Row.symbol old) (Row.expiration_date old)
    (Row.strike old) (Row.expiration_type old)
    (Row.ask excluded) (Row.bid excluded) (Row.mid excluded)
    (Row.close excluded) (Row.high excluded) (Row.last excluded)
    (Row.low excluded) (Row.open excluded) (Row.previous_close excluded)
    (Row.option_type old) (Row.option_symbol excluded)
    (Row.timestamp excluded).

Definition same_key (k : string) (r : Row.t) : bool :=
  String.eqb (Row.option_symbol r) k.

(** [client.query(upsertQuery, values)], with [RETURNING id, (xmax = 0) AS
    inserted]. *)
Definition upsertQuery (v : Values.t) (c : Client)
  : Outcome (Z * bool) * Client :=
  let c := record StUpsert c in
  let new_id := serial c + 1 in
  let c := mkClient (rows c) new_id (snapshot c) (executed c) in
  match proposed_row new_id v with
  | inl e => (Thrown e, c)
  | inr r =>
      let k := Row.option_symbol r in
      match find (same_key k) (rows c) with
      | Some old =>
          (Returned (Row.id old, false),
           with_rows
             (map (fun x => if same_key k x then do_update r x else x)
                (rows c)) c)
      | None => (Returned (new_id, true), with_rows (rows c ++ [r]) c)
      end
  end.

Inductive UpsertAction : Type := inserted | updated.

Record UpsertEntry : Type := mkUpsertEntry {
  entry_id : Z;
  entry_action : UpsertAction
}.

Module UpsertSummary.
Record t : Type := make {
  success : bool;
  totalProcessed : Z;
  insertedCount : Z;
  updatedCount : Z;
  results : list UpsertEntry
}.
End UpsertSummary.

Section Ingestion.

(** [parseFloat] applied to a string, a builtin of the host language. *)
Variable parseFloat_string : string -> jsnum.

(** [parseFloat(v)]: the argument is first turned into a string, so a
    number comes back as it is and [null] and [undefined] give NaN. *)
Definition parseFloat (v : jsval) : jsnum :=
  match v with
  | JNumber n => n
  | JString s => parseFloat_string s
  | JUndefined => JNaN
  | JNull => JNaN
  end.

(** [option.symbol ? option.symbol.split(' ')[0] : null] *)
Definition underlyingSymbol (o : Quote.t) : option string :=
  match Quote.symbol o with
  | Some s => if String.eqb s "" then None else Some (before_space s)
  | None => None
  end.

(** [option.ask ? parseFloat(option.ask) : null], and so for each price. *)
Definition price_value (v : jsval) : option jsnum :=
  if ToBoolean v then Some (parseFloat v) else None.

(** The array [values] built for one record. *)
Definition values (o : Quote.t) : Values.t :=
  Values.make
    (underlyingSymbol o)
    (Quote.expiration_date o)
    (parseFloat (Quote.strike o))
    (Quote.expiration_type o)
    (price_value (Quote.ask o))
    (price_value (Quote.bid o))
    (price_value (Quote.mid o))
    (price_value (Quote.close o))
    (price_value (Quote.high o))
    (price_value (Quote.last o))
    (price_value (Quote.low o))
    (price_value (Quote.open o))
    (price_value (Quote.previous_close o))
    (Quote.option_type o)
    (Quote.symbol o)
    (Quote.timestamp o).

(** The body of [for (const option of optionsData)]. *)
Fixpoint upsert_each (optionsData : list Quote.t)
  (results : list UpsertEntry) (insertedCount updatedCount : Z) (c : Client)
  : Outcome (list UpsertEntry * Z * Z) * Client :=
  match optionsData with
  | [] => (Returned (results, insertedCount, updatedCount), c)
  | option :: rest =>
      match upsertQuery (values option) c with
      | (Thrown e, c') => (Thrown e, c')
      | (Returned (id, true), c') =>
          upsert_each rest (results ++ [mkUpsertEntry id inserted])
            (insertedCount + 1) updatedCount c'
      | (Returned (id, false), c') =>
          upsert_each rest (results ++ [mkUpsertEntry id updated])
            insertedCount (updatedCount + 1) c'
      end
  end.

(** [OptionsDatabase.insertOptionsData]: [try { BEGIN; ...; COMMIT }
    catch { ROLLBACK; throw } finally { release }]. *)
Definition insertOptionsData (optionsData : list Quote.t) (d : Database)
  : Outcome UpsertSummary.t * Database :=
  let c := connect d in
  let c := query_BEGIN c in
  match upsert_each optionsData [] 0 0 c with
  | (Returned (results, insertedCount, updatedCount), c) =>
      let c := query_COMMIT c in
      (Returned
         (UpsertSummary.make true (count results) insertedCount updatedCount
            results),
       release c)
  | (Thrown error, c) =>
      let c := query_ROLLBACK c in
      (Thrown error, release c)
  end.

End Ingestion.

(** ** Retention cleanup: [cleanupOldOptionsData] *)

(** [timestamp < $cutoff] *)
Definition is_stale (cutoffTime : Z) (r : Row.t) : bool :=
  Row.timestamp r <? cutoffTime.

(** [symbol = $1] and [symbol IN ($1, ..., $n)] *)
Definition has_symbol (s : string) (r : Row.t) : bool :=
  String.eqb (Row.symbol r) s.

Definition symbol_in (symbols : list string) (r : Row.t) : bool :=
  existsb (String.eqb (Row.symbol r)) symbols.

(** [MIN] and [MAX] of a column: NULL over no row. *)
Definition sql_min (l : list Z) : option Z :=
  match l with
  | [] => None
  | x :: l' => Some (fold_left Z.min l' x)
  end.

Definition sql_max (l : list Z) : option Z :=
  match l with
  | [] => None
  | x :: l' => Some (fold_left Z.max l' x)
  end.

Module CountRow.
Record t : Type := make {
  symbol : string;
  total_records : Z;
  old_records : Z;
  oldest_timestamp : option Z;
  newest_timestamp : option Z
}.
End CountRow.

(** One row of [countQuery] for the group of symbol [s]. *)
Definition count_row (cutoffTime : Z) (hits : list Row.t) (s : string)
  : CountRow.t :=
  let g := filter (has_symbol s) hits in
  CountRow.make s
    (count g)
    (count (filter (is_stale cutoffTime) g))
    (sql_min (map Row.timestamp g))
    (sql_max (map Row.timestamp g)).

(** [client.query(countQuery, [...symbols, cutoffTime])]: [WHERE symbol IN
    (...) GROUP BY symbol ORDER BY symbol].  With no symbol the statement
    reads [IN ()], which the server refuses. *)
Definition countQuery (symbols : list string) (cutoffTime : Z) (c : Client)
  : Outcome (list CountRow.t) * Client :=
  let c := record StCountBySymbol c in
  match symbols with
  | [] => (Thrown SyntaxError, c)
  | _ :: _ =>
      let hits := filter (symbol_in symbols) (rows c) in
      (Returned
         (map (count_row cutoffTime hits)
            (order_by String.leb
               (distinct String.eqb (map Row.symbol hits)))),
       c)
  end.

(** [DELETE FROM options_data WHERE symbol = $1 AND timestamp < $2], with
    its [rowCount]. *)
Definition deleteQuery (symbol : string) (cutoffTime : Z) (c : Client)
  : Z * Client :=
  let c := record (StDelete symbol) c in
  let doomed := fun r => has_symbol symbol r && is_stale cutoffTime r in
  (count (filter doomed (rows c)),
   with_rows (filter (fun r => negb (doomed r)) (rows c)) c).

Inductive CleanupAction : Type := would_delete | deleted | no_action.

Module CleanupEntry.
Record t : Type := make {
  symbol : string;
  totalRecords : Z;
  oldRecords : option Z;
  deletedRecords : option Z;
  keptRecords : Z;
  oldestTimestamp : option Z;
  newestTimestamp : option Z;
  action : CleanupAction
}.
End CleanupEntry.

Module CleanupResult.
Record t : Type := make {
  success : bool;
  dryRun : bool;
  cutoffTime : option Z;
  keepHours : option Q;
  symbolsProcessed : Z;
  totalDeleted : Z;
  results : list CleanupEntry.t
}.
End CleanupResult.

(** The body of [for (const row of countResult.rows)]. *)
Fixpoint cleanup_each (dryRun : bool) (cutoffTime : Z)
  (countRows : list CountRow.t) (totalDeleted : Z)
  (cleanupResults : list CleanupEntry.t) (c : Client)
  : Z * list CleanupEntry.t * Client :=
  match countRows with
  | [] => (totalDeleted, cleanupResults, c)
  | row :: rest =>
      if 0 <? CountRow.old_records row then
        if dryRun then
          cleanup_each dryRun cutoffTime rest totalDeleted
            (cleanupResults ++
               [CleanupEntry.make (CountRow.symbol row)
                  (CountRow.total_records row)
                  (Some (CountRow.old_records row))
                  None
                  (CountRow.total_records row - CountRow.old_records row)
                  (CountRow.oldest_timestamp row)
                  (CountRow.newest_timestamp row)
                  would_delete])
            c
        else
          let '(deletedCount, c) :=
            deleteQuery (CountRow.symbol row) cutoffTime c in
          cleanup_each dryRun cutoffTime rest (totalDeleted + deletedCount)
            (cleanupResults ++
               [CleanupEntry.make (CountRow.symbol row)
                  (CountRow.total_records row)
                  None
                  (Some deletedCount)
                  (CountRow.total_records row - deletedCount)
                  (CountRow.oldest_timestamp row)
                  (CountRow.newest_timestamp row)
                  deleted])
            c
      else
        cleanup_each dryRun cutoffTime rest totalDeleted
          (cleanupResults ++
             [CleanupEntry.make (CountRow.symbol row)
                (CountRow.total_records row)
                None
                (Some 0)
                (CountRow.total_records row)
                (CountRow.oldest_timestamp row)
                (CountRow.newest_timestamp row)
                no_action])
          c
  end.

(** [cleanupResults.reduce((sum, result) => sum + (result.oldRecords || 0),
    0)], the total that the dry-run branch writes to the console. *)
Definition wouldDeleteTotal (cleanupResults : list CleanupEntry.t) : Z :=
  fold_left
    (fun sum result =>
       sum + match CleanupEntry.oldRecords result with
             | Some n => n
             | None => 0
             end)
    cleanupResults 0.

(** [new Date(Date.now() - (keepHours * 60 * 60 * 1000))] *)
Definition cutoff (now : Z) (keepHours : Q) : Z :=
  TimeClip (inject_Z now - keepHours * 60 * 60 * 1000)%Q.

(** [OptionsDatabase.cleanupOldOptionsData(symbols, keepHours, dryRun)];
    [now] is the reading of [Date.now()]. *)
Definition cleanupOldOptionsData (symbols : list string) (keepHours : Q)
  (dryRun : bool) (now : Z) (d : Database)
  : Outcome CleanupResult.t * Database :=
  let c := connect d in
  let c := query_BEGIN c in
  let cutoffTime := cutoff now keepHours in
  match countQuery symbols cutoffTime c with
  | (Thrown error, c) =>
      let c := query_ROLLBACK c in
      (Thrown error, release c)
  | (Returned countRows, c) =>
      let '(totalDeleted, cleanupResults, c) :=
        cleanup_each dryRun cutoffTime countRows 0 [] c in
      let c := if dryRun then query_ROLLBACK c else query_COMMIT c in
      (Returned
         (CleanupResult.make true dryRun (Some cutoffTime) (Some keepHours)
            (count symbols) totalDeleted cleanupResults),
       release c)
  end.

(** [SELECT DISTINCT symbol FROM options_data ORDER BY symbol] *)
Definition distinctSymbolsQuery (c : Client) : list string * Client :=
  let c := record StSelect c in
  (order_by String.leb (distinct String.eqb (map Row.symbol (rows c))), c).

(** [OptionsDatabase.cleanupAllOldOptionsData(keepHours, dryRun)] *)
Definition cleanupAllOldOptionsData (keepHours : Q) (dryRun : bool)
  (now : Z) (d : Database) : Outcome CleanupResult.t * Database :=
  let c := connect d in
  let '(symbols, c) := distinctSymbolsQuery c in
  match symbols with
  | [] =>
      (Returned (CleanupResult.make true dryRun None None 0 0 []), release c)
  | _ :: _ => cleanupOldOptionsData symbols keepHours dryRun now (release c)
  end.

(** ** The handler [POST /api/cleanup-options] *)

Record Environment : Type := mkEnvironment {
  API_KEY : option string
}.

Module CleanupBody.
Record t : Type := make {
  symbols : option (list string);
  keepHours : option Q;
  dryRun : option bool
}.
End CleanupBody.

Record Request : Type := mkRequest {
  x_api_key : option string;
  body : CleanupBody.t
}.

Inductive Response : Type :=
| Status200 (result : CleanupResult.t)
| Status400 (error : string)
| Status401
| Status500 (error : DbError).

(** [verifyApiKey(request)] with its default configuration, the method
    ['x-api-key'] against the variable [API_KEY]. *)
Definition verifyApiKey (env : Environment) (request : Request) : bool :=
  match API_KEY env with
  | Some expectedApiKey =>
      negb (String.eqb expectedApiKey "") &&
      match x_api_key request with
      | Some apiKey => String.eqb apiKey expectedApiKey
      | None => false
      end
  | None => false
  end.

Definition POST (env : Environment) (request : Request) (now : Z)
  (d : Database) : Response * Database :=
  if negb (verifyApiKey env request) then (Status401, d)
  else
    let symbols := CleanupBody.symbols (body request) in
    let keepHours :=
      match CleanupBody.keepHours (body request) with
      | Some h => h
      | None => (1 # 2)%Q
      end in
    let dryRun :=
      match CleanupBody.dryRun (body request) with
      | Some b => b
      | None => false
      end in
    if Qle_bool keepHours 0 then
      (Status400 "keepHours must be a positive number", d)
    else
      let '(outcome, d') :=
        match symbols with
        | Some (s :: rest) =>
            cleanupOldOptionsData (s :: rest) keepHours dryRun now d
        | _ => cleanupAllOldOptionsData keepHours dryRun now d
        end in
      match outcome with
      | Returned result => (Status200 result, d')
      | Thrown error => (Status500 error, d')
      end.

(** ** Queries *)

(** [ORDER BY timestamp DESC, expiration_date, strike] *)
Definition latest_leb (a b : Row.t) : bool :=
  if Row.timestamp b <? Row.timestamp a then true
  else if Row.timestamp a <? Row.timestamp b then false
  else if Row.expiration_date a <? Row.expiration_date b then true
  else if Row.expiration_date b <? Row.expiration_date a then false
  else numeric_leb (Row.strike a) (Row.strike b).

(** [OptionsDatabase.getLatestOptionsData(symbol, limit = 100)]; [None] is
    a call without the second argument.  The server refuses a negative
    [LIMIT]. *)
Definition getLatestOptionsData (symbol : string) (limit : option Z)
  (d : Database) : Outcome (list Row.t) * Database :=
  let limit := match limit with Some n => n | None => 100 end in
  let c := record StSelect (connect d) in
  if limit <? 0 then (Thrown NegativeLimit, release c)
  else
    (Returned
       (firstn (Z.to_nat limit)
          (order_by latest_leb (filter (has_symbol symbol) (rows c)))),
     release c).

Module AggregateRow.
Record t : Type := make {
  expiration_date : Z;
  strike : numeric;
  call_mid_price : option numeric;
  put_mid_price : option numeric;
  total_mid_price : option numeric;
  option_count : Z;
  call_count : Z;
  put_count : Z;
  symbols : option string
}.
End AggregateRow.

(** [SUM]: NULL inputs are skipped, and the sum of no input is NULL. *)
Definition sql_sum (l : list (option numeric)) : option numeric :=
  fold_left
    (fun acc v =>
       match v, acc with
       | None, _ => acc
       | Some x, None => Some x
       | Some x, Some a => Some (numeric_add a x)
       end)
    l None.

Definition is_type (ty : string) (r : Row.t) : bool :=
  String.eqb (Row.option_type r) ty.

(** [expiration_date BETWEEN $a AND $b] and [mid IS NOT NULL] *)
Definition expires_between (startDate endDate : Z) (r : Row.t) : bool :=
  (startDate <=? Row.expiration_date r) && (Row.expiration_date r <=? endDate).

Definition mid_not_null (r : Row.t) : bool :=
  match Row.mid r with
  | Some _ => true
  | None => false
  end.

(** The key of [GROUP BY expiration_date, strike] and its order. *)
Definition group_key (r : Row.t) : Z * numeric :=
  (Row.expiration_date r, Row.strike r).

Definition key_eqb (a b : Z * numeric) : bool :=
  (fst a =? fst b) && numeric_eqb (snd a) (snd b).

Definition key_leb (a b : Z * numeric) : bool :=
  if fst a <? fst b then true
  else if fst b <? fst a then false
  else numeric_leb (snd a) (snd b).

(** The select list of both aggregation queries over one group [g];
    [STRING_AGG(DISTINCT symbol, ', ')] belongs to the multi-symbol one. *)
Definition aggregate_group (with_symbols : bool) (k : Z * numeric)
  (g : list Row.t) : AggregateRow.t :=
  AggregateRow.make (fst k) (snd k)
    (sql_sum
       (map (fun r => if is_type "Call" r then Row.mid r else Some (Dec 0)) g))
    (sql_sum
       (map (fun r => if is_type "Put" r then Row.mid r else Some (Dec 0)) g))
    (sql_sum (map Row.mid g))
    (count g)
    (count (filter (is_type "Call") g))
    (count (filter (is_type "Put") g))
    (if with_symbols
     then Some (String.concat ", "
                  (order_by String.leb
                     (distinct String.eqb (map Row.symbol g))))
     else None).

(** [GROUP BY expiration_date, strike ORDER BY expiration_date, strike]
    over the rows [hits] that pass the [WHERE] clause. *)
Definition aggregate (with_symbols : bool) (hits : list Row.t)
  : list AggregateRow.t :=
  map
    (fun k =>
       aggregate_group with_symbols k
         (filter (fun r => key_eqb (group_key r) k) hits))
    (order_by key_leb (distinct key_eqb (map group_key hits))).

(** [OptionsDatabase.getAggregatedOptionsData(symbol, startDate, endDate)] *)
Definition getAggregatedOptionsData (symbol : string)
  (startDate endDate : Z) (d : Database)
  : Outcome (list AggregateRow.t) * Database :=
  let c := record StSelect (connect d) in
  (Returned
     (aggregate false
        (filter
           (fun r =>
              has_symbol symbol r && expires_between startDate endDate r
              && mid_not_null r)
           (rows c))),
   release c).

(** [OptionsDatabase.getAggregatedOptionsDataMultiSymbol(symbols,
    startDate, endDate)] *)
Definition getAggregatedOptionsDataMultiSymbol (symbols : list string)
  (startDate endDate : Z) (d : Database)
  : Outcome (list AggregateRow.t) * Database :=
  let c := record StSelect (connect d) in
  match symbols with
  | [] => (Thrown SyntaxError, release c)
  | _ :: _ =>
      (Returned
         (aggregate true
            (filter
               (fun r =>
                  symbol_in symbols r && expires_between startDate endDate r
                  && mid_not_null r)
               (rows c))),
       release c)
  end.

(** ** A reading of [parseFloat] on plain decimal literals

    Sign, digits, point, digits: enough for the strings the vendor sends
    ("232.5"), and the instance at which the examples are run. *)

Definition digit_of (c : ascii) : option Z :=
  let n := Z.of_N (N_of_ascii c) in
  if (48 <=? n) && (n <=? 57) then Some (n - 48) else None.

Fixpoint scan_decimal (s : string) (after_point : bool) (mantissa : Z)
  (scale : positive) (seen_digit : bool) : option (Z * positive) :=
  match s with
  | EmptyString => if seen_digit then Some (mantissa, scale) else None
  | String c s' =>
      match digit_of c with
      | Some dg =>
          scan_decimal s' after_point (10 * mantissa + dg)
            (if after_point then (10 * scale)%positive else scale) true
      | None =>
          if Ascii.eqb c "."%char && negb after_point
          then scan_decimal s' true mantissa scale seen_digit
          else if seen_digit then Some (mantissa, scale) else None
      end
  end.

Definition parseFloat_decimal (s : string) : jsnum :=
  match s with
  | String "-"%char s' =>
      match scan_decimal s' false 0 1 false with
      | Some (m, sc) => JFin (- m # sc)
      | None => JNaN
      end
  | _ =>
      match scan_decimal s false 0 1 false with
      | Some (m, sc) => JFin (m # sc)
      | None => JNaN
      end
  end.

(** ** Specification vocabulary *)

(** The [UNIQUE(option_symbol)] constraint as a property of the table. *)
Definition unique_keys (t : list Row.t) : Prop :=
  NoDup (map Row.option_symbol t).

(** The error, if any, that the upsert statement raises for a record. *)
Definition row_error (parseFloat_string : string -> jsnum) (o : Quote.t)
  : option DbError :=
  match proposed_row 0 (values parseFloat_string o) with
  | inl e => Some e
  | inr _ => None
  end.

(** What a [DECIMAL(10,2)] column holds after a successful write of a
    nullable parameter. *)
Definition stored_price (v : option jsnum) : option numeric :=
  match v with
  | None => None
  | Some n => to_decimal_10_2 n
  end.

Definition with_id (i : Z) (r : Row.t) : Row.t :=
  Row.make i (Row.symbol r) (Row.expiration_date r) (Row.strike r)
    (Row.expiration_type r) (Row.ask r) (Row.bid r) (Row.mid r)
    (Row.close r) (Row.high r) (Row.last r) (Row.low r) (Row.open r)
    (Row.previous_close r) (Row.option_type r) (Row.option_symbol r)
    (Row.timestamp r).

(** The rows that a cleanup with this cutoff removes. *)
Definition purged (symbols : list string) (cutoffTime : Z) (r : Row.t)
  : bool :=
  symbol_in symbols r && is_stale cutoffTime r.

Definition stale_count (cutoffTime : Z) (t : list Row.t) (s : string) : Z :=
  count (filter (fun r => has_symbol s r && is_stale cutoffTime r) t).

Definition total_count (t : list Row.t) (s : string) : Z :=
  count (filter (has_symbol s) t).

(** The sum of the [deletedRecords] of the per-symbol results. *)
Definition deleted_sum (cleanupResults : list CleanupEntry.t) : Z :=
  fold_left
    (fun sum result =>
       sum + match CleanupEntry.deletedRecords result with
             | Some n => n
             | None => 0
             end)
    cleanupResults 0.

(** The counts of a per-symbol result, whichever field carries the number
    of stale rows. *)
Definition entry_counts (e : CleanupEntry.t) : string * Z * Z * Z :=
  (CleanupEntry.symbol e,
   CleanupEntry.totalRecords e,
   match CleanupEntry.oldRecords e, CleanupEntry.deletedRecords e with
   | Some n, _ => n
   | None, Some n => n
   | None, None => 0
   end,
   CleanupEntry.keptRecords e).

(** The per-symbol result of a preview and of a live run for one row of
    the count query whose [old_records] is exact. *)
Definition dry_entry (row : CountRow.t) : CleanupEntry.t :=
  if 0 <? CountRow.old_records row then
    CleanupEntry.make (CountRow.symbol row) (CountRow.total_records row)
      (Some (CountRow.old_records row)) None
      (CountRow.total_records row - CountRow.old_records row)
      (CountRow.oldest_timestamp row) (CountRow.newest_timestamp row)
      would_delete
  else
    CleanupEntry.make (CountRow.symbol row) (CountRow.total_records row)
      None (Some 0) (CountRow.total_records row)
      (CountRow.oldest_timestamp row) (CountRow.newest_timestamp row)
      no_action.

Definition live_entry (row : CountRow.t) : CleanupEntry.t :=
  if 0 <? CountRow.old_records row then
    CleanupEntry.make (CountRow.symbol row) (CountRow.total_records row)
      None (Some (CountRow.old_records row))
      (CountRow.total_records row - CountRow.old_records row)
      (CountRow.oldest_timestamp row) (CountRow.newest_timestamp row)
      deleted
  else
    CleanupEntry.make (CountRow.symbol row) (CountRow.total_records row)
      None (Some 0) (CountRow.total_records row)
      (CountRow.oldest_timestamp row) (CountRow.newest_timestamp row)
      no_action.

(** The symbols for which the count query returns a row. *)
Definition counted_symbols (symbols : list string) (t : list Row.t)
  : list string :=
  order_by String.leb
    (distinct String.eqb (map Row.symbol (filter (symbol_in symbols) t))).

Definition Zsum (l : list Z) : Z := fold_right Z.add 0 l.

(** The rows that the count query returns for a non-empty list. *)
Definition count_rows (symbols : list string) (cutoffTime : Z)
  (t : list Row.t) : list CountRow.t :=
  map (count_row cutoffTime (filter (symbol_in symbols) t))
    (counted_symbols symbols t).

(** The order of the latest-N query, spelled out: later observations
    first, then earlier expirations, then lower strikes. *)
Definition latest_order (a b : Row.t) : Prop :=
  Row.timestamp b < Row.timestamp a
  \/ (Row.timestamp a = Row.timestamp b
      /\ (Row.expiration_date a < Row.expiration_date b
          \/ (Row.expiration_date a = Row.expiration_date b
              /\ numeric_leb (Row.strike a) (Row.strike b) = true))).

(** The database without the rows whose [mid] is NULL. *)
Definition without_null_mid (d : Database) : Database :=
  mkDatabase (filter mid_not_null (table d)) (id_seq d) (log d).

(** All stored rows, with or without a [mid], that the symbol test [sel]
    and the date range put in the group of key [k]. *)
Definition group_members (sel : Row.t -> bool) (startDate endDate : Z)
  (k : Z * numeric) (t : list Row.t) : list Row.t :=
  filter
    (fun r =>
       sel r && expires_between startDate endDate r
       && key_eqb (group_key r) k)
    t.

Definition aggregate_key (g : AggregateRow.t) : Z * numeric :=
  (AggregateRow.expiration_date g, AggregateRow.strike g).

(** The six aggregates of [g] are those of the rows [m]. *)
Definition aggregates_over (g : AggregateRow.t) (m : list Row.t) : Prop :=
  AggregateRow.call_mid_price g
  = sql_sum
      (map (fun r => if is_type "Call" r then Row.mid r else Some (Dec 0)) m)
  /\ AggregateRow.put_mid_price g
     = sql_sum
         (map (fun r => if is_type "Put" r then Row.mid r else Some (Dec 0)) m)
  /\ AggregateRow.total_mid_price g = sql_sum (map Row.mid m)
  /\ AggregateRow.option_count g = count m
  /\ AggregateRow.call_count g = count (filter (is_type "Call") m)
  /\ AggregateRow.put_count g = count (filter (is_type "Put") m).

(** ** Example data *)

Definition empty_database : Database := mkDatabase [] 0 [].

(** A put on AAPL as the collector builds it from the vendor's strings;
    [ask] and the observation time vary. *)
Definition quote_AAPL (ask : jsval) (timestamp : Z) : Quote.t :=
  Quote.make (Some 1758240000000) (JString "232.5") (Some "Weekly")
    ask (JString "1.10") (JString "1.15") JNull JNull (JString "1.12")
    JNull JNull (JString "1.05")
    (Some "Put") (Some "AAPL 250919P232.5") (Some timestamp).

(** The same contract with [option_type] missing. *)
Definition quote_without_type : Quote.t :=
  Quote.make (Some 1758240000000) (JString "232.5") (Some "Weekly")
    (JString "1.20") (JString "1.10") (JString "1.15") JNull JNull JNull
    JNull JNull JNull
    None (Some "AAPL 250919C232.5") (Some 1000).

(** A stored row with the given identity, strike, mid price and
    observation time. *)
Definition sample_row (id : Z) (symbol option_symbol option_type : string)
  (strike : Z) (mid : option numeric) (timestamp : Z) : Row.t :=
  Row.make id symbol 1758240000000 (Dec strike) "Weekly"
    None None mid None None None None None None
    option_type option_symbol timestamp.

(** Three observations of SPX contracts, two hours, forty minutes and ten
    minutes before [now_example]. *)
Definition now_example : Z := 1758200000000.

Definition three_observations : Database :=
  mkDatabase
    [sample_row 1 "SPX" "SPX 250919C6000" "Call" 600000 (Some (Dec 500))
       (now_example - 7200000);
     sample_row 2 "SPX" "SPX 250919P6000" "Put" 600000 None
       (now_example - 2400000);
     sample_row 3 "SPX" "SPX 250919C6100" "Call" 610000 (Some (Dec 250))
       (now_example - 600000)]
    3 [].

(** One group of two SPX calls, one without a [mid] and one at 5.00. *)
Definition null_and_five : Database :=
  mkDatabase
    [sample_row 1 "SPX" "SPX 250919C6000" "Call" 600000 None 1000;
     sample_row 2 "SPXW" "SPXW 250919C6000" "Call" 600000 (Some (Dec 500))
       1000]
    2 [].

(** Observations of one symbol at three successive instants. *)
Definition three_instants : Database :=
  mkDatabase
    [sample_row 1 "SPX" "SPX 250919C6000" "Call" 600000 None 1000;
     sample_row 2 "SPX" "SPX 250919P6000" "Put" 600000 None 3000;
     sample_row 3 "SPX" "SPX 250919C6100" "Call" 610000 None 2000]
    3 [].


(** ** The other queries of [OptionsDatabase] *)

(** [ORDER BY expiration_date, strike, option_type]; the option types are
    compared as byte strings, which for the two values that the table
    admits is the order of every collation. *)
Definition range_leb (a b : Row.t) : bool :=
  if Row.expiration_date a <? Row.expiration_date b then true
  else if Row.expiration_date b <? Row.expiration_date a then false
  else if numeric_eqb (Row.strike a) (Row.strike b)
       then String.leb (Row.option_type a) (Row.option_type b)
       else numeric_leb (Row.strike a) (Row.strike b).

(** [OptionsDatabase.getOptionsData(symbol, startDate, endDate)] *)
Definition getOptionsData (symbol : string) (startDate endDate : Z)
  (d : Database) : Outcome (list Row.t) * Database :=
  let c := record StSelect (connect d) in
  (Returned
     (order_by range_leb
        (filter
           (fun r =>
              has_symbol symbol r && expires_between startDate endDate r)
           (rows c))),
   release c).

Record SymbolCount : Type := mkSymbolCount {
  listed_symbol : string;
  record_count : Z
}.

(** [OptionsDatabase.getAllSymbols()]: [SELECT DISTINCT symbol, COUNT( * )
    ... GROUP BY symbol ORDER BY symbol]. *)
Definition getAllSymbols (d : Database)
  : Outcome (list SymbolCount) * Database :=
  let c := record StSelect (connect d) in
  (Returned
     (map (fun s => mkSymbolCount s (count (filter (has_symbol s) (rows c))))
        (order_by String.leb (distinct String.eqb (map Row.symbol (rows c))))),
   release c).

(** [OptionsDatabase.testConnection()]: [SELECT NOW()] answers on a
    connection that is up. *)
Definition testConnection (d : Database) : bool * Database :=
  let c := record StSelect (connect d) in
  (true, release c).

(** ** Further vocabulary *)

Definition numeric_lt (a b : numeric) : Prop :=
  numeric_leb a b = true /\ a <> b.

(** The order of the range query, spelled out: earlier expirations first,
    then lower strikes, then the option type. *)
Definition range_order (a b : Row.t) : Prop :=
  Row.expiration_date a < Row.expiration_date b
  \/ (Row.expiration_date a = Row.expiration_date b
      /\ (numeric_lt (Row.strike a) (Row.strike b)
          \/ (Row.strike a = Row.strike b
              /\ String.leb (Row.option_type a) (Row.option_type b)
                 = true))).


Fixpoint has_space (s : string) : bool :=
  match s with
  | EmptyString => false
  | String c s' => Ascii.eqb c " "%char || has_space s'
  end.

(** A value that a [DECIMAL(10,2)] column can hold. *)
Definition in_decimal_10_2 (n : numeric) : bool :=
  match n with
  | Dec h => Z.abs h <? 10 ^ 10
  | NaN => true
  end.

(** What [schema.sql] and the derivation of the underlying symbol promise
    of a stored row: the column types and [CHECK] constraints, and
    [symbol] being [option_symbol] up to its first space. *)
Definition row_ok (r : Row.t) : Prop :=
  (String.length (Row.symbol r) <= 20)%nat
  /\ In (Row.expiration_type r) ["Weekly"; "Monthly"]
  /\ In (Row.option_type r) ["Put"; "Call"]
  /\ (String.length (Row.option_symbol r) <= 100)%nat
  /\ in_decimal_10_2 (Row.strike r) = true
  /\ (forall f n, Row.price f r = Some n -> in_decimal_10_2 n = true)
  /\ Row.symbol r = before_space (Row.option_symbol r).

Definition table_ok (t : list Row.t) : Prop :=
  unique_keys t /\ Forall row_ok t.

(** The columns that no upsert changes. *)
Definition same_identity (r r' : Row.t) : Prop :=
  Row.id r' = Row.id r
  /\ Row.option_symbol r' = Row.option_symbol r
  /\ Row.symbol r' = Row.symbol r
  /\ Row.expiration_date r' = Row.expiration_date r
  /\ Row.strike r' = Row.strike r
  /\ Row.expiration_type r' = Row.expiration_type r
  /\ Row.option_type r' = Row.option_type r.

(** The record [o] is accepted and writes the key [k]. *)
Definition proposes (parseFloat_string : string -> jsnum) (o : Quote.t)
  (k : string) : Prop :=
  exists p,
    proposed_row 0 (values parseFloat_string o) = inr p
    /\ Row.option_symbol p = k.


(** A table with one stored put on AAPL and one call on TSLA. *)
Definition two_contracts : Database :=
  mkDatabase
    [sample_row 1 "AAPL" "AAPL 250919P232.5" "Put" 23250 (Some (Dec 115))
       1000;
     sample_row 2 "TSLA" "TSLA 250919C400" "Call" 40000 (Some (Dec 820))
       1000]
    2 [].

(** The order of the groups of an aggregation, spelled out: earlier
    expirations first, then lower strikes. *)
Definition key_lt (a b : Z * numeric) : Prop :=
  fst a < fst b \/ (fst a = fst b /\ numeric_lt (snd a) (snd b)).

(** The [CHECK] constraint on [option_type]. *)
Definition type_checked (r : Row.t) : Prop :=
  In (Row.option_type r) ["Put"; "Call"].

(** The group [g] with [s] in its [symbols] column. *)
Definition name_symbols (s : string) (g : AggregateRow.t) : AggregateRow.t :=
  AggregateRow.make (AggregateRow.expiration_date g) (AggregateRow.strike g)
    (AggregateRow.call_mid_price g) (AggregateRow.put_mid_price g)
    (AggregateRow.total_mid_price g) (AggregateRow.option_count g)
    (AggregateRow.call_count g) (AggregateRow.put_count g) (Some s).

(** Two strikes of SPX, the lower one with a call and a put. *)
Definition call_and_put : Database :=
  mkDatabase
    [sample_row 1 "SPX" "SPX 250919C6100" "Call" 610000 (Some (Dec 250))
       1000;
     sample_row 2 "SPX" "SPX 250919C6000" "Call" 600000 (Some (Dec 500))
       1000;
     sample_row 3 "SPX" "SPX 250919P6000" "Put" 600000 (Some (Dec 300))
       1000]
    3 [].

(** [keepHours] and [dryRun] of a request body after the defaults of the
    destructuring assignment. *)
Definition requested_keepHours (request : Request) : Q :=
  match CleanupBody.keepHours (body request) with
  | Some h => h
  | None => (1 # 2)%Q
  end.

Definition requested_dryRun (request : Request) : bool :=
  match CleanupBody.dryRun (body request) with
  | Some b => b
  | None => false
  end.

(** ** The handler [GET /api/cleanup-options] *)

(** [new URL(request.url).searchParams]: what [get] answers for the three
    parameters that the handler reads, [None] for [null]. *)
Record SearchParams : Type := mkSearchParams {
  param_keepHours : option string;
  param_dryRun : option string;
  param_symbols : option string
}.

(** [s.split(',')] *)
Fixpoint split_comma (s : string) : list string :=
  match s with
  | EmptyString => [EmptyString]
  | String c s' =>
      if Ascii.eqb c ","%char then EmptyString :: split_comma s'
      else match split_comma s' with
           | x :: l => String c x :: l
           | [] => [String c EmptyString]
           end
  end.

Module CleanupOptions.
Section Handler.

(** [parseFloat] on strings and [String.prototype.trim], builtins of the
    host language. *)
Variable parseFloat_string : string -> jsnum.
Variable trim : string -> string.

Definition GET (env : Environment) (request : Request)
  (searchParams : SearchParams) (now : Z) (d : Database)
  : Response * Database :=
  if negb (verifyApiKey env request) then (Status401, d)
  else
    let keepHours :=
      match parseFloat parseFloat_string
              (match param_keepHours searchParams with
               | Some s => JString s
               | None => JNull
               end) with
      | JFin q => if Qeq_bool q 0 then (1 # 2)%Q else q
      | JNaN => (1 # 2)%Q
      end in
    let dryRun :=
      match param_dryRun searchParams with
      | Some s => String.eqb s "true"
      | None => false
      end in
    let symbols :=
      match param_symbols searchParams with
      | Some symbolsParam =>
          if String.eqb symbolsParam "" then None
          else Some (map trim (split_comma symbolsParam))
      | None => None
      end in
    if Qle_bool keepHours 0 then
      (Status400 "keepHours must be a positive number", d)
    else
      let '(outcome, d') :=
        match symbols with
        | Some (s :: rest) =>
            cleanupOldOptionsData (s :: rest) keepHours dryRun now d
        | _ => cleanupAllOldOptionsData keepHours dryRun now d
        end in
      match outcome with
      | Returned result => (Status200 result, d')
      | Thrown error => (Status500 error, d')
      end.

End Handler.
End CleanupOptions.

(** The search parameters [p] without [keepHours], and without
    [dryRun]. *)
Definition without_keepHours (p : SearchParams) : SearchParams :=
  mkSearchParams None (param_dryRun p) (param_symbols p).

Definition without_dryRun (p : SearchParams) : SearchParams :=
  mkSearchParams (param_keepHours p) None (param_symbols p).

(** ** Authentication: [lib/auth.js] *)

(** The request headers that [verifyApiKey] reads, [None] for [null]. *)
Record Headers : Type := mkHeaders {
  header_x_api_key : option string;
  header_authorization : option string
}.

(** The [config] argument; a missing field is [None]. *)
Record AuthConfig : Type := mkAuthConfig {
  method : option string;
  apiKeyEnvVar : option string;
  bearerEnvVar : option string
}.

(** [v || dflt] on a string that may be missing. *)
Definition or_default (v : option string) (dflt : string) : string :=
  match v with
  | Some s => if String.eqb s "" then dflt else s
  | None => dflt
  end.

(** [s.substring(n)] *)
Definition substring_from (n : nat) (s : string) : string :=
  substring n (String.length s - n) s.

Definition option_string_eqb (a b : option string) : bool :=
  match a, b with
  | Some x, Some y => String.eqb x y
  | None, None => true
  | _, _ => false
  end.

Module Auth.

(** [verifyApiKey(request, config)]; [env] is [process.env]. *)
Definition verifyApiKey (env : string -> option string) (headers : Headers)
  (config : AuthConfig) : bool :=
  let by_header :=
    if option_string_eqb (method config) (Some "x-api-key")
       || option_string_eqb (method config) (Some "both")
    then
      let apiKey := header_x_api_key headers in
      let expectedApiKey := env (or_default (apiKeyEnvVar config) "API_KEY") in
      match expectedApiKey with
      | Some expected =>
          negb (String.eqb expected "")
          && option_string_eqb apiKey (Some expected)
      | None => false
      end
    else false in
  if by_header then true
  else
    if option_string_eqb (method config) (Some "bearer")
       || option_string_eqb (method config) (Some "both")
    then
      let authHeader := header_authorization headers in
      let expectedBearerKey :=
        env (or_default (bearerEnvVar config) "VERCEL_API_KEY") in
      match expectedBearerKey, authHeader with
      | Some expected, Some auth =>
          negb (String.eqb expected "") && negb (String.eqb auth "")
          && String.prefix "Bearer " auth
          && String.eqb (substring_from 7 auth) expected
      | _, _ => false
      end
    else false.

(** The default value of [config]. *)
Definition default_config : AuthConfig :=
  mkAuthConfig (Some "x-api-key") (Some "API_KEY") None.

(** [optionsAuth.verify] and [backendAuth.verify] *)
Definition optionsAuth_verify (env : string -> option string)
  (headers : Headers) : bool :=
  verifyApiKey env headers (mkAuthConfig (Some "x-api-key") (Some "API_KEY") None).

Definition backendAuth_verify (env : string -> option string)
  (headers : Headers) : bool :=
  verifyApiKey env headers
    (mkAuthConfig (Some "bearer") None (Some "VERCEL_API_KEY")).

End Auth.

(** A process environment with both keys set. *)
Definition both_keys (name : string) : option string :=
  if String.eqb name "API_KEY" then Some "secret"
  else if String.eqb name "VERCEL_API_KEY" then Some "token"
  else None.

(** ** The command line of [cleanup-options-data.js] *)

Module CliOptions.
Record t : Type := make {
  symbols : option (list string);
  keepHours : Q;
  dryRun : bool;
  all : bool;
  help : bool
}.
End CliOptions.

(** The calls of [process.exit(1)], by the message printed before. *)
Inductive ExitReason : Type :=
| SymbolsNeedsList
| KeepHoursNotPositive
| KeepHoursNeedsNumber
| UnknownArgument (arg : string)
| NeitherSymbolsNorAll
| BothAllAndSymbols.

(** What [main] goes on to do once the arguments are read. *)
Inductive Plan : Type :=
| ShowHelp
| Exit1 (reason : ExitReason)
| CleanAll (keepHours : Q) (dryRun : bool)
| CleanSymbols (symbols : list string) (keepHours : Q) (dryRun : bool).

Module Cli.
Section Script.

(** [parseInt] on strings and [String.prototype.trim], builtins of the
    host language. *)
Variable parseInt_string : string -> jsnum.
Variable trim : string -> string.

(** The loop [for (let i = 0; i < args.length; i++)] over the arguments
    from index [i] on. *)
Fixpoint parse_loop (args : list string) (options : CliOptions.t)
  : CliOptions.t + ExitReason :=
  match args with
  | [] => inl options
  | arg :: rest =>
      if String.eqb arg "--symbols" then
        match rest with
        | value :: rest' =>
            parse_loop rest'
              (CliOptions.make (Some (map trim (split_comma value)))
                 (CliOptions.keepHours options) (CliOptions.dryRun options)
                 (CliOptions.all options) (CliOptions.help options))
        | [] => inr SymbolsNeedsList
        end
      else if String.eqb arg "--keep-hours" then
        match rest with
        | value :: rest' =>
            match parseInt_string value with
            | JNaN => inr KeepHoursNotPositive
            | JFin hours =>
                if Qle_bool 1 hours then
                  parse_loop rest'
                    (CliOptions.make (CliOptions.symbols options) hours
                       (CliOptions.dryRun options) (CliOptions.all options)
                       (CliOptions.help options))
                else inr KeepHoursNotPositive
            end
        | [] => inr KeepHoursNeedsNumber
        end
      else if String.eqb arg "--dry-run" then
        parse_loop rest
          (CliOptions.make (CliOptions.symbols options)
             (CliOptions.keepHours options) true (CliOptions.all options)
             (CliOptions.help options))
      else if String.eqb arg "--all" then
        parse_loop rest
          (CliOptions.make (CliOptions.symbols options)
             (CliOptions.keepHours options) (CliOptions.dryRun options) true
             (CliOptions.help options))
      else if String.eqb arg "--help" then
        parse_loop rest
          (CliOptions.make (CliOptions.symbols options)
             (CliOptions.keepHours options) (CliOptions.dryRun options)
             (CliOptions.all options) true)
      else inr (UnknownArgument arg)
  end.

(** [parseArguments()]; [args] is [process.argv.slice(2)]. *)
Definition parseArguments (args : list string) : CliOptions.t + ExitReason :=
  parse_loop args (CliOptions.make None (1 # 2)%Q false false false).

(** [main()] up to its first use of the database. *)
Definition main (args : list string) : Plan :=
  match parseArguments args with
  | inr reason => Exit1 reason
  | inl options =>
      if CliOptions.help options then ShowHelp
      else
        match CliOptions.all options, CliOptions.symbols options with
        | false, None => Exit1 NeitherSymbolsNorAll
        | true, Some _ => Exit1 BothAllAndSymbols
        | true, None =>
            CleanAll (CliOptions.keepHours options)
              (CliOptions.dryRun options)
        | false, Some symbols =>
            CleanSymbols symbols (CliOptions.keepHours options)
              (CliOptions.dryRun options)
        end
  end.

End Script.
End Cli.

(** A reading of [parseInt] on plain decimal literals: sign and digits,
    up to the first other character. *)
Fixpoint scan_digits (s : string) (acc : option Z) : option Z :=
  match s with
  | EmptyString => acc
  | String c s' =>
      match digit_of c with
      | Some dg =>
          scan_digits s'
            (Some (10 * match acc with Some a => a | None => 0 end + dg))
      | None => acc
      end
  end.

Definition parseInt_decimal (s : string) : jsnum :=
  match s with
  | String "-"%char s' =>
      match scan_digits s' None with
      | Some m => JFin (inject_Z (- m))
      | None => JNaN
      end
  | _ =>
      match scan_digits s None with
      | Some m => JFin (inject_Z m)
      | None => JNaN
      end
  end.

(** What the argument loop can have done to each option. *)
Definition options_from (parseInt_string : string -> jsnum)
  (trim : string -> string) (args : list string) (o0 o : CliOptions.t)
  : Prop :=
  ((CliOptions.keepHours o = CliOptions.keepHours o0)
   \/ (1 <= CliOptions.keepHours o)%Q
      /\ In "--keep-hours" args
      /\ exists v, In v args
                   /\ parseInt_string v = JFin (CliOptions.keepHours o))
  /\ (CliOptions.dryRun o = CliOptions.dryRun o0
      \/ CliOptions.dryRun o = true /\ In "--dry-run" args)
  /\ (CliOptions.all o = CliOptions.all o0
      \/ CliOptions.all o = true /\ In "--all" args)
  /\ (CliOptions.help o = CliOptions.help o0
      \/ CliOptions.help o = true /\ In "--help" args)
  /\ (CliOptions.symbols o = CliOptions.symbols o0
      \/ In "--symbols" args
         /\ exists v, In v args
                      /\ CliOptions.symbols o
                         = Some (map trim (split_comma v))).

(** ** The handler [POST /api/collect-options], after the collection *)

(** [symbol.replace(/^\$/, '').replace(/\.X$/, '')] *)
Definition strip_leading_dollar (s : string) : string :=
  match s with
  | String "$"%char s' => s'
  | _ => s
  end.

Fixpoint strip_trailing_dot_X (s : string) : string :=
  match s with
  | EmptyString => EmptyString
  | String c s' =>
      if String.eqb s ".X" then EmptyString
      else String c (strip_trailing_dot_X s')
  end.

Definition normalize_symbol (symbol : string) : string :=
  strip_trailing_dot_X (strip_leading_dollar symbol).

Module CollectOptions.
Section Handler.
Variable parseFloat_string : string -> jsnum.

(** What the handler does with the database once [collector.collect()]
    has returned [result] for [collector.symbols]: the optional cleanup,
    then the optional save, each with its error caught and logged. *)
Definition persist (saveToDatabase cleanupOldData : bool) (keepHours : Q)
  (symbols : list string) (result : list Quote.t) (now : Z) (d : Database)
  : option CleanupResult.t * option UpsertSummary.t * Database :=
  let '(cleanupResult, d) :=
    if saveToDatabase && cleanupOldData then
      let normalizedSymbols := map normalize_symbol symbols in
      match cleanupOldOptionsData normalizedSymbols keepHours false now d with
      | (Returned r, d') => (Some r, d')
      | (Thrown _, d') => (None, d')
      end
    else (None, d) in
  let '(databaseResult, d) :=
    if saveToDatabase && (0 <? count result) then
      match insertOptionsData parseFloat_string result d with
      | (Returned s, d') => (Some s, d')
      | (Thrown _, d') => (None, d')
      end
    else (None, d) in
  (cleanupResult, databaseResult, d).

End Handler.
End CollectOptions.

(** ** The TradeStation token: [tokenManager.js] *)

(** [!!s] on a string that may be missing. *)
Definition truthy_string (s : option string) : bool :=
  match s with
  | Some x => negb (String.eqb x "")
  | None => false
  end.

(** [a >= b] on numbers: false when either is NaN. *)
Definition js_geb (a b : jsnum) : bool :=
  match a, b with
  | JFin x, JFin y => Qle_bool y x
  | _, _ => false
  end.

Definition js_add (a b : jsnum) : jsnum :=
  match a, b with
  | JFin x, JFin y => JFin (x + y)
  | _, _ => JNaN
  end.

Definition js_sub (a b : jsnum) : jsnum :=
  match a, b with
  | JFin x, JFin y => JFin (x - y)
  | _, _ => JNaN
  end.

Definition js_mul (a b : jsnum) : jsnum :=
  match a, b with
  | JFin x, JFin y => JFin (x * y)
  | _, _ => JNaN
  end.

Module TokenManager.

(** The fields of the singleton. *)
Record t : Type := make {
  accessToken : option string;
  refreshToken : option string;
  tokenExpiry : jsnum;
  isRefreshing : bool;
  lastRefreshAttempt : Z;
  refreshAttempts : Z
}.

Definition MAX_REFRESH_ATTEMPTS : Z := 3.

(** [response.data] of a token request that succeeded. *)
Record TokenResponse : Type := mkTokenResponse {
  access_token : option string;
  expires_in : jsnum
}.

(** [new TokenManager()]; the argument is
    [process.env.TRADESTATION_REFRESH_TOKEN]. *)
Definition constructor (TRADESTATION_REFRESH_TOKEN : option string) : t :=
  make None
    (if truthy_string TRADESTATION_REFRESH_TOKEN
     then TRADESTATION_REFRESH_TOKEN else None)
    (JFin 0) false 0 0.

(** [isTokenValid()]; [now] is the reading of [Date.now()]. *)
Definition isTokenValid (m : t) (now : Z) : bool :=
  if negb (truthy_string (accessToken m)) then false
  else
    let bufferTime := JFin (inject_Z (5 * 60 * 1000)) in
    let isExpired :=
      js_geb (JFin (inject_Z now)) (js_sub (tokenExpiry m) bufferTime) in
    if isExpired then false else true.

Definition canAttemptRefresh (m : t) : bool :=
  if negb (truthy_string (refreshToken m)) then false
  else if MAX_REFRESH_ATTEMPTS <=? refreshAttempts m then false
  else true.

(** [refreshAccessToken()]: [sent] and [received] are the readings of
    [Date.now()] before and after the request, [response] is what the
    token endpoint answers, [None] when the request fails.  The second
    component tells whether the request was made. *)
Definition refreshAccessToken (m : t) (sent received : Z)
  (response : option TokenResponse) : bool * bool * t :=
  if negb (truthy_string (refreshToken m)) then (false, false, m)
  else if MAX_REFRESH_ATTEMPTS <=? refreshAttempts m then (false, false, m)
  else
    let m :=
      make (accessToken m) (refreshToken m) (tokenExpiry m) true sent
        (refreshAttempts m + 1) in
    match response with
    | Some data =>
        (true, true,
         make (access_token data) (refreshToken m)
           (js_add (JFin (inject_Z received))
              (js_mul (expires_in data) (JFin 1000)))
           false (lastRefreshAttempt m) 0)
    | None =>
        (false, true,
         make (accessToken m) (refreshToken m) (tokenExpiry m) false
           (lastRefreshAttempt m) (refreshAttempts m))
    end.

(** [ensureValidToken()], for calls that do not overlap. *)
Definition ensureValidToken (m : t) (now sent received : Z)
  (response : option TokenResponse) : bool * bool * t :=
  if truthy_string (accessToken m) && isTokenValid m now then (true, false, m)
  else
    if canAttemptRefresh m then
      match refreshAccessToken m sent received response with
      | (true, requested, m') => (true, requested, m')
      | (false, requested, m') => (false, requested, m')
      end
    else (false, false, m).

End TokenManager.

(** One call of [ensureValidToken]: its three clock readings and the
    answer of the token endpoint. *)
Record TokenCall : Type := mkTokenCall {
  call_now : Z;
  call_sent : Z;
  call_received : Z;
  call_response : option TokenManager.TokenResponse
}.

(** Successive calls: the results, the number of requests made, and the
    state left behind. *)
Fixpoint ensure_each (m : TokenManager.t) (calls : list TokenCall)
  : list bool * Z * TokenManager.t :=
  match calls with
  | [] => ([], 0, m)
  | c :: rest =>
      let '(ok, requested, m1) :=
        TokenManager.ensureValidToken m (call_now c) (call_sent c)
          (call_received c) (call_response c) in
      let '(oks, n, m2) := ensure_each m1 rest in
      (ok :: oks, (if requested then 1 else 0) + n, m2)
  end.

(** ** The collector: [cleanOptionsData] *)

Module Collector.

(** One leg of a streamed chain entry, the entry itself, and the
    expiration it was asked for. *)
Record Leg : Type := mkLeg {
  StrikePrice : jsval;
  OptionType : option string;
  Symbol : option string
}.

Record RawData : Type := mkRawData {
  raw_Ask : jsval;
  raw_Bid : jsval;
  raw_Mid : jsval;
  raw_Close : jsval;
  raw_High : jsval;
  raw_Last : jsval;
  raw_Low : jsval;
  raw_Open : jsval;
  raw_PreviousClose : jsval;
  (** [None] when [rawData.Legs] is missing or not an array *)
  raw_Legs : option (list Leg)
}.

Record Expiration : Type := mkExpiration {
  expiration_Date : option Z;
  expiration_Type : option string
}.

(** [v || null] *)
Definition or_null (v : jsval) : jsval :=
  if ToBoolean v then v else JNull.

Definition or_null_string (s : option string) : option string :=
  if truthy_string s then s else None.

(** The body of [for (const leg of rawData.Legs)]; [clock k] is the
    reading of [new Date()] for the leg of index [k]. *)
Fixpoint clean_legs (rawData : RawData) (expiration : Expiration)
  (clock : nat -> Z) (k : nat) (legs : list Leg) : list Quote.t :=
  match legs with
  | [] => []
  | leg :: rest =>
      Quote.make (expiration_Date expiration) (or_null (StrikePrice leg))
        (or_null_string (expiration_Type expiration))
        (or_null (raw_Ask rawData)) (or_null (raw_Bid rawData))
        (or_null (raw_Mid rawData)) (or_null (raw_Close rawData))
        (or_null (raw_High rawData)) (or_null (raw_Last rawData))
        (or_null (raw_Low rawData)) (or_null (raw_Open rawData))
        (or_null (raw_PreviousClose rawData))
        (or_null_string (OptionType leg)) (or_null_string (Symbol leg))
        (Some (clock k))
      :: clean_legs rawData expiration clock (S k) rest
  end.

Definition cleanOptionsData (rawData : RawData) (expiration : Expiration)
  (clock : nat -> Z) : list Quote.t :=
  match raw_Legs rawData with
  | Some legs => clean_legs rawData expiration clock 0 legs
  | None => []
  end.

Definition price (f : PriceField) (rawData : RawData) : jsval :=
  match f with
  | Ask => raw_Ask rawData | Bid => raw_Bid rawData
  | Mid => raw_Mid rawData | Close => raw_Close rawData
  | High => raw_High rawData | Last => raw_Last rawData
  | Low => raw_Low rawData | Open => raw_Open rawData
  | PreviousClose => raw_PreviousClose rawData
  end.

End Collector.

(** A chain entry with a call and a put at one strike and no ask. *)
Definition spread_entry : Collector.RawData :=
  Collector.mkRawData (JString "0") (JString "1.10") (JString "1.15")
    JUndefined JUndefined (JString "1.12") JUndefined JUndefined
    (JString "1.05")
    (Some [Collector.mkLeg (JString "6000") (Some "Call")
             (Some "SPX 250919C6000");
           Collector.mkLeg (JString "6000") (Some "Put")
             (Some "SPX 250919P6000")]).

(** ** The handlers [GET /api/options-data] and the aggregated one *)

(** What [searchParams.get] answers for the four parameters that both
    handlers read, [None] for [null]. *)
Record QueryParams : Type := mkQueryParams {
  query_symbol : option string;
  query_startDate : option string;
  query_endDate : option string;
  query_limit : option string
}.

Inductive Answer (A : Type) : Type :=
| Answer200 (data : A)
| Answer400 (error : string)
| Answer401
| Answer500.

Arguments Answer200 {A} data.
Arguments Answer400 {A} error.
Arguments Answer401 {A}.
Arguments Answer500 {A}.

(** [data] of the aggregated handler: groups with a [startDate], rows
    without. *)
Inductive AggregatedData : Type :=
| aggregated_by_strike (groups : list AggregateRow.t)
| latest_options (rows : list Row.t).

(** A string that passes [if (s)], if it does. *)
Definition truthy_value (s : option string) : option string :=
  if truthy_string s then s else None.

Module DataRoutes.
Section Handlers.

(** [parseInt] on strings is an integer or NaN ([None]);
    [timestamp_of_string] is the database reading the text of a
    [TIMESTAMP WITH TIME ZONE] parameter, [None] when it rejects it;
    [toUpperCase] is the builtin. *)
Variable parseInt_string : string -> option Z.
Variable timestamp_of_string : string -> option Z.
Variable toUpperCase : string -> string.

(** [parseInt(searchParams.get('limit')) || 100] *)
Definition limit_of (searchParams : QueryParams) : Z :=
  match query_limit searchParams with
  | Some s =>
      match parseInt_string s with
      | Some n => if n =? 0 then 100 else n
      | None => 100
      end
  | None => 100
  end.

(** [endDate || '9999-12-31'] *)
Definition endDateParam (searchParams : QueryParams) : string :=
  or_default (query_endDate searchParams) "9999-12-31".

(** [GET] of [app/api/options-data/route.js] *)
Definition options_data_GET (env : Environment) (request : Request)
  (searchParams : QueryParams) (d : Database)
  : Answer (list Row.t) * Database :=
  if negb (verifyApiKey env request) then (Answer401, d)
  else
    let limit := limit_of searchParams in
    match query_symbol searchParams with
    | None => (Answer400 "Symbol parameter is required", d)
    | Some symbol =>
        if String.eqb symbol "" then
          (Answer400 "Symbol parameter is required", d)
        else
          let '(outcome, d') :=
            match truthy_value (query_startDate searchParams) with
            | Some startDate =>
                match
                  timestamp_of_string startDate,
                  timestamp_of_string (endDateParam searchParams)
                with
                | Some startDate, Some endDate =>
                    getOptionsData symbol startDate endDate d
                | _, _ =>
                    (Thrown SyntaxError,
                     release (record StSelect (connect d)))
                end
            | None => getLatestOptionsData symbol (Some limit) d
            end in
          match outcome with
          | Returned data => (Answer200 data, d')
          | Thrown _ => (Answer500, d')
          end
    end.

(** [GET] of the aggregated handler *)
Definition aggregated_GET (env : Environment) (request : Request)
  (searchParams : QueryParams) (d : Database)
  : Answer AggregatedData * Database :=
  if negb (verifyApiKey env request) then (Answer401, d)
  else
    let limit := limit_of searchParams in
    match query_symbol searchParams with
    | None => (Answer400 "Symbol parameter is required", d)
    | Some symbol =>
        if String.eqb symbol "" then
          (Answer400 "Symbol parameter is required", d)
        else
          match truthy_value (query_startDate searchParams) with
          | Some startDate =>
              match
                timestamp_of_string startDate,
                timestamp_of_string (endDateParam searchParams)
              with
              | Some startDate, Some endDate =>
                  let '(outcome, d') :=
                    if String.eqb (toUpperCase symbol) "SPX" then
                      getAggregatedOptionsDataMultiSymbol ["SPX"; "SPXW"]
                        startDate endDate d
                    else
                      getAggregatedOptionsData symbol startDate endDate d in
                  match outcome with
                  | Returned data =>
                      (Answer200 (aggregated_by_strike data), d')
                  | Thrown _ => (Answer500, d')
                  end
              | _, _ => (Answer500, release (record StSelect (connect d)))
              end
          | None =>
              match getLatestOptionsData symbol (Some limit) d with
              | (Returned data, d') => (Answer200 (latest_options data), d')
              | (Thrown _, d') => (Answer500, d')
              end
          end
    end.

End Handlers.
End DataRoutes.

(** The query parameters [p] without [limit]. *)
Definition without_limit (p : QueryParams) : QueryParams :=
  mkQueryParams (query_symbol p) (query_startDate p) (query_endDate p) None.

(** A reading of timestamps for the examples: two dates. *)
Definition timestamp_example (s : string) : option Z :=
  if String.eqb s "2025-09-01" then Some 1756684800000
  else if String.eqb s "9999-12-31" then Some 253402214400000
  else None.

(** [toUpperCase] on the letters [a] to [z]. *)
Definition upper_ascii (c : ascii) : ascii :=
  let n := N_of_ascii c in
  if ((97 <=? n) && (n <=? 122))%N then ascii_of_N (n - 32) else c.

Fixpoint toUpperCase_ascii (s : string) : string :=
  match s with
  | EmptyString => EmptyString
  | String c s' => String (upper_ascii c) (toUpperCase_ascii s')
  end.

(** SPX and SPXW contracts at one strike, and one AAPL contract. *)
Definition index_contracts : Database :=
  mkDatabase
    [sample_row 1 "SPX" "SPX 250919C6000" "Call" 600000 (Some (Dec 500))
       1000;
     sample_row 2 "SPXW" "SPXW 250919P6000" "Put" 600000 (Some (Dec 300))
       2000;
     sample_row 3 "AAPL" "AAPL 250919P232.5" "Put" 23250 (Some (Dec 115))
       3000]
    3 [].

(** A reading of [parseInt] as an integer or NaN: sign and digits, up to
    the first other character. *)
Definition parseInt_digits (s : string) : option Z :=
  match s with
  | String "-"%char s' => option_map Z.opp (scan_digits s' None)
  | _ => scan_digits s None
  end.


(** The AAPL put of [quote_AAPL], stored with an [ask] of 1.20. *)
Definition stored_put : Row.t :=
  Row.make 1 "AAPL" 1758240000000 (Dec 23250) "Weekly"
    (Some (Dec 120)) (Some (Dec 110)) (Some (Dec 115)) None None
    (Some (Dec 112)) None None (Some (Dec 105))
    "Put" "AAPL 250919P232.5" 1000.

(** ** Proof automation *)

(** Unfolds the checks of [proposed_row] one after the other, leaving the
    case in which all of them pass. *)
Ltac pass_checks :=
  unfold proposed_row;
  repeat match goal with
         | |- context [bindE ?x _] =>
             let E := fresh "E" in
             destruct x eqn:E; simpl; [discriminate|]
         end.

(** * Properties *)

(** ** Lists *)

Lemma filter_filter {A : Type} (p q : A -> bool) (l : list A) :
  filter q (filter p l) = filter (fun x => p x && q x) l.
Proof.
  induction l as [|x l IH]; simpl; [reflexivity|].
  destruct (p x); simpl; [destruct (q x)|]; rewrite IH; reflexivity.
Qed.

Lemma filter_all {A : Type} (p : A -> bool) (l : list A) :
  (forall x, In x l -> p x = true) -> filter p l = l.
Proof.
  induction l as [|x l IH]; simpl; intros H; [reflexivity|].
  rewrite (H x (or_introl eq_refl)), IH; [reflexivity|].
  intros y Hy. apply H. right. exact Hy.
Qed.

Lemma filter_none {A : Type} (p : A -> bool) (l : list A) :
  (forall x, In x l -> p x = false) -> filter p l = [].
Proof.
  induction l as [|x l IH]; simpl; intros H; [reflexivity|].
  rewrite (H x (or_introl eq_refl)). apply IH.
  intros y Hy. apply H. right. exact Hy.
Qed.

Lemma count_filter_split {A : Type} (p : A -> bool) (l : list A) :
  count l = count (filter p l) + count (filter (fun x => negb (p x)) l).
Proof.
  unfold count.
  induction l as [|x l IH]; cbn [filter List.length]; [reflexivity|].
  destruct (p x); cbn [negb List.length]; rewrite ?Nat2Z.inj_succ; lia.
Qed.

Lemma count_nonneg {A : Type} (l : list A) : 0 <= count l.
Proof. unfold count. lia. Qed.

Lemma In_insert_by {A : Type} (leb : A -> A -> bool) (x y : A) (l : list A) :
  In y (insert_by leb x l) <-> y = x \/ In y l.
Proof.
  induction l as [|z l IH]; simpl.
  - intuition.
  - destruct (leb x z); simpl; [intuition|]. rewrite IH. intuition.
Qed.

Lemma In_order_by {A : Type} (leb : A -> A -> bool) (y : A) (l : list A) :
  In y (order_by leb l) <-> In y l.
Proof.
  induction l as [|x l IH]; simpl; [reflexivity|].
  rewrite In_insert_by, IH. intuition.
Qed.

Lemma Permutation_insert_by {A : Type} (leb : A -> A -> bool) (x : A)
  (l : list A) : Permutation (x :: l) (insert_by leb x l).
Proof.
  induction l as [|y l IH]; simpl; [reflexivity|].
  destruct (leb x y); [reflexivity|].
  rewrite perm_swap. constructor. exact IH.
Qed.

Lemma Permutation_order_by {A : Type} (leb : A -> A -> bool) (l : list A) :
  Permutation l (order_by leb l).
Proof.
  induction l as [|x l IH]; simpl; [constructor|].
  rewrite <- Permutation_insert_by. constructor. exact IH.
Qed.

Lemma In_distinct_string (s : string) (l : list string) :
  In s (distinct String.eqb l) <-> In s l.
Proof.
  induction l as [|x l IH]; simpl; [reflexivity|].
  destruct (existsb (String.eqb x) l) eqn:E; simpl; rewrite IH.
  - split; [tauto|]. intros [<-|H]; [|exact H].
    apply existsb_exists in E. destruct E as [y [Hy Exy]].
    apply String.eqb_eq in Exy. subst y. exact Hy.
  - reflexivity.
Qed.

Lemma NoDup_distinct_string (l : list string) : NoDup (distinct String.eqb l).
Proof.
  induction l as [|x l IH]; simpl; [constructor|].
  destruct (existsb (String.eqb x) l) eqn:E; [exact IH|].
  constructor; [|exact IH].
  rewrite In_distinct_string. intros H.
  assert (existsb (String.eqb x) l = true) as E'
    by (apply existsb_exists; exists x; split; [exact H|apply String.eqb_refl]).
  congruence.
Qed.

Lemma existsb_string_In (s : string) (l : list string) :
  existsb (String.eqb s) l = true <-> In s l.
Proof.
  rewrite existsb_exists. split.
  - intros [y [Hy E]]. apply String.eqb_eq in E. subst y. exact Hy.
  - intros H. exists s. split; [exact H|apply String.eqb_refl].
Qed.

(** ** Ingestion *)

Section IngestionFacts.
Variable pf : string -> jsnum.

Lemma proposed_row_id (i j : Z) (v : Values.t) :
  proposed_row j v =
  match proposed_row i v with
  | inl e => inl e
  | inr r => inr (with_id j r)
  end.
Proof.
  unfold proposed_row.
  repeat match goal with
         | |- context [bindE ?x _] => destruct x; simpl; [reflexivity|]
         end.
  reflexivity.
Qed.

Lemma proposed_row_ok (i : Z) (o : Quote.t) :
  row_error pf o = None ->
  exists p, proposed_row 0 (values pf o) = inr p
            /\ proposed_row i (values pf o) = inr (with_id i p).
Proof.
  unfold row_error. intros H.
  destruct (proposed_row 0 (values pf o)) as [e|p] eqn:E; [discriminate|].
  exists p. split; [reflexivity|].
  rewrite (proposed_row_id 0 i), E. reflexivity.
Qed.

Lemma proposed_row_error (i : Z) (o : Quote.t) (e : DbError) :
  row_error pf o = Some e -> proposed_row i (values pf o) = inl e.
Proof.
  unfold row_error. intros H.
  rewrite (proposed_row_id 0 i).
  destruct (proposed_row 0 (values pf o)); congruence.
Qed.

Lemma decimal_10_2_null_inr (column : string) (x : option jsnum)
  (o : option numeric) :
  decimal_10_2_null column x = inr o ->
  o = stored_price x /\ (x <> None -> o <> None).
Proof.
  unfold decimal_10_2_null, decimal_10_2, stored_price.
  destruct x as [n|]; simpl; [|intros [= <-]; split; congruence].
  destruct (to_decimal_10_2 n); simpl; intros [= <-]; split; congruence.
Qed.

(** What the columns of an accepted row hold. *)
Lemma proposed_row_columns (i : Z) (v : Values.t) (p : Row.t) :
  proposed_row i v = inr p ->
  (forall f, Row.price f p = stored_price (Values.price f v))
  /\ Values.timestamp v = Some (Row.timestamp p)
  /\ Values.expiration_date v = Some (Row.expiration_date p)
  /\ to_decimal_10_2 (Values.strike v) = Some (Row.strike p)
  /\ Row.id p = i
  /\ (forall f, Values.price f v <> None -> Row.price f p <> None).
Proof.
  pass_checks.
  intros [= <-]. simpl.
  repeat match goal with
         | H : decimal_10_2_null _ _ = inr _ |- _ =>
             apply decimal_10_2_null_inr in H; destruct H
         | H : decimal_10_2 _ ?x = inr _ |- _ =>
             unfold decimal_10_2 in H;
             destruct (to_decimal_10_2 x) eqn:?; inversion H; subst; clear H
         | H : not_null _ ?x = inr _ |- _ =>
             unfold not_null in H; destruct x; inversion H; subst; clear H
         end.
  repeat split; try reflexivity; try assumption;
    intros f; destruct f; simpl; (reflexivity || assumption).
Qed.

Lemma values_price (f : PriceField) (o : Quote.t) :
  Values.price f (values pf o) = price_value pf (Quote.price f o).
Proof. destruct f; reflexivity. Qed.

Lemma upsertQuery_thrown (v : Values.t) (c : Client) (e : DbError) :
  proposed_row (serial c + 1) v = inl e ->
  upsertQuery v c =
  (Thrown e,
   mkClient (rows c) (serial c + 1) (snapshot c) (executed c ++ [StUpsert])).
Proof. unfold upsertQuery. simpl. intros ->. reflexivity. Qed.

Lemma upsertQuery_returned (v : Values.t) (c : Client) (r : Row.t) :
  proposed_row (serial c + 1) v = inr r ->
  exists i b t,
    upsertQuery v c =
    (Returned (i, b),
     mkClient t (serial c + 1) (snapshot c) (executed c ++ [StUpsert])).
Proof.
  unfold upsertQuery. simpl. intros ->.
  destruct (find (same_key (Row.option_symbol r)) (rows c)) as [old|];
    eexists; eexists; eexists; reflexivity.
Qed.

(** A batch with a failing record stops at the first of them, with its
    error, inside the transaction that [BEGIN] opened. *)
Lemma upsert_each_thrown (batch : list Quote.t) :
  Exists (fun o => row_error pf o <> None) batch ->
  forall results i u c,
  exists e pre o post c',
    upsert_each pf batch results i u c = (Thrown e, c')
    /\ batch = pre ++ o :: post
    /\ Forall (fun x => row_error pf x = None) pre
    /\ row_error pf o = Some e
    /\ snapshot c' = snapshot c
    /\ executed c' = executed c ++ repeat StUpsert (S (List.length pre)).
Proof.
  induction batch as [|o batch IH]; intros Hex results i u c.
  - inversion Hex.
  - cbn [upsert_each].
    destruct (row_error pf o) as [e|] eqn:Eo.
    + rewrite (upsertQuery_thrown _ _ _
                 (proposed_row_error (serial c + 1) _ _ Eo)).
      exists e, [], o, batch. eexists. split; [reflexivity|].
      simpl. repeat split; auto.
    + assert (Exists (fun o => row_error pf o <> None) batch) as Hex'
        by (inversion Hex; subst; [congruence|assumption]).
      destruct (proposed_row_ok (serial c + 1) _ Eo) as [p [_ Hp]].
      destruct (upsertQuery_returned _ _ _ Hp) as [j [b [t Hq]]].
      rewrite Hq.
      destruct b;
        match goal with
        | |- context [upsert_each pf batch ?rs ?a ?b ?c1] =>
            destruct (IH Hex' rs a b c1)
              as [e [pre [o' [post [c' [H1 [H2 [H3 [H4 [H5 H6]]]]]]]]]]
        end;
        exists e, (o :: pre), o', post, c'; simpl in *;
        (split; [exact H1|]);
        (split; [rewrite H2; reflexivity|]);
        (split; [constructor; assumption|]);
        (split; [exact H4|]);
        (split; [exact H5|]);
        rewrite H6, <- app_assoc; reflexivity.
Qed.

Lemma find_same_key (t : list Row.t) (r : Row.t) :
  unique_keys t -> In r t ->
  find (same_key (Row.option_symbol r)) t = Some r.
Proof.
  unfold unique_keys, same_key.
  induction t as [|x t IH]; simpl; intros Hnd Hin; [contradiction|].
  inversion Hnd as [|k ks Hk Hnd']; subst.
  destruct Hin as [->|Hin].
  - rewrite String.eqb_refl. reflexivity.
  - destruct (String.eqb_spec (Row.option_symbol x) (Row.option_symbol r))
      as [E|_]; [|apply IH; assumption].
    exfalso. apply Hk. rewrite E. apply in_map. exact Hin.
Qed.

Lemma filter_same_key_update (t : list Row.t) (r : Row.t)
  (f : Row.t -> Row.t) :
  unique_keys t -> In r t ->
  (forall x, Row.option_symbol (f x) = Row.option_symbol r) ->
  filter (same_key (Row.option_symbol r))
    (map (fun x => if same_key (Row.option_symbol r) x then f x else x) t)
  = [f r].
Proof.
  unfold unique_keys. intros Hnd Hin Hf.
  induction t as [|x t IH]; simpl; [contradiction|].
  inversion Hnd as [|k ks Hk Hnd']; subst.
  assert (forall y, In y t -> Row.option_symbol y <> Row.option_symbol x)
    as Hother by (intros y Hy E; apply Hk; rewrite <- E; apply in_map, Hy).
  destruct Hin as [->|Hin].
  - assert (same_key (Row.option_symbol r) r = true) as Er
      by apply String.eqb_refl.
    assert (same_key (Row.option_symbol r) (f r) = true) as Efr
      by (unfold same_key; rewrite Hf; apply String.eqb_refl).
    rewrite Er, Efr. f_equal.
    apply filter_none. intros y Hy. apply in_map_iff in Hy.
    destruct Hy as [z [<- Hz]].
    assert (same_key (Row.option_symbol r) z = false) as Ez
      by (apply String.eqb_neq; exact (Hother z Hz)).
    rewrite Ez. exact Ez.
  - assert (same_key (Row.option_symbol r) x = false) as Ex
      by (apply String.eqb_neq; intros E; exact (Hother r Hin (eq_sym E))).
    rewrite Ex, Ex. apply IH; assumption.
Qed.

Lemma keys_update (k : string) (t : list Row.t) (f : Row.t -> Row.t) :
  (forall x, Row.option_symbol (f x) = k) ->
  map Row.option_symbol (map (fun x => if same_key k x then f x else x) t)
  = map Row.option_symbol t.
Proof.
  intros Hf. rewrite map_map. apply map_ext. intros x.
  unfold same_key.
  destruct (String.eqb_spec (Row.option_symbol x) k) as [E|_];
    [rewrite Hf; congruence|reflexivity].
Qed.

(** A price column of an accepted row is NULL exactly when the value the
    record carries for it is falsy: missing, [null], the empty string, NaN
    or zero. *)
Lemma stored_price_null_iff_falsy (i : Z) (o : Quote.t) (p : Row.t)
  (f : PriceField) :
  proposed_row i (values pf o) = inr p ->
  (Row.price f p = None <-> ToBoolean (Quote.price f o) = false).
Proof.
  intros Hp.
  destruct (proposed_row_columns _ _ _ Hp) as [Hprice [_ [_ [_ [_ Hsome]]]]].
  specialize (Hprice f). specialize (Hsome f).
  rewrite values_price in Hprice, Hsome. unfold price_value in *.
  destruct (ToBoolean (Quote.price f o)).
  - split; [|discriminate]. intros Hnone. exfalso.
    apply Hsome; [discriminate|exact Hnone].
  - rewrite Hprice. simpl. tauto.
Qed.

Lemma find_none_key (k : string) (t : list Row.t) :
  find (same_key k) t = None -> ~ In k (map Row.option_symbol t).
Proof.
  intros Hfind Hin. apply in_map_iff in Hin. destruct Hin as [r [<- Hr]].
  apply (find_none _ _ Hfind) in Hr. unfold same_key in Hr.
  rewrite String.eqb_refl in Hr. discriminate.
Qed.

(** The statement keeps the keys of the table distinct. *)
Lemma upsertQuery_unique_keys (v : Values.t) (c : Client) :
  unique_keys (rows c) ->
  unique_keys (rows (snd (upsertQuery v c)))
  /\ snapshot (snd (upsertQuery v c)) = snapshot c.
Proof.
  intros Hu. unfold upsertQuery. simpl.
  destruct (proposed_row (serial c + 1) v) as [e|r]; simpl; [auto|].
  destruct (find (same_key (Row.option_symbol r)) (rows c)) as [old|] eqn:F;
    simpl; split; try reflexivity.
  - unfold unique_keys. rewrite keys_update; [exact Hu|reflexivity].
  - unfold unique_keys. rewrite map_app. simpl.
    apply NoDup_app; [exact Hu|repeat constructor; simpl; tauto|].
    intros k Hk [<-|[]]. exact (find_none_key _ _ F Hk).
Qed.

Lemma upsert_each_unique_keys (batch : list Quote.t) :
  forall results i u c,
    unique_keys (rows c) ->
    unique_keys (rows (snd (upsert_each pf batch results i u c)))
    /\ snapshot (snd (upsert_each pf batch results i u c)) = snapshot c.
Proof.
  induction batch as [|o batch IH]; intros results i u c Hu; [auto|].
  cbn [upsert_each].
  destruct (upsertQuery_unique_keys (values pf o) c Hu) as [H1 H2].
  destruct (upsertQuery (values pf o) c) as [[[j [|]]|e] c1]; simpl in *;
    [| |auto];
    match goal with
    | |- context [upsert_each pf batch ?rs ?a ?b c1] =>
        destruct (IH rs a b c1 H1) as [K1 K2]
    end; split; congruence.
Qed.

(** [UNIQUE(option_symbol)] is an invariant of ingestion, whether the batch
    is committed or rolled back. *)
Lemma insertOptionsData_unique_keys (batch : list Quote.t) (d : Database) :
  unique_keys (table d) ->
  unique_keys (table (snd (insertOptionsData pf batch d))).
Proof.
  intros Hu. unfold insertOptionsData.
  destruct (upsert_each_unique_keys batch [] 0 0 (query_BEGIN (connect d)) Hu)
    as [H1 H2].
  destruct (upsert_each pf batch [] 0 0 (query_BEGIN (connect d)))
    as [[[[results i] u]|e] c]; simpl in *; [exact H1|].
  unfold query_ROLLBACK. simpl. rewrite H2. exact Hu.
Qed.

End IngestionFacts.

(** ** Ingestion: the claims *)

(** C2.  A batch in which some record raises a row-level error is not
    persisted at all: [insertOptionsData] throws the error of the first
    such record, the statements it ran are [BEGIN], the upserts up to and
    including that record and [ROLLBACK], and the table is the one it
    started from.  The empty batch succeeds with [totalProcessed],
    [insertedCount] and [updatedCount] all zero. *)
Theorem upsert_atomicity (pf : string -> jsnum) (batch : list Quote.t)
  (d : Database) :
  (Exists (fun o => row_error pf o <> None) batch ->
   exists e pre o post d',
     insertOptionsData pf batch d = (Thrown e, d')
     /\ batch = pre ++ o :: post
     /\ Forall (fun x => row_error pf x = None) pre
     /\ row_error pf o = Some e
     /\ table d' = table d
     /\ log d'
        = log d ++ [StBegin] ++ repeat StUpsert (S (List.length pre))
          ++ [StRollback])
  /\ (exists d',
        insertOptionsData pf [] d
        = (Returned (UpsertSummary.make true 0 0 0 []), d')
        /\ table d' = table d
        /\ log d' = log d ++ [StBegin; StCommit]).
Proof.
  split.
  - intros Hex. unfold insertOptionsData.
    destruct (upsert_each_thrown pf batch Hex [] 0 0 (query_BEGIN (connect d)))
      as [e [pre [o [post [c' [H1 [H2 [H3 [H4 [H5 H6]]]]]]]]]].
    rewrite H1. exists e, pre, o, post. eexists. split; [reflexivity|].
    unfold query_ROLLBACK, record. simpl in *. rewrite H5. simpl.
    repeat split; try assumption.
    rewrite H6, <- !app_assoc. reflexivity.
  - eexists. split; [reflexivity|]. simpl. split; [reflexivity|].
    rewrite <- app_assoc. reflexivity.
Qed.

Lemma upsert_atomicity_witness :
  Exists (fun o => row_error parseFloat_decimal o <> None)
    [quote_AAPL (JString "1.20") 1000; quote_without_type]
  /\ exists d',
       insertOptionsData parseFloat_decimal
         [quote_AAPL (JString "1.20") 1000; quote_without_type]
         empty_database
       = (Thrown (NotNullViolation "option_type"), d')
       /\ table d' = [].
Proof.
  assert (Exists (fun o => row_error parseFloat_decimal o <> None)
            [quote_AAPL (JString "1.20") 1000; quote_without_type]) as Hex
    by (right; left; vm_compute; discriminate).
  split; [exact Hex|].
  destruct (proj1 (upsert_atomicity parseFloat_decimal
                     [quote_AAPL (JString "1.20") 1000; quote_without_type]
                     empty_database) Hex)
    as [e [pre [o [post [d' [H1 [_ [_ [_ [H5 _]]]]]]]]]].
  exists d'. split; [|exact H5].
  rewrite H1. f_equal.
  assert (fst (insertOptionsData parseFloat_decimal
                 [quote_AAPL (JString "1.20") 1000; quote_without_type]
                 empty_database)
          = Thrown (NotNullViolation "option_type")) as Hv
    by (vm_compute; reflexivity).
  rewrite H1 in Hv. exact Hv.
Defined.

(** When a row with the key of an acceptable record is already stored,
    upserting the record leaves exactly one row with that key and as many
    rows as before, reports [updated], gives the row the observation time
    of the record and the prices that the statement is given for it, and
    leaves its identity, its underlying symbol, its expiration date and
    type, its strike and its option type as they were.  [p] is the row the
    record proposes. *)
Theorem upsert_existing_key (pf : string -> jsnum) (d : Database)
  (r : Row.t) (o : Quote.t) (p : Row.t) :
  unique_keys (table d) ->
  In r (table d) ->
  proposed_row 0 (values pf o) = inr p ->
  Row.option_symbol p = Row.option_symbol r ->
  exists d' r',
    insertOptionsData pf [o] d
    = (Returned
         (UpsertSummary.make true 1 0 1 [mkUpsertEntry (Row.id r) updated]),
       d')
    /\ filter (same_key (Row.option_symbol r)) (table d') = [r']
    /\ table d'
       = map (fun x => if same_key (Row.option_symbol r) x then r' else x)
           (table d)
    /\ List.length (table d') = List.length (table d)
    /\ unique_keys (table d')
    /\ (forall f,
          Row.price f r' = stored_price (price_value pf (Quote.price f o)))
    /\ Quote.timestamp o = Some (Row.timestamp r')
    /\ Row.id r' = Row.id r
    /\ Row.symbol r' = Row.symbol r
    /\ Row.expiration_date r' = Row.expiration_date r
    /\ Row.strike r' = Row.strike r
    /\ Row.expiration_type r' = Row.expiration_type r
    /\ Row.option_type r' = Row.option_type r.
Proof.
  intros Huniq Hin Hp Hkey.
  destruct (proposed_row_columns _ _ _ Hp) as [Hprice [Hts _]].
  set (q := with_id (id_seq d + 1) p).
  assert (proposed_row (id_seq d + 1) (values pf o) = inr q) as Hq
    by (rewrite (proposed_row_id 0), Hp; reflexivity).
  assert (Row.option_symbol q = Row.option_symbol r) as Hkq by exact Hkey.
  exists (mkDatabase
            (map (fun x => if same_key (Row.option_symbol r) x
                           then do_update q r else x) (table d))
            (id_seq d + 1)
            (log d ++ [StBegin; StUpsert; StCommit])),
         (do_update q r).
  split.
  - unfold insertOptionsData. cbn [upsert_each]. unfold upsertQuery.
    cbn [connect query_BEGIN record serial rows snapshot executed].
    rewrite Hq, Hkq, (find_same_key _ _ Huniq Hin).
    unfold with_rows, query_COMMIT, record, release. cbn.
    rewrite <- !app_assoc. cbn [app]. f_equal. f_equal.
    apply map_ext_in. intros x Hx.
    destruct (same_key (Row.option_symbol r) x) eqn:Ex; [|reflexivity].
    apply String.eqb_eq in Ex.
    assert (find (same_key (Row.option_symbol x)) (table d) = Some x) as Fx
      by (apply find_same_key; assumption).
    rewrite Ex, (find_same_key _ _ Huniq Hin) in Fx. congruence.
  - cbn [table].
    assert (forall x : Row.t,
               Row.option_symbol (do_update q r) = Row.option_symbol r)
      as Hupd by (intros _; exact Hkq).
    split;
      [apply (filter_same_key_update _ _ (fun _ => do_update q r)
                Huniq Hin Hupd)|].
    split; [reflexivity|].
    split; [apply length_map|].
    split; [unfold unique_keys;
            rewrite (keys_update _ (table d) (fun _ => do_update q r) Hupd);
            exact Huniq|].
    split; [intros f; rewrite <- values_price, <- Hprice;
            destruct f; reflexivity|].
    split; [exact Hts|].
    repeat split.
Qed.

Lemma upsert_existing_key_witness :
  exists d' r',
    insertOptionsData parseFloat_decimal [quote_AAPL (JString "1.30") 2000]
      (mkDatabase
         [sample_row 1 "AAPL" "AAPL 250919P232.5" "Put" 23250
            (Some (Dec 115)) 1000]
         1 [])
    = (Returned (UpsertSummary.make true 1 0 1 [mkUpsertEntry 1 updated]),
       d')
    /\ table d' = [r']
    /\ Row.ask r' = Some (Dec 130)
    /\ Row.timestamp r' = 2000
    /\ Row.strike r' = Dec 23250.
Proof.
  destruct (@upsert_existing_key parseFloat_decimal
              (mkDatabase
                 [sample_row 1 "AAPL" "AAPL 250919P232.5" "Put" 23250
                    (Some (Dec 115)) 1000]
                 1 [])
              (sample_row 1 "AAPL" "AAPL 250919P232.5" "Put" 23250
                 (Some (Dec 115)) 1000)
              (quote_AAPL (JString "1.30") 2000)
              (Row.make 0 "AAPL" 1758240000000 (Dec 23250) "Weekly"
                 (Some (Dec 130)) (Some (Dec 110)) (Some (Dec 115)) None None
                 (Some (Dec 112)) None None (Some (Dec 105))
                 "Put" "AAPL 250919P232.5" 2000))
    as [d' [r' [H1 [_ [H3 [_ [_ [H6 [H7 [_ [_ [_ [H11 _]]]]]]]]]]]]].
  - repeat constructor. simpl. tauto.
  - left. reflexivity.
  - vm_compute. reflexivity.
  - reflexivity.
  - exists d', r'. split; [exact H1|].
    split; [rewrite H3; reflexivity|].
    split; [exact (H6 Ask)|].
    split; [simpl in H7; congruence|exact H11].
Defined.

(** C3.  The second write of a key does not always store the second
    call's prices: when the record gives a price as the number zero, the
    row of its key, which stays the only one and is reported [updated],
    has NULL in that column afterwards, whatever was stored there, because
    [option.ask ? parseFloat(option.ask) : null] takes zero for a missing
    value.  The observation time is the second call's and the other
    columns stay. *)
Theorem upsert_zero_price_erases_stored_price (pf : string -> jsnum)
  (d : Database) (r : Row.t) (o : Quote.t) (p : Row.t) (f : PriceField)
  (zero : Q) :
  unique_keys (table d) ->
  In r (table d) ->
  proposed_row 0 (values pf o) = inr p ->
  Row.option_symbol p = Row.option_symbol r ->
  Quote.price f o = JNumber (JFin zero) ->
  (zero == 0)%Q ->
  exists d' r',
    insertOptionsData pf [o] d
    = (Returned
         (UpsertSummary.make true 1 0 1 [mkUpsertEntry (Row.id r) updated]),
       d')
    /\ filter (same_key (Row.option_symbol r)) (table d') = [r']
    /\ Row.price f r' = None
    /\ Row.price f r' <> to_decimal_10_2 (JFin zero)
    /\ Quote.timestamp o = Some (Row.timestamp r')
    /\ same_identity r r'.
Proof.
  intros Huniq Hin Hp Hkey Hzero Hq.
  destruct (upsert_existing_key pf d r o p Huniq Hin Hp Hkey)
    as [d' [r' [H1 [H2 [_ [_ [_ [H6 [H7 [H8 [H9 [H10 [H11 [H12 H13]]]]]]]]]]]]]].
  assert (Row.option_symbol r' = Row.option_symbol r) as Hk.
  { assert (In r' (filter (same_key (Row.option_symbol r)) (table d')))
      as Hr by (rewrite H2; left; reflexivity).
    apply filter_In in Hr. destruct Hr as [_ Hr].
    apply String.eqb_eq in Hr. exact Hr. }
  assert (Row.price f r' = None) as Hnull.
  { rewrite H6, Hzero. unfold price_value. cbn [ToBoolean].
    apply Qeq_bool_iff in Hq. rewrite Hq. reflexivity. }
  exists d', r'. split; [exact H1|]. split; [exact H2|].
  split; [exact Hnull|].
  split.
  { rewrite Hnull. unfold to_decimal_10_2. cbv zeta.
    destruct (Z.abs (round_half_away (zero * 100)) <? 10 ^ 10) eqn:E;
      [discriminate|].
    exfalso. revert E.
    assert (round_half_away (zero * 100) = 0) as ->.
    { unfold round_half_away.
      assert (Qnum (zero * 100) = 0) as ->.
      { unfold Qeq in Hq. simpl in Hq. simpl. lia. }
      reflexivity. }
    discriminate. }
  split; [exact H7|].
  unfold same_identity. repeat split; assumption.
Qed.

Lemma upsert_zero_price_erases_stored_price_witness :
  exists d' r',
    insertOptionsData parseFloat_decimal [quote_AAPL (JNumber (JFin 0)) 2000]
      (mkDatabase [stored_put] 1 [])
    = (Returned (UpsertSummary.make true 1 0 1 [mkUpsertEntry 1 updated]),
       d')
    /\ table d' = [r']
    /\ Row.ask stored_put = Some (Dec 120)
    /\ Row.ask r' = None
    /\ Row.timestamp r' = 2000.
Proof.
  destruct (upsert_zero_price_erases_stored_price parseFloat_decimal
              (mkDatabase [stored_put] 1 []) stored_put
              (quote_AAPL (JNumber (JFin 0)) 2000)
              (Row.make 0 "AAPL" 1758240000000 (Dec 23250) "Weekly"
                 None (Some (Dec 110)) (Some (Dec 115)) None None
                 (Some (Dec 112)) None None (Some (Dec 105))
                 "Put" "AAPL 250919P232.5" 2000)
              Ask 0%Q)
    as [d' [r' [H1 [H2 [H3 [_ [H5 _]]]]]]].
  - repeat constructor. simpl. tauto.
  - left. reflexivity.
  - vm_compute. reflexivity.
  - reflexivity.
  - reflexivity.
  - reflexivity.
  - exists d', r'. split; [exact H1|].
    assert (table d' = [r']) as Ht.
    { assert (insertOptionsData parseFloat_decimal
                [quote_AAPL (JNumber (JFin 0)) 2000]
                (mkDatabase [stored_put] 1 [])
              = (Returned
                   (UpsertSummary.make true 1 0 1 [mkUpsertEntry 1 updated]),
                 d')) as E by exact H1.
      vm_compute in E. injection E as <-.
      vm_compute in H2. injection H2 as <-. reflexivity. }
    split; [exact Ht|]. split; [reflexivity|].
    split; [exact H3|]. simpl in H5. congruence.
Defined.

(** C9.  A record whose [ask] is the number zero is stored with a NULL
    [ask]: the test [option.ask ? ... : null] takes zero for a missing
    value. *)
Theorem zero_price_stored_as_null :
  exists d' r',
    insertOptionsData parseFloat_decimal
      [quote_AAPL (JNumber (JFin 0)) 1000] empty_database
    = (Returned (UpsertSummary.make true 1 1 0 [mkUpsertEntry 1 inserted]),
       d')
    /\ table d' = [r']
    /\ Row.ask r' = None
    /\ Row.bid r' = Some (Dec 110).
Proof.
  eexists. eexists. split; [vm_compute; reflexivity|].
  simpl. repeat split.
Qed.

(** ** Retention cleanup *)

Lemma fold_left_add {A : Type} (f : A -> Z) (l : list A) (a : Z) :
  fold_left (fun sum x => sum + f x) l a = a + Zsum (map f l).
Proof.
  revert a. induction l as [|x l IH]; intros a; simpl; [lia|].
  rewrite IH. lia.
Qed.







Lemma symbol_in_In (symbols : list string) (r : Row.t) :
  symbol_in symbols r = true <-> In (Row.symbol r) symbols.
Proof. apply existsb_string_In. Qed.

Lemma counted_symbols_In (symbols : list string) (t : list Row.t)
  (s : string) :
  In s (counted_symbols symbols t)
  <-> In s symbols /\ exists r, In r t /\ Row.symbol r = s.
Proof.
  unfold counted_symbols.
  rewrite In_order_by, In_distinct_string, in_map_iff. split.
  - intros [r [<- Hr]]. apply filter_In in Hr. destruct Hr as [Hr Hs].
    split; [apply symbol_in_In; exact Hs|]. exists r. auto.
  - intros [Hs [r [Hr <-]]]. exists r. split; [reflexivity|].
    apply filter_In. split; [exact Hr|]. apply symbol_in_In. exact Hs.
Qed.

Lemma counted_symbols_NoDup (symbols : list string) (t : list Row.t) :
  NoDup (counted_symbols symbols t).
Proof.
  unfold counted_symbols.
  eapply Permutation_NoDup; [apply Permutation_order_by|].
  apply NoDup_distinct_string.
Qed.

(** Within the rows selected by [symbol IN (...)], the group of a requested
    symbol is the set of all its rows. *)
Lemma group_of_requested (symbols : list string) (t : list Row.t)
  (s : string) :
  In s symbols ->
  filter (has_symbol s) (filter (symbol_in symbols) t)
  = filter (has_symbol s) t.
Proof.
  intros Hs. rewrite filter_filter. apply filter_ext. intros r.
  unfold has_symbol.
  destruct (String.eqb_spec (Row.symbol r) s) as [E|_];
    [|apply andb_false_r].
  rewrite andb_true_r. apply symbol_in_In. rewrite E. exact Hs.
Qed.

Lemma count_row_exact (symbols : list string) (cutoffTime : Z)
  (t : list Row.t) (s : string) :
  In s symbols ->
  let row := count_row cutoffTime (filter (symbol_in symbols) t) s in
  CountRow.symbol row = s
  /\ CountRow.total_records row = total_count t s
  /\ CountRow.old_records row = stale_count cutoffTime t s.
Proof.
  intros Hs. unfold count_row, total_count, stale_count. simpl.
  rewrite (group_of_requested _ _ _ Hs), filter_filter. auto.
Qed.

Lemma countQuery_returned (symbols : list string) (cutoffTime : Z)
  (c : Client) :
  symbols <> [] ->
  countQuery symbols cutoffTime c
  = (Returned
       (map (count_row cutoffTime (filter (symbol_in symbols) (rows c)))
          (counted_symbols symbols (rows c))),
     record StCountBySymbol c).
Proof. destruct symbols; [congruence|reflexivity]. Qed.

(** The preview loop touches nothing. *)
Lemma cleanup_each_dry (cutoffTime : Z) (countRows : list CountRow.t) :
  forall totalDeleted cleanupResults c,
    cleanup_each true cutoffTime countRows totalDeleted cleanupResults c
    = (totalDeleted, cleanupResults ++ map dry_entry countRows, c).
Proof.
  induction countRows as [|row rest IH]; intros totalDeleted cleanupResults c.
  - simpl. rewrite app_nil_r. reflexivity.
  - cbn [cleanup_each map]. unfold dry_entry at 1.
    destruct (0 <? CountRow.old_records row);
      rewrite IH, <- app_assoc; reflexivity.
Qed.

Lemma stale_count_after_delete (cutoffTime : Z) (t : list Row.t)
  (s s' : string) :
  s <> s' ->
  stale_count cutoffTime
    (filter (fun r => negb (has_symbol s r && is_stale cutoffTime r)) t) s'
  = stale_count cutoffTime t s'.
Proof.
  intros Hne. unfold stale_count. rewrite filter_filter. f_equal.
  apply filter_ext. intros r. unfold has_symbol.
  destruct (String.eqb_spec (Row.symbol r) s) as [E|_];
    destruct (String.eqb_spec (Row.symbol r) s') as [E'|_];
    destruct (is_stale cutoffTime r); try reflexivity; congruence.
Qed.

Lemma stale_count_zero (cutoffTime : Z) (t : list Row.t) (s : string)
  (r : Row.t) :
  stale_count cutoffTime t s <= 0 -> In r t ->
  has_symbol s r && is_stale cutoffTime r = false.
Proof.
  unfold stale_count, count. intros H Hr.
  destruct (has_symbol s r && is_stale cutoffTime r) eqn:E; [|reflexivity].
  assert (In r (filter (fun r => has_symbol s r && is_stale cutoffTime r) t))
    as Hin by (apply filter_In; auto).
  destruct (filter (fun r => has_symbol s r && is_stale cutoffTime r) t);
    [contradiction|].
  cbn [List.length] in H. lia.
Qed.

(** The live loop over rows of the count query that are exact and concern
    distinct symbols: it deletes the stale rows of these symbols and
    nothing else, and reports the numbers the count query announced. *)
Lemma cleanup_each_live (cutoffTime : Z) (countRows : list CountRow.t) :
  forall totalDeleted cleanupResults c,
    NoDup (map CountRow.symbol countRows) ->
    (forall row, In row countRows ->
       CountRow.old_records row
       = stale_count cutoffTime (rows c) (CountRow.symbol row)) ->
    exists c',
      cleanup_each false cutoffTime countRows totalDeleted cleanupResults c
      = (totalDeleted + (count (rows c) - count (rows c')),
         cleanupResults ++ map live_entry countRows, c')
      /\ rows c'
         = filter
             (fun r =>
                negb (symbol_in (map CountRow.symbol countRows) r
                      && is_stale cutoffTime r))
             (rows c)
      /\ serial c' = serial c
      /\ snapshot c' = snapshot c
      /\ executed c'
         = executed c
           ++ map (fun row => StDelete (CountRow.symbol row))
                (filter (fun row => 0 <? CountRow.old_records row) countRows)
      /\ count (rows c) - count (rows c')
         = Zsum (map CountRow.old_records countRows).
Proof.
  induction countRows as [|row rest IH];
    intros totalDeleted cleanupResults c Hnd Hexact.
  - exists c. simpl. rewrite !app_nil_r, Z.sub_diag, Z.add_0_r.
    repeat split. symmetry. apply filter_all. reflexivity.
  - inversion Hnd as [|s ss Hs Hnd']; subst.
    cbn [cleanup_each map filter]. unfold live_entry at 1.
    pose proof (Hexact row (or_introl eq_refl)) as Hrow.
    destruct (0 <? CountRow.old_records row) eqn:Hold.
    + unfold deleteQuery.
      set (doomed := fun r => has_symbol (CountRow.symbol row) r
                              && is_stale cutoffTime r).
      set (c0 := record (StDelete (CountRow.symbol row)) c).
      set (c1 := with_rows (filter (fun r => negb (doomed r)) (rows c0)) c0).
      assert (count (filter doomed (rows c0)) = CountRow.old_records row)
        as Hdel by (rewrite Hrow; reflexivity).
      rewrite Hdel.
      destruct (IH (totalDeleted + CountRow.old_records row)
                  (cleanupResults ++
                     [CleanupEntry.make (CountRow.symbol row)
                        (CountRow.total_records row) None
                        (Some (CountRow.old_records row))
                        (CountRow.total_records row - CountRow.old_records row)
                        (CountRow.oldest_timestamp row)
                        (CountRow.newest_timestamp row) deleted])
                  c1 Hnd')
        as [c' [H1 [H2 [H3 [H4 [H5 H6]]]]]].
      { intros row' Hin. rewrite (Hexact row' (or_intror Hin)).
        symmetry. apply stale_count_after_delete.
        intros E. apply Hs. rewrite E. apply in_map. exact Hin. }
      pose proof (count_filter_split doomed (rows c)) as Hsplit.
      subst c1 c0 doomed. cbv beta in *.
      exists c'. rewrite H1. split.
      { f_equal. f_equal; [simpl in *; lia|].
        rewrite <- app_assoc. reflexivity. }
      split.
      { rewrite H2. simpl. rewrite filter_filter.
        apply filter_ext. intros r. unfold has_symbol.
        destruct (Row.symbol r =? CountRow.symbol row)%string;
          destruct (is_stale cutoffTime r); simpl;
          rewrite ?andb_true_r, ?andb_false_r; reflexivity. }
      split; [rewrite H3; reflexivity|].
      split; [rewrite H4; reflexivity|].
      split; [rewrite H5; simpl; rewrite <- app_assoc; reflexivity|].
      simpl in *. lia.
    + destruct (IH totalDeleted
                  (cleanupResults ++
                     [CleanupEntry.make (CountRow.symbol row)
                        (CountRow.total_records row) None (Some 0)
                        (CountRow.total_records row)
                        (CountRow.oldest_timestamp row)
                        (CountRow.newest_timestamp row) no_action])
                  c Hnd')
        as [c' [H1 [H2 [H3 [H4 [H5 H6]]]]]].
      { intros row' Hin. apply Hexact. right. exact Hin. }
      exists c'. rewrite H1. split.
      { rewrite <- app_assoc. reflexivity. }
      assert (CountRow.old_records row = 0) as Hzero.
      { apply Z.ltb_ge in Hold. unfold stale_count in Hrow.
        pose proof (count_nonneg
                      (filter (fun r => has_symbol (CountRow.symbol row) r
                                        && is_stale cutoffTime r) (rows c))).
        lia. }
      split; [|repeat split; try assumption; simpl; lia].
      rewrite H2. apply filter_ext_in. intros r Hr. simpl.
      assert (has_symbol (CountRow.symbol row) r && is_stale cutoffTime r
              = false) as Hnone.
      { apply (stale_count_zero cutoffTime (rows c)); [|exact Hr].
        rewrite <- Hrow. apply Z.ltb_ge. exact Hold. }
      unfold has_symbol in Hnone.
      destruct (Row.symbol r =? CountRow.symbol row)%string;
        [|reflexivity].
      simpl in Hnone. rewrite Hnone, andb_false_r. reflexivity.
Qed.

Lemma count_rows_symbols (symbols : list string) (cutoffTime : Z)
  (t : list Row.t) :
  map CountRow.symbol (count_rows symbols cutoffTime t)
  = counted_symbols symbols t.
Proof.
  unfold count_rows. rewrite map_map. simpl. apply map_id.
Qed.

Lemma count_rows_exact (symbols : list string) (cutoffTime : Z)
  (t : list Row.t) (row : CountRow.t) :
  In row (count_rows symbols cutoffTime t) ->
  In (CountRow.symbol row) symbols
  /\ 0 < CountRow.total_records row
  /\ CountRow.total_records row = total_count t (CountRow.symbol row)
  /\ CountRow.old_records row
     = stale_count cutoffTime t (CountRow.symbol row).
Proof.
  unfold count_rows. rewrite in_map_iff. intros [s [<- Hs]].
  apply counted_symbols_In in Hs. destruct Hs as [Hs [r [Hr Er]]].
  destruct (count_row_exact symbols cutoffTime t s Hs) as [E1 [E2 E3]].
  rewrite E1, E2, E3. repeat split; try assumption.
  unfold total_count, count.
  assert (In r (filter (has_symbol s) t)) as Hin
    by (apply filter_In; split; [exact Hr|apply String.eqb_eq; exact Er]).
  destruct (filter (has_symbol s) t); [contradiction|].
  cbn [List.length]. lia.
Qed.

Lemma symbol_in_counted (symbols : list string) (t : list Row.t)
  (r : Row.t) :
  In r t ->
  symbol_in (counted_symbols symbols t) r = symbol_in symbols r.
Proof.
  intros Hr. apply eq_true_iff_eq.
  rewrite !symbol_in_In, counted_symbols_In. split; [tauto|].
  intros H. split; [exact H|]. exists r. auto.
Qed.

(** The two runs of [cleanupOldOptionsData] in closed form. *)
Lemma cleanup_dry_run_form (symbols : list string) (keepHours : Q)
  (now : Z) (d : Database) :
  symbols <> [] ->
  cleanupOldOptionsData symbols keepHours true now d
  = (Returned
       (CleanupResult.make true true (Some (cutoff now keepHours))
          (Some keepHours) (count symbols) 0
          (map dry_entry
             (count_rows symbols (cutoff now keepHours) (table d)))),
     mkDatabase (table d) (id_seq d)
       (log d ++ [StBegin; StCountBySymbol; StRollback])).
Proof.
  intros Hne. unfold cleanupOldOptionsData.
  rewrite (countQuery_returned _ _ _ Hne), cleanup_each_dry.
  unfold query_ROLLBACK, query_BEGIN, record, connect, release. simpl.
  rewrite <- !app_assoc. reflexivity.
Qed.

Lemma cleanup_live_form (symbols : list string) (keepHours : Q)
  (now : Z) (d : Database) :
  symbols <> [] ->
  exists d',
    cleanupOldOptionsData symbols keepHours false now d
    = (Returned
         (CleanupResult.make true false (Some (cutoff now keepHours))
            (Some keepHours) (count symbols)
            (count (table d) - count (table d'))
            (map live_entry
               (count_rows symbols (cutoff now keepHours) (table d)))),
       d')
    /\ table d'
       = filter (fun r => negb (purged symbols (cutoff now keepHours) r))
           (table d)
    /\ id_seq d' = id_seq d
    /\ log d'
       = log d ++ [StBegin; StCountBySymbol]
         ++ map (fun row => StDelete (CountRow.symbol row))
              (filter (fun row => 0 <? CountRow.old_records row)
                 (count_rows symbols (cutoff now keepHours) (table d)))
         ++ [StCommit]
    /\ count (table d) - count (table d')
       = Zsum (map CountRow.old_records
                 (count_rows symbols (cutoff now keepHours) (table d))).
Proof.
  intros Hne. unfold cleanupOldOptionsData.
  rewrite (countQuery_returned _ _ _ Hne).
  set (cut := cutoff now keepHours).
  set (c0 := record StCountBySymbol (query_BEGIN (connect d))).
  fold (count_rows symbols cut (rows (query_BEGIN (connect d)))).
  change (rows (query_BEGIN (connect d))) with (table d).
  destruct (cleanup_each_live cut (count_rows symbols cut (table d)) 0 [] c0)
    as [c' [H1 [H2 [H3 [H4 [H5 H6]]]]]].
  - rewrite count_rows_symbols. apply counted_symbols_NoDup.
  - intros row Hin. apply (count_rows_exact _ _ _ _ Hin).
  - rewrite H1. exists (release (query_COMMIT c')).
    unfold query_COMMIT, record, release. simpl in *.
    split; [reflexivity|].
    split.
    + rewrite H2, count_rows_symbols. apply filter_ext_in. intros r Hr.
      unfold purged. rewrite (symbol_in_counted _ _ _ Hr). reflexivity.
    + split; [exact H3|]. split; [|exact H6].
      rewrite H5, <- !app_assoc. reflexivity.
Qed.

Lemma entry_sums (countRows : list CountRow.t) :
  (forall row, In row countRows -> 0 <= CountRow.old_records row) ->
  deleted_sum (map live_entry countRows)
  = Zsum (map CountRow.old_records countRows)
  /\ wouldDeleteTotal (map dry_entry countRows)
     = Zsum (map CountRow.old_records countRows).
Proof.
  intros Hpos. unfold deleted_sum, wouldDeleteTotal.
  rewrite !fold_left_add, !map_map, !Z.add_0_l.
  split; f_equal; apply map_ext_in; intros row Hin;
    specialize (Hpos row Hin); unfold live_entry, dry_entry;
    destruct (0 <? CountRow.old_records row) eqn:E; simpl;
    try reflexivity; apply Z.ltb_ge in E; lia.
Qed.

Lemma count_rows_nonneg (symbols : list string) (cutoffTime : Z)
  (t : list Row.t) (row : CountRow.t) :
  In row (count_rows symbols cutoffTime t) -> 0 <= CountRow.old_records row.
Proof.
  intros Hin. destruct (count_rows_exact _ _ _ _ Hin) as [_ [_ [_ ->]]].
  apply count_nonneg.
Qed.

Lemma entry_counts_agree (row : CountRow.t) :
  entry_counts (dry_entry row) = entry_counts (live_entry row).
Proof.
  unfold dry_entry, live_entry.
  destruct (0 <? CountRow.old_records row); reflexivity.
Qed.


Lemma shorter_when_missing (l symbols : list string) (s : string) :
  NoDup l -> (forall x, In x l -> In x symbols) ->
  In s symbols -> ~ In s l ->
  (List.length l < List.length symbols)%nat.
Proof.
  intros Hnd Hincl Hs Hns.
  assert (List.length (s :: l) <= List.length symbols)%nat as H.
  { apply NoDup_incl_length; [constructor; assumption|].
    intros x [<-|Hx]; auto. }
  simpl in H. lia.
Qed.

(** The all-symbols variant: over an empty table it returns the empty
    result after its one query; otherwise it is the cleanup of the symbols
    present. *)
Lemma cleanupAllOldOptionsData_form (keepHours : Q) (dryRun : bool)
  (now : Z) (d : Database) :
  let d1 := mkDatabase (table d) (id_seq d) (log d ++ [StSelect]) in
  let symbols :=
    order_by String.leb (distinct String.eqb (map Row.symbol (table d))) in
  (table d = [] ->
   cleanupAllOldOptionsData keepHours dryRun now d
   = (Returned (CleanupResult.make true dryRun None None 0 0 []), d1))
  /\ (table d <> [] ->
      symbols <> []
      /\ cleanupAllOldOptionsData keepHours dryRun now d
         = cleanupOldOptionsData symbols keepHours dryRun now d1).
Proof.
  unfold cleanupAllOldOptionsData, distinctSymbolsQuery, connect, record,
    release.
  simpl. split.
  - intros Ht. rewrite Ht. reflexivity.
  - intros Hne.
    destruct (order_by String.leb
                (distinct String.eqb (map Row.symbol (table d))))
      as [|s l] eqn:E; [|split; [discriminate|reflexivity]].
    exfalso. destruct (table d) as [|r t]; [congruence|].
    assert (In (Row.symbol r)
              (order_by String.leb
                 (distinct String.eqb (map Row.symbol (r :: t))))) as Hin
      by (apply In_order_by, In_distinct_string; left; reflexivity).
    rewrite E in Hin. exact Hin.
Qed.

(** ** Retention cleanup: the claims *)




(** C1, as the code has it.  In a live run [totalDeleted] is the sum of
    the per-symbol [deletedRecords], which is the number of rows that left
    the table.  In a dry run [totalDeleted] is zero; the would-be deletions
    are reported per symbol in [oldRecords], and their sum, the number of
    rows a live run would remove, is written to the console only. *)
Theorem totalDeleted_counts_deletions (symbols : list string)
  (keepHours : Q) (dryRun : bool) (now : Z) (d : Database) :
  symbols <> [] ->
  exists res d',
    cleanupOldOptionsData symbols keepHours dryRun now d = (Returned res, d')
    /\ (dryRun = false ->
        CleanupResult.totalDeleted res
        = deleted_sum (CleanupResult.results res)
        /\ CleanupResult.totalDeleted res
           = count (table d) - count (table d'))
    /\ (dryRun = true ->
        CleanupResult.totalDeleted res = 0
        /\ table d' = table d
        /\ wouldDeleteTotal (CleanupResult.results res)
           = count (filter (purged symbols (cutoff now keepHours)) (table d))).
Proof.
  intros Hne.
  destruct (cleanup_live_form symbols keepHours now d Hne)
    as [dl [L1 [L2 [_ [_ L5]]]]].
  destruct (entry_sums (count_rows symbols (cutoff now keepHours) (table d))
              (count_rows_nonneg _ _ _)) as [S1 S2].
  destruct dryRun.
  - rewrite (cleanup_dry_run_form symbols keepHours now d Hne).
    eexists. eexists. split; [reflexivity|].
    split; [discriminate|]. intros _. simpl.
    split; [reflexivity|]. split; [reflexivity|].
    rewrite S2, <- L5, L2.
    pose proof (count_filter_split (purged symbols (cutoff now keepHours))
                  (table d)).
    lia.
  - rewrite L1. eexists. eexists. split; [reflexivity|].
    split; [|discriminate]. intros _. simpl.
    split; [|reflexivity]. rewrite S1. exact L5.
Qed.

Lemma totalDeleted_counts_deletions_witness :
  exists res d',
    cleanupOldOptionsData ["SPX"] (1 # 2) false now_example three_observations
    = (Returned res, d')
    /\ CleanupResult.totalDeleted res
       = deleted_sum (CleanupResult.results res)
    /\ CleanupResult.totalDeleted res = 2.
Proof.
  destruct (totalDeleted_counts_deletions ["SPX"] (1 # 2) false now_example
              three_observations)
    as [res [d' [H1 [H2 _]]]].
  - discriminate.
  - exists res, d'. split; [exact H1|].
    split; [exact (proj1 (H2 eq_refl))|].
    assert (fst (cleanupOldOptionsData ["SPX"] (1 # 2) false now_example
                   three_observations)
            = Returned res) as E by (rewrite H1; reflexivity).
    vm_compute in E. injection E as <-. reflexivity.
Defined.

(** C1, as the claim has it, fails: a dry run over a table with two stale
    rows returns [totalDeleted = 0], not the two would-be deletions. *)
Lemma dry_run_totalDeleted_is_zero :
  exists res d',
    cleanupOldOptionsData ["SPX"] (1 # 2) true now_example three_observations
    = (Returned res, d')
    /\ CleanupResult.totalDeleted res = 0
    /\ wouldDeleteTotal (CleanupResult.results res) = 2
    /\ CleanupResult.totalDeleted res
       <> wouldDeleteTotal (CleanupResult.results res).
Proof.
  eexists. eexists. split; [vm_compute; reflexivity|].
  simpl. repeat split. discriminate.
Qed.

(** C5.  A dry run leaves the table as it was, whatever the symbols: its
    statements are [BEGIN], the count query and [ROLLBACK], and no
    [DELETE].  Its per-symbol results mark a symbol [would_delete] when it
    has stale rows and [no_action] when it has none, every requested
    symbol with stored rows has a result, and the counts are those a live
    run with the same parameters reports and deletes. *)
Theorem dry_run_changes_nothing (symbols : list string) (keepHours : Q)
  (now : Z) (d : Database) :
  table (snd (cleanupOldOptionsData symbols keepHours true now d)) = table d
  /\ (symbols <> [] ->
      exists res d',
        cleanupOldOptionsData symbols keepHours true now d
        = (Returned res, d')
        /\ CleanupResult.dryRun res = true
        /\ log d' = log d ++ [StBegin; StCountBySymbol; StRollback]
        /\ (forall e, In e (CleanupResult.results res) ->
              let s := CleanupEntry.symbol e in
              let stale := stale_count (cutoff now keepHours) (table d) s in
              In s symbols
              /\ CleanupEntry.totalRecords e = total_count (table d) s
              /\ CleanupEntry.keptRecords e = total_count (table d) s - stale
              /\ ((0 < stale
                   /\ CleanupEntry.action e = would_delete
                   /\ CleanupEntry.oldRecords e = Some stale)
                  \/ (stale = 0
                      /\ CleanupEntry.action e = no_action
                      /\ CleanupEntry.deletedRecords e = Some 0)))
        /\ (forall s, In s symbols -> 0 < total_count (table d) s ->
              In s (map CleanupEntry.symbol (CleanupResult.results res)))
        /\ exists live dl,
             cleanupOldOptionsData symbols keepHours false now d
             = (Returned live, dl)
             /\ map entry_counts (CleanupResult.results live)
                = map entry_counts (CleanupResult.results res)
             /\ CleanupResult.totalDeleted live
                = wouldDeleteTotal (CleanupResult.results res)).
Proof.
  split.
  - destruct symbols as [|s symbols]; [reflexivity|].
    rewrite cleanup_dry_run_form by discriminate. reflexivity.
  - intros Hne. rewrite (cleanup_dry_run_form symbols keepHours now d Hne).
    set (cut := cutoff now keepHours).
    eexists. eexists. split; [reflexivity|]. simpl.
    split; [reflexivity|]. split; [reflexivity|].
    split.
    { intros e He. apply in_map_iff in He. destruct He as [row [<- Hrow]].
      destruct (count_rows_exact _ _ _ _ Hrow) as [Hs [_ [Ht Ho]]].
      unfold dry_entry.
      destruct (0 <? CountRow.old_records row) eqn:E; simpl;
        rewrite <- ?Ht, <- ?Ho.
      - apply Z.ltb_lt in E. repeat split; auto.
      - apply Z.ltb_ge in E.
        pose proof (count_rows_nonneg _ _ _ _ Hrow) as Hpos.
        assert (CountRow.old_records row = 0) as Hz by lia.
        rewrite Hz. repeat split; auto; try lia. }
    split.
    { intros s Hs Htotal. rewrite !map_map.
      assert (In s (counted_symbols symbols (table d))) as Hc.
      { apply counted_symbols_In. split; [exact Hs|].
        unfold total_count, count in Htotal.
        destruct (filter (has_symbol s) (table d)) as [|r l] eqn:F;
          [simpl in Htotal; lia|].
        assert (In r (filter (has_symbol s) (table d))) as Hr
          by (rewrite F; left; reflexivity).
        apply filter_In in Hr. destruct Hr as [Hr Er].
        exists r. split; [exact Hr|]. apply String.eqb_eq. exact Er. }
      rewrite <- (count_rows_symbols symbols cut (table d)) in Hc.
      apply in_map_iff in Hc. destruct Hc as [row [<- Hrow]].
      apply in_map_iff. exists row. split; [|exact Hrow].
      unfold dry_entry. destruct (0 <? CountRow.old_records row); reflexivity. }
    destruct (cleanup_live_form symbols keepHours now d Hne)
      as [dl [L1 [_ [_ [_ L5]]]]].
    eexists. exists dl. split; [exact L1|]. simpl.
    split.
    { rewrite !map_map. apply map_ext. intros row. symmetry.
      apply entry_counts_agree. }
    destruct (entry_sums (count_rows symbols cut (table d))
                (count_rows_nonneg _ _ _)) as [_ S2].
    fold cut in L5. rewrite S2. exact L5.
Qed.

Lemma dry_run_changes_nothing_witness :
  exists res d',
    cleanupOldOptionsData ["SPX"] (1 # 2) true now_example three_observations
    = (Returned res, d')
    /\ table d' = table three_observations
    /\ map CleanupEntry.action (CleanupResult.results res) = [would_delete]
    /\ map CleanupEntry.oldRecords (CleanupResult.results res) = [Some 2].
Proof.
  destruct (proj2 (dry_run_changes_nothing ["SPX"] (1 # 2) now_example
                     three_observations))
    as [res [d' [H1 _]]].
  - discriminate.
  - exists res, d'. split; [exact H1|].
    assert (cleanupOldOptionsData ["SPX"] (1 # 2) true now_example
              three_observations = (Returned res, d')) as E by exact H1.
    vm_compute in E. injection E as <- <-. repeat split.
Defined.

(** C10.  [symbolsProcessed] is the number of requested symbols.  The
    per-symbol results are those of the requested symbols that have stored
    rows, one each; so a requested symbol without rows has no result, none
    of its rows is deleted since it has none, and the results are then
    fewer than [symbolsProcessed]. *)
Theorem symbolsProcessed_counts_requests (symbols : list string)
  (keepHours : Q) (dryRun : bool) (now : Z) (d : Database) :
  symbols <> [] ->
  exists res d',
    cleanupOldOptionsData symbols keepHours dryRun now d = (Returned res, d')
    /\ CleanupResult.symbolsProcessed res = count symbols
    /\ NoDup (map CleanupEntry.symbol (CleanupResult.results res))
    /\ (forall s,
          In s (map CleanupEntry.symbol (CleanupResult.results res))
          <-> In s symbols /\ exists r, In r (table d) /\ Row.symbol r = s)
    /\ count (CleanupResult.results res) <= CleanupResult.symbolsProcessed res
    /\ (forall s,
          In s symbols ->
          (forall r, In r (table d) -> Row.symbol r <> s) ->
          ~ In s (map CleanupEntry.symbol (CleanupResult.results res))
          /\ count (CleanupResult.results res)
             < CleanupResult.symbolsProcessed res).
Proof.
  intros Hne.
  set (cut := cutoff now keepHours).
  assert (exists res d',
             cleanupOldOptionsData symbols keepHours dryRun now d
             = (Returned res, d')
             /\ CleanupResult.symbolsProcessed res = count symbols
             /\ map CleanupEntry.symbol (CleanupResult.results res)
                = counted_symbols symbols (table d)) as H.
  { destruct dryRun.
    - rewrite (cleanup_dry_run_form symbols keepHours now d Hne).
      eexists. eexists. split; [reflexivity|]. simpl.
      split; [reflexivity|].
      rewrite <- (count_rows_symbols symbols cut (table d)), !map_map.
      apply map_ext. intros row. unfold dry_entry.
      destruct (0 <? CountRow.old_records row); reflexivity.
    - destruct (cleanup_live_form symbols keepHours now d Hne)
        as [dl [L1 _]].
      rewrite L1. eexists. eexists. split; [reflexivity|]. simpl.
      split; [reflexivity|].
      rewrite <- (count_rows_symbols symbols cut (table d)), !map_map.
      apply map_ext. intros row. unfold live_entry.
      destruct (0 <? CountRow.old_records row); reflexivity. }
  destruct H as [res [d' [H1 [H2 H3]]]].
  exists res, d'. split; [exact H1|]. split; [exact H2|].
  assert (count (CleanupResult.results res)
          = Z.of_nat (List.length (counted_symbols symbols (table d))))
    as Hlen by (rewrite <- H3, length_map; reflexivity).
  rewrite H3, H2, Hlen. unfold count.
  split; [apply counted_symbols_NoDup|].
  split; [intros s; apply counted_symbols_In|].
  split.
  - apply inj_le, NoDup_incl_length; [apply counted_symbols_NoDup|].
    intros s Hs. apply counted_symbols_In in Hs. tauto.
  - intros s Hs Hnone.
    assert (~ In s (counted_symbols symbols (table d))) as Hns.
    { rewrite counted_symbols_In. intros [_ [r [Hr Er]]].
      exact (Hnone r Hr Er). }
    split; [exact Hns|].
    apply inj_lt.
    apply (shorter_when_missing _ symbols s);
      [apply counted_symbols_NoDup| |exact Hs|exact Hns].
    intros x Hx. apply counted_symbols_In in Hx. tauto.
Qed.

Lemma symbolsProcessed_counts_requests_witness :
  exists res d',
    cleanupOldOptionsData ["SPX"; "QQQ"] (1 # 2) false now_example
      three_observations
    = (Returned res, d')
    /\ CleanupResult.symbolsProcessed res = 2
    /\ map CleanupEntry.symbol (CleanupResult.results res) = ["SPX"]
    /\ count (CleanupResult.results res) < CleanupResult.symbolsProcessed res.
Proof.
  destruct (symbolsProcessed_counts_requests ["SPX"; "QQQ"] (1 # 2) false
              now_example three_observations)
    as [res [d' [H1 [H2 [_ [_ [_ H6]]]]]]].
  - discriminate.
  - exists res, d'. split; [exact H1|]. split; [exact H2|].
    split.
    + assert (fst (cleanupOldOptionsData ["SPX"; "QQQ"] (1 # 2) false
                     now_example three_observations)
              = Returned res) as E by (rewrite H1; reflexivity).
      vm_compute in E. injection E as <-. reflexivity.
    + apply (H6 "QQQ").
      * right. left. reflexivity.
      * intros r Hr. simpl in Hr.
        destruct Hr as [<-|[<-|[<-|[]]]]; discriminate.
Defined.

(** ** The cleanup handler *)

(** C6, as the claim has it, fails: [cleanupOldOptionsData] does not look
    at the sign of [keepHours].  Called with minus one hour it counts and
    deletes, here every row of the symbol. *)
Lemma cleanup_accepts_negative_keepHours :
  exists res d',
    cleanupOldOptionsData ["SPX"] (-1) false now_example three_observations
    = (Returned res, d')
    /\ log d' = [StBegin; StCountBySymbol; StDelete "SPX"; StCommit]
    /\ table d' = []
    /\ CleanupResult.totalDeleted res = 3.
Proof.
  eexists. eexists. split; [vm_compute; reflexivity|].
  simpl. repeat split.
Qed.

(** C6, as the code has it.  The handler of [POST /api/cleanup-options]
    answers a request whose [keepHours] is zero or negative without
    touching the database: with status 400 and the message of the
    validation when the API key is right, with status 401 otherwise. *)
Theorem POST_rejects_nonpositive_keepHours (env : Environment)
  (request : Request) (now : Z) (d : Database) (h : Q) :
  CleanupBody.keepHours (body request) = Some h ->
  (h <= 0)%Q ->
  snd (POST env request now d) = d
  /\ (verifyApiKey env request = true ->
      fst (POST env request now d)
      = Status400 "keepHours must be a positive number")
  /\ (verifyApiKey env request = false ->
      fst (POST env request now d) = Status401).
Proof.
  intros Hk Hle. unfold POST. rewrite Hk.
  apply Qle_bool_iff in Hle. rewrite Hle.
  destruct (verifyApiKey env request); simpl;
    repeat split; intros; congruence.
Qed.

Lemma POST_rejects_nonpositive_keepHours_witness :
  POST (mkEnvironment (Some "secret"))
    (mkRequest (Some "secret")
       (CleanupBody.make (Some ["SPX"]) (Some 0%Q) (Some false)))
    now_example three_observations
  = (Status400 "keepHours must be a positive number", three_observations).
Proof.
  destruct (POST_rejects_nonpositive_keepHours (mkEnvironment (Some "secret"))
              (mkRequest (Some "secret")
                 (CleanupBody.make (Some ["SPX"]) (Some 0%Q) (Some false)))
              now_example three_observations 0%Q)
    as [H1 [H2 _]].
  - reflexivity.
  - discriminate.
  - rewrite (surjective_pairing (POST _ _ _ _)), H1, H2; reflexivity.
Defined.

(** ** Queries *)

Section Sorting.
Context {A : Type} (leb : A -> A -> bool).
Hypothesis leb_total : forall a b, leb a b = true \/ leb b a = true.
Hypothesis leb_trans :
  forall a b c, leb a b = true -> leb b c = true -> leb a c = true.

Lemma insert_by_sorted (x : A) (l : list A) :
  StronglySorted (fun a b => leb a b = true) l ->
  StronglySorted (fun a b => leb a b = true) (insert_by leb x l).
Proof.
  induction 1 as [|y l Hs IH Hy]; simpl.
  - constructor; constructor.
  - destruct (leb x y) eqn:E.
    + constructor; [constructor; assumption|].
      constructor; [exact E|].
      eapply Forall_impl; [|exact Hy].
      intros z Hz. exact (leb_trans _ _ _ E Hz).
    + constructor; [exact IH|].
      apply Forall_forall. intros z Hz. apply In_insert_by in Hz.
      destruct Hz as [->|Hz].
      * destruct (leb_total x y); congruence.
      * rewrite Forall_forall in Hy. apply Hy. exact Hz.
Qed.

Lemma order_by_sorted (l : list A) :
  StronglySorted (fun a b => leb a b = true) (order_by leb l).
Proof.
  induction l as [|x l IH]; simpl; [constructor|].
  apply insert_by_sorted. exact IH.
Qed.
End Sorting.

Lemma StronglySorted_impl {A : Type} (R R' : A -> A -> Prop) (l : list A) :
  (forall a b, R a b -> R' a b) ->
  StronglySorted R l -> StronglySorted R' l.
Proof.
  intros Himpl. induction 1 as [|x l Hs IH Hx]; constructor; [exact IH|].
  eapply Forall_impl; [|exact Hx]. intros y. apply Himpl.
Qed.

Lemma StronglySorted_app_inv {A : Type} (R : A -> A -> Prop)
  (l1 l2 : list A) :
  StronglySorted R (l1 ++ l2) ->
  StronglySorted R l1
  /\ forall a b, In a l1 -> In b l2 -> R a b.
Proof.
  induction l1 as [|x l1 IH]; simpl; intros H.
  - split; [constructor|]. intros a b [].
  - inversion H as [|y l Hs Hx]; subst.
    destruct (IH Hs) as [H1 H2].
    rewrite Forall_forall in Hx.
    split.
    + constructor; [exact H1|].
      apply Forall_forall. intros z Hz. apply Hx, in_or_app. auto.
    + intros a b [<-|Ha] Hb; [apply Hx, in_or_app; auto|auto].
Qed.

Lemma numeric_leb_total (a b : numeric) :
  numeric_leb a b = true \/ numeric_leb b a = true.
Proof.
  destruct a as [x|], b as [y|]; simpl; auto.
  destruct (Z.leb_spec x y); [auto|]. right. apply Z.leb_le. lia.
Qed.

Lemma numeric_leb_trans (a b c : numeric) :
  numeric_leb a b = true -> numeric_leb b c = true -> numeric_leb a c = true.
Proof.
  destruct a, b, c; simpl; try congruence.
  rewrite !Z.leb_le. lia.
Qed.

Lemma latest_leb_spec (a b : Row.t) :
  latest_leb a b = true <-> latest_order a b.
Proof.
  unfold latest_leb, latest_order.
  destruct (Z.ltb_spec (Row.timestamp b) (Row.timestamp a));
    [intuition|].
  destruct (Z.ltb_spec (Row.timestamp a) (Row.timestamp b));
    [split; [discriminate|intros [?|[? _]]; lia]|].
  destruct (Z.ltb_spec (Row.expiration_date a) (Row.expiration_date b));
    [split; auto; intros _; right; split; [lia|auto]|].
  destruct (Z.ltb_spec (Row.expiration_date b) (Row.expiration_date a));
    [split; [discriminate|intros [?|[_ [?|[? _]]]]; lia]|].
  split.
  - intros Hn. right. split; [lia|]. right. split; [lia|exact Hn].
  - intros [?|[_ [?|[_ Hn]]]]; [lia|lia|exact Hn].
Qed.

Lemma latest_leb_total (a b : Row.t) :
  latest_leb a b = true \/ latest_leb b a = true.
Proof.
  rewrite !latest_leb_spec. unfold latest_order.
  destruct (numeric_leb_total (Row.strike a) (Row.strike b));
    destruct (Z.lt_total (Row.timestamp a) (Row.timestamp b))
      as [?|[?|?]];
    destruct (Z.lt_total (Row.expiration_date a) (Row.expiration_date b))
      as [?|[?|?]];
    intuition.
Qed.

Lemma latest_leb_trans (a b c : Row.t) :
  latest_leb a b = true -> latest_leb b c = true -> latest_leb a c = true.
Proof.
  rewrite !latest_leb_spec. unfold latest_order.
  intros [H1|[H1 [H2|[H2 H3]]]] [K1|[K1 [K2|[K2 K3]]]];
    try (left; lia); try (right; split; [lia|left; lia]).
  right. split; [lia|]. right. split; [lia|].
  exact (numeric_leb_trans _ _ _ H3 K3).
Qed.

(** [getLatestOptionsData] with a limit that is not negative returns
    rows of the symbol from the table, sorted by descending observation
    time, then expiration date, then strike; they are the first [limit] of
    the rows of the symbol in that order, all of them when there are fewer;
    none when the limit is zero; and a call without a limit is a call with
    limit 100.  The table is not changed. *)
Theorem latest_sorted_and_truncated (symbol : string) (limit : Z)
  (d : Database) :
  0 <= limit ->
  exists result d',
    getLatestOptionsData symbol (Some limit) d = (Returned result, d')
    /\ table d' = table d
    /\ StronglySorted latest_order result
    /\ (forall r, In r result -> In r (table d) /\ Row.symbol r = symbol)
    /\ List.length result
       = Nat.min (Z.to_nat limit)
           (List.length (filter (has_symbol symbol) (table d)))
    /\ (exists rest,
          Permutation (result ++ rest) (filter (has_symbol symbol) (table d))
          /\ forall a b, In a result -> In b rest -> latest_order a b)
    /\ (limit = 0 -> result = [])
    /\ getLatestOptionsData symbol None d
       = getLatestOptionsData symbol (Some 100) d.
Proof.
  intros Hlimit. unfold getLatestOptionsData.
  destruct (Z.ltb_spec limit 0) as [?|_]; [lia|].
  set (hits := filter (has_symbol symbol) (rows (record StSelect (connect d)))).
  set (sorted := order_by latest_leb hits).
  assert (StronglySorted latest_order sorted) as Hsorted.
  { eapply StronglySorted_impl;
      [|apply (order_by_sorted latest_leb latest_leb_total latest_leb_trans)].
    intros a b. apply latest_leb_spec. }
  pose proof (firstn_skipn (Z.to_nat limit) sorted) as Hsplit.
  rewrite <- Hsplit in Hsorted.
  destruct (StronglySorted_app_inv _ _ _ Hsorted) as [Hfirst Hrest].
  eexists. eexists. split; [reflexivity|]. simpl.
  split; [reflexivity|].
  split; [exact Hfirst|].
  split.
  { intros r Hr.
    assert (In r sorted) as Hin
      by (rewrite <- Hsplit; apply in_or_app; left; exact Hr).
    apply In_order_by in Hin. apply filter_In in Hin. rename Hin into Hr'.
    clear Hr. rename Hr' into Hr.
    destruct Hr as [Hr E]. split; [exact Hr|]. apply String.eqb_eq. exact E. }
  split.
  { rewrite length_firstn. f_equal.
    symmetry. apply Permutation_length, Permutation_order_by. }
  split.
  { exists (skipn (Z.to_nat limit) sorted).
    split; [|exact Hrest].
    rewrite Hsplit. symmetry. apply Permutation_order_by. }
  split; [intros ->; reflexivity|reflexivity].
Qed.

Lemma latest_sorted_and_truncated_witness :
  exists result d',
    getLatestOptionsData "SPX" (Some 2) three_instants = (Returned result, d')
    /\ map Row.timestamp result = [3000; 2000].
Proof.
  destruct (latest_sorted_and_truncated "SPX" 2 three_instants)
    as [result [d' [H1 _]]].
  - discriminate.
  - exists result, d'. split; [exact H1|].
    assert (getLatestOptionsData "SPX" (Some 2) three_instants
            = (Returned result, d')) as E by exact H1.
    vm_compute in E. injection E as <- _. reflexivity.
Defined.

Lemma In_distinct_incl {A : Type} (eqb : A -> A -> bool) (x : A)
  (l : list A) : In x (distinct eqb l) -> In x l.
Proof.
  induction l as [|y l IH]; simpl; [auto|].
  destruct (existsb (eqb y) l); simpl; intuition.
Qed.

Lemma key_eqb_refl (k : Z * numeric) : key_eqb k k = true.
Proof.
  unfold key_eqb. rewrite Z.eqb_refl. destruct (snd k); simpl;
    [apply Z.eqb_refl|reflexivity].
Qed.

(** The [WHERE] clause of the aggregation queries does not see the rows
    without a [mid]. *)
Lemma where_without_null_mid (sel : Row.t -> bool) (startDate endDate : Z)
  (t : list Row.t) :
  filter
    (fun r => sel r && expires_between startDate endDate r && mid_not_null r)
    (filter mid_not_null t)
  = filter
      (fun r => sel r && expires_between startDate endDate r && mid_not_null r)
      t.
Proof.
  rewrite filter_filter. apply filter_ext. intros r.
  destruct (mid_not_null r); [reflexivity|].
  rewrite andb_false_r. reflexivity.
Qed.

(** Every row of the result aggregates the members of its group that have
    a [mid], and there is at least one. *)
Lemma aggregate_members (with_symbols : bool) (sel : Row.t -> bool)
  (startDate endDate : Z) (t : list Row.t) (g : AggregateRow.t) :
  In g
    (aggregate with_symbols
       (filter
          (fun r =>
             sel r && expires_between startDate endDate r && mid_not_null r)
          t)) ->
  aggregates_over g
    (filter mid_not_null
       (group_members sel startDate endDate (aggregate_key g) t))
  /\ 0 < AggregateRow.option_count g.
Proof.
  unfold aggregate. rewrite in_map_iff. intros [k [<- Hk]].
  apply In_order_by, In_distinct_incl, in_map_iff in Hk.
  destruct Hk as [r [Ek Hr]].
  assert (aggregate_key
            (aggregate_group with_symbols k
               (filter (fun r0 => key_eqb (group_key r0) k)
                  (filter
                     (fun r0 =>
                        sel r0 && expires_between startDate endDate r0
                        && mid_not_null r0) t))) = k) as Hkey
    by (destruct k; reflexivity).
  rewrite Hkey.
  assert (filter mid_not_null (group_members sel startDate endDate k t)
          = filter (fun r0 => key_eqb (group_key r0) k)
              (filter
                 (fun r0 =>
                    sel r0 && expires_between startDate endDate r0
                    && mid_not_null r0) t)) as Hm.
  { unfold group_members. rewrite !filter_filter. apply filter_ext.
    intros x. destruct (sel x), (expires_between startDate endDate x),
      (mid_not_null x), (key_eqb (group_key x) k); reflexivity. }
  rewrite Hm. split; [repeat split|].
  simpl. unfold count.
  assert (In r (filter (fun r0 => key_eqb (group_key r0) k)
                  (filter
                     (fun r0 =>
                        sel r0 && expires_between startDate endDate r0
                        && mid_not_null r0) t))) as Hin
    by (apply filter_In; split; [exact Hr|rewrite Ek; apply key_eqb_refl]).
  destruct (filter (fun r0 => key_eqb (group_key r0) k) _);
    [contradiction|].
  cbn [List.length]. lia.
Qed.

(** C8.  Both aggregation queries return the same rows whether or not the
    rows with a NULL [mid] are in the table; and each row they return
    carries the sums and the counts of the members of its group that have
    a [mid], of which there is at least one, so that a member without a
    [mid] adds nothing to a sum and is not counted. *)
Theorem aggregation_excludes_null_mid (symbol : string)
  (symbols : list string) (startDate endDate : Z) (d : Database) :
  fst (getAggregatedOptionsData symbol startDate endDate (without_null_mid d))
  = fst (getAggregatedOptionsData symbol startDate endDate d)
  /\ fst (getAggregatedOptionsDataMultiSymbol symbols startDate endDate
            (without_null_mid d))
     = fst (getAggregatedOptionsDataMultiSymbol symbols startDate endDate d)
  /\ (forall result g,
        fst (getAggregatedOptionsData symbol startDate endDate d)
        = Returned result ->
        In g result ->
        aggregates_over g
          (filter mid_not_null
             (group_members (has_symbol symbol) startDate endDate
                (aggregate_key g) (table d)))
        /\ 0 < AggregateRow.option_count g)
  /\ (forall result g,
        fst (getAggregatedOptionsDataMultiSymbol symbols startDate endDate d)
        = Returned result ->
        In g result ->
        aggregates_over g
          (filter mid_not_null
             (group_members (symbol_in symbols) startDate endDate
                (aggregate_key g) (table d)))
        /\ 0 < AggregateRow.option_count g).
Proof.
  unfold getAggregatedOptionsData, getAggregatedOptionsDataMultiSymbol.
  simpl. split; [|split; [|split]].
  - rewrite where_without_null_mid. reflexivity.
  - destruct symbols; [reflexivity|]. simpl.
    rewrite where_without_null_mid. reflexivity.
  - intros result g [= <-]. apply aggregate_members.
  - destruct symbols as [|s symbols]; simpl; [discriminate|].
    intros result g [= <-]. apply aggregate_members.
Qed.

Lemma aggregation_excludes_null_mid_witness :
  exists g,
    fst (getAggregatedOptionsDataMultiSymbol ["SPX"; "SPXW"] 0
           253402214400000 null_and_five)
    = Returned [g]
    /\ AggregateRow.total_mid_price g = Some (Dec 500)
    /\ AggregateRow.option_count g = 1
    /\ AggregateRow.call_count g = 1
    /\ AggregateRow.symbols g = Some "SPXW".
Proof.
  assert (exists g,
             fst (getAggregatedOptionsDataMultiSymbol ["SPX"; "SPXW"] 0
                    253402214400000 null_and_five)
             = Returned [g]) as [g Hg]
    by (eexists; vm_compute; reflexivity).
  destruct (proj2 (proj2 (proj2
              (aggregation_excludes_null_mid "SPX" ["SPX"; "SPXW"] 0
                 253402214400000 null_and_five))) [g] g Hg
              (or_introl eq_refl))
    as [[_ [_ [H3 [H4 [H5 _]]]]] _].
  exists g. split; [exact Hg|].
  vm_compute in Hg. injection Hg as <-.
  split; [rewrite H3; reflexivity|].
  split; [rewrite H4; reflexivity|].
  split; [rewrite H5; reflexivity|reflexivity].
Defined.

(** * Further properties *)

(** ** Orders *)

Lemma ascii_compare_trans (c : comparison) (x y z : ascii) :
  Ascii.compare x y = c -> Ascii.compare y z = c -> Ascii.compare x z = c.
Proof.
  unfold Ascii.compare. destruct c; intros H1 H2.
  - apply N.compare_eq_iff in H1. apply N.compare_eq_iff in H2.
    apply N.compare_eq_iff. congruence.
  - apply N.compare_lt_iff in H1. apply N.compare_lt_iff in H2.
    apply N.compare_lt_iff. eapply N.lt_trans; eassumption.
  - apply N.compare_gt_iff in H1. apply N.compare_gt_iff in H2.
    apply N.compare_gt_iff. eapply N.lt_trans; eassumption.
Qed.

Lemma string_compare_lt_trans (x y z : string) :
  String.compare x y = Lt -> String.compare y z = Lt ->
  String.compare x z = Lt.
Proof.
  revert y z. induction x as [|a x IH]; intros [|b y] [|c z]; simpl;
    try congruence.
  destruct (Ascii.compare a b) eqn:Eab; try discriminate;
    destruct (Ascii.compare b c) eqn:Ebc; try discriminate; intros H1 H2.
  - rewrite (ascii_compare_trans Eq _ _ _ Eab Ebc). eapply IH; eassumption.
  - apply Ascii.compare_eq_iff in Eab. subst b. rewrite Ebc. reflexivity.
  - apply Ascii.compare_eq_iff in Ebc. subst c. rewrite Eab. reflexivity.
  - rewrite (ascii_compare_trans Lt _ _ _ Eab Ebc). reflexivity.
Qed.

Lemma string_compare_refl (x : string) : String.compare x x = Eq.
Proof.
  induction x as [|a x IH]; simpl; [reflexivity|].
  unfold Ascii.compare. rewrite N.compare_refl. exact IH.
Qed.

Lemma string_leb_trans (x y z : string) :
  String.leb x y = true -> String.leb y z = true -> String.leb x z = true.
Proof.
  unfold String.leb.
  destruct (String.compare x y) eqn:Exy; try discriminate;
    destruct (String.compare y z) eqn:Eyz; try discriminate; intros _ _.
  - apply String.compare_eq_iff in Exy. apply String.compare_eq_iff in Eyz.
    subst. rewrite string_compare_refl. reflexivity.
  - apply String.compare_eq_iff in Exy. subst. rewrite Eyz. reflexivity.
  - apply String.compare_eq_iff in Eyz. subst. rewrite Exy. reflexivity.
  - rewrite (string_compare_lt_trans _ _ _ Exy Eyz). reflexivity.
Qed.

Lemma numeric_eqb_eq (a b : numeric) : numeric_eqb a b = true <-> a = b.
Proof.
  destruct a as [x|], b as [y|]; simpl; try (split; congruence).
  rewrite Z.eqb_eq. split; congruence.
Qed.

Lemma numeric_leb_antisym (a b : numeric) :
  numeric_leb a b = true -> numeric_leb b a = true -> a = b.
Proof.
  destruct a as [x|], b as [y|]; simpl; try congruence.
  rewrite !Z.leb_le. intros. f_equal. lia.
Qed.

Lemma numeric_leb_refl (a : numeric) : numeric_leb a a = true.
Proof. destruct a; simpl; [apply Z.leb_refl|reflexivity]. Qed.

Lemma range_leb_spec (a b : Row.t) :
  range_leb a b = true <-> range_order a b.
Proof.
  unfold range_leb, range_order, numeric_lt.
  destruct (Z.ltb_spec (Row.expiration_date a) (Row.expiration_date b));
    [intuition|].
  destruct (Z.ltb_spec (Row.expiration_date b) (Row.expiration_date a));
    [split; [discriminate|intros [?|[? _]]; lia]|].
  destruct (numeric_eqb (Row.strike a) (Row.strike b)) eqn:E.
  - apply numeric_eqb_eq in E. split.
    + intros Hs. right. split; [lia|]. right. auto.
    + intros [?|[_ [[_ Hne]|[_ Hs]]]]; [lia|congruence|exact Hs].
  - assert (Row.strike a <> Row.strike b) as Hne
      by (intros Heq; apply numeric_eqb_eq in Heq; congruence).
    split.
    + intros Hl. right. split; [lia|]. left. auto.
    + intros [?|[_ [[Hl _]|[Heq _]]]]; [lia|exact Hl|congruence].
Qed.

Lemma range_leb_total (a b : Row.t) :
  range_leb a b = true \/ range_leb b a = true.
Proof.
  unfold range_leb.
  destruct (Z.ltb_spec (Row.expiration_date a) (Row.expiration_date b));
    [auto|].
  destruct (Z.ltb_spec (Row.expiration_date b) (Row.expiration_date a));
    [auto|].
  destruct (numeric_eqb (Row.strike a) (Row.strike b)) eqn:E.
  - apply numeric_eqb_eq in E. rewrite E, numeric_leb_refl.
    assert (numeric_eqb (Row.strike b) (Row.strike b) = true) as ->
      by (apply numeric_eqb_eq; reflexivity).
    apply String.leb_total.
  - assert (numeric_eqb (Row.strike b) (Row.strike a) = false) as ->.
    { destruct (numeric_eqb (Row.strike b) (Row.strike a)) eqn:E';
        [|reflexivity].
      apply numeric_eqb_eq in E'. symmetry in E'.
      apply numeric_eqb_eq in E'. congruence. }
    apply numeric_leb_total.
Qed.

Lemma numeric_lt_trans (a b c : numeric) :
  numeric_lt a b -> numeric_lt b c -> numeric_lt a c.
Proof.
  intros [H1 N1] [H2 N2]. split; [exact (numeric_leb_trans _ _ _ H1 H2)|].
  intros ->. apply N1. apply numeric_leb_antisym; assumption.
Qed.

Lemma range_leb_trans (a b c : Row.t) :
  range_leb a b = true -> range_leb b c = true -> range_leb a c = true.
Proof.
  rewrite !range_leb_spec. unfold range_order.
  intros [H1|[H1 [H2|[H2 H3]]]] [K1|[K1 [K2|[K2 K3]]]];
    try (left; lia); right; (split; [lia|]).
  - left. exact (numeric_lt_trans _ _ _ H2 K2).
  - left. rewrite <- K2. exact H2.
  - left. rewrite H2. exact K2.
  - right. split; [congruence|]. exact (string_leb_trans _ _ _ H3 K3).
Qed.

(** ** Counting by symbol *)

Lemma count_filter_or {A : Type} (p q : A -> bool) (l : list A) :
  (forall x, In x l -> p x = true -> q x = false) ->
  count (filter (fun x => p x || q x) l)
  = count (filter p l) + count (filter q l).
Proof.
  intros Hdisj. unfold count.
  induction l as [|x l IH]; [reflexivity|].
  assert (forall y, In y l -> p y = true -> q y = false) as Hl
    by (intros y Hy; apply Hdisj; right; exact Hy).
  specialize (IH Hl). cbn [filter].
  pose proof (Hdisj x (or_introl eq_refl)) as Hx.
  destruct (p x); [rewrite (Hx eq_refl)|destruct (q x)];
    cbn [orb List.length]; rewrite ?Nat2Z.inj_succ; lia.
Qed.

Lemma count_by_symbols (l : list string) (t : list Row.t) :
  NoDup l ->
  Zsum (map (fun s => count (filter (has_symbol s) t)) l)
  = count (filter (symbol_in l) t).
Proof.
  induction 1 as [|s l Hs Hnd IH]; simpl.
  - rewrite filter_none; [reflexivity|]. reflexivity.
  - rewrite IH. symmetry.
    apply (count_filter_or (has_symbol s) (symbol_in l)).
    intros r _ Hr. apply String.eqb_eq in Hr.
    destruct (symbol_in l r) eqn:E; [|reflexivity].
    apply symbol_in_In in E. rewrite Hr in E. contradiction.
Qed.

Lemma all_symbols_NoDup (t : list Row.t) :
  NoDup (order_by String.leb (distinct String.eqb (map Row.symbol t))).
Proof.
  eapply Permutation_NoDup; [apply Permutation_order_by|].
  apply NoDup_distinct_string.
Qed.

Lemma all_symbols_In (t : list Row.t) (s : string) :
  In s (order_by String.leb (distinct String.eqb (map Row.symbol t)))
  <-> exists r, In r t /\ Row.symbol r = s.
Proof.
  rewrite In_order_by, In_distinct_string, in_map_iff.
  split; intros [r [H1 H2]]; exists r; auto.
Qed.

Lemma symbol_in_all (t : list Row.t) (r : Row.t) :
  In r t ->
  symbol_in (order_by String.leb (distinct String.eqb (map Row.symbol t))) r
  = true.
Proof.
  intros Hr. apply symbol_in_In, all_symbols_In. exists r. auto.
Qed.

Lemma total_count_positive (t : list Row.t) (s : string) :
  0 < total_count t s <-> exists r, In r t /\ Row.symbol r = s.
Proof.
  unfold total_count, count. split.
  - intros H. destruct (filter (has_symbol s) t) as [|r l] eqn:F;
      [simpl in H; lia|].
    assert (In r (filter (has_symbol s) t)) as Hr
      by (rewrite F; left; reflexivity).
    apply filter_In in Hr. destruct Hr as [Hr E].
    exists r. split; [exact Hr|]. apply String.eqb_eq. exact E.
  - intros [r [Hr E]].
    assert (In r (filter (has_symbol s) t)) as Hin
      by (apply filter_In; split; [exact Hr|apply String.eqb_eq; exact E]).
    destruct (filter (has_symbol s) t); [contradiction|].
    cbn [List.length]. lia.
Qed.

(** ** The range query and the list of symbols *)

(** X1.  [getOptionsData] returns exactly the stored rows of the symbol
    whose expiration date lies between the two bounds, both included,
    sorted by expiration date, then strike, then option type; nothing
    when the end is before the start; and it leaves the table alone. *)
Theorem range_query_complete_and_sorted (symbol : string)
  (startDate endDate : Z) (d : Database) :
  exists result d',
    getOptionsData symbol startDate endDate d = (Returned result, d')
    /\ table d' = table d
    /\ StronglySorted range_order result
    /\ Permutation result
         (filter
            (fun r =>
               has_symbol symbol r && expires_between startDate endDate r)
            (table d))
    /\ (forall r,
          In r result
          <-> In r (table d) /\ Row.symbol r = symbol
              /\ startDate <= Row.expiration_date r <= endDate)
    /\ (endDate < startDate -> result = []).
Proof.
  unfold getOptionsData. simpl.
  set (hits := filter
                 (fun r =>
                    has_symbol symbol r
                    && expires_between startDate endDate r) (table d)).
  assert (forall r,
             In r hits
             <-> In r (table d) /\ Row.symbol r = symbol
                 /\ startDate <= Row.expiration_date r <= endDate) as Hhits.
  { intros r. unfold hits, has_symbol, expires_between.
    rewrite filter_In, !andb_true_iff, String.eqb_eq, !Z.leb_le. tauto. }
  eexists. eexists. split; [reflexivity|]. simpl.
  split; [reflexivity|].
  split.
  { eapply StronglySorted_impl;
      [|apply (order_by_sorted range_leb range_leb_total range_leb_trans)].
    intros a b. apply range_leb_spec. }
  split; [symmetry; apply Permutation_order_by|].
  split; [intros r; rewrite In_order_by; apply Hhits|].
  intros Hlt.
  assert (hits = []) as ->; [|reflexivity].
  apply filter_none. intros r _. unfold expires_between.
  destruct (Z.leb_spec startDate (Row.expiration_date r));
    destruct (Z.leb_spec (Row.expiration_date r) endDate);
    rewrite ?andb_false_r; try reflexivity; lia.
Qed.

Lemma range_query_complete_and_sorted_witness :
  exists result d',
    getOptionsData "SPX" 1758240000001 1758240000000 three_observations
    = (Returned result, d')
    /\ result = [].
Proof.
  destruct (range_query_complete_and_sorted "SPX" 1758240000001
              1758240000000 three_observations)
    as [result [d' [H1 [_ [_ [_ [_ H6]]]]]]].
  exists result, d'. split; [exact H1|]. apply H6. reflexivity.
Defined.

(** X2.  [getAllSymbols] lists every underlying symbol present in the
    table once, each with the number of its rows, which is positive; the
    numbers add up to the size of the table, which the query leaves
    alone. *)
Theorem all_symbols_partition_table (d : Database) :
  exists result d',
    getAllSymbols d = (Returned result, d')
    /\ table d' = table d
    /\ NoDup (map listed_symbol result)
    /\ (forall s,
          In s (map listed_symbol result)
          <-> exists r, In r (table d) /\ Row.symbol r = s)
    /\ Forall
         (fun e =>
            record_count e = total_count (table d) (listed_symbol e)
            /\ 0 < record_count e)
         result
    /\ Zsum (map record_count result) = count (table d).
Proof.
  unfold getAllSymbols. simpl.
  set (symbols :=
         order_by String.leb (distinct String.eqb (map Row.symbol (table d)))).
  eexists. eexists. split; [reflexivity|]. simpl.
  assert (map listed_symbol
            (map (fun s => mkSymbolCount s
                             (count (filter (has_symbol s) (table d))))
               symbols) = symbols) as Hsyms
    by (rewrite map_map; simpl; apply map_id).
  rewrite Hsyms.
  split; [reflexivity|].
  split; [apply all_symbols_NoDup|].
  split; [intros s; apply all_symbols_In|].
  split.
  { apply Forall_forall. intros e He. apply in_map_iff in He.
    destruct He as [s [<- Hs]]. simpl. split; [reflexivity|].
    apply (total_count_positive (table d) s), all_symbols_In, Hs. }
  rewrite map_map. simpl.
  rewrite (count_by_symbols symbols (table d) (all_symbols_NoDup _)).
  f_equal. apply filter_all. intros r Hr. apply symbol_in_all. exact Hr.
Qed.

(** ** More on retention cleanup *)

Lemma fold_left_min (l : list Z) (a : Z) :
  let m := fold_left Z.min l a in
  m <= a /\ (forall x, In x l -> m <= x) /\ (m = a \/ In m l).
Proof.
  revert a. induction l as [|y l IH]; intros a; simpl.
  - split; [lia|]. split; [intros x []|auto].
  - destruct (IH (Z.min a y)) as [H1 [H2 H3]].
    split; [lia|]. split.
    + intros x [<-|Hx]; [lia|auto].
    + destruct H3 as [H3|H3]; [|right; right; exact H3].
      destruct (Z.min_spec a y) as [[_ E]|[_ E]];
        ((left; congruence) || (right; left; congruence)).
Qed.

Lemma fold_left_max (l : list Z) (a : Z) :
  let m := fold_left Z.max l a in
  a <= m /\ (forall x, In x l -> x <= m) /\ (m = a \/ In m l).
Proof.
  revert a. induction l as [|y l IH]; intros a; simpl.
  - split; [lia|]. split; [intros x []|auto].
  - destruct (IH (Z.max a y)) as [H1 [H2 H3]].
    split; [lia|]. split.
    + intros x [<-|Hx]; [lia|auto].
    + destruct H3 as [H3|H3]; [|right; right; exact H3].
      destruct (Z.max_spec a y) as [[_ E]|[_ E]];
        ((left; congruence) || (right; left; congruence)).
Qed.

Lemma sql_min_max_spec (l : list Z) :
  l <> [] ->
  exists lo hi,
    sql_min l = Some lo /\ sql_max l = Some hi
    /\ (forall x, In x l -> lo <= x <= hi)
    /\ In lo l /\ In hi l.
Proof.
  destruct l as [|a l]; [congruence|]. intros _. simpl.
  destruct (fold_left_min l a) as [A1 [A2 A3]].
  destruct (fold_left_max l a) as [B1 [B2 B3]].
  eexists. eexists. split; [reflexivity|]. split; [reflexivity|].
  split; [intros x [<-|Hx]; [lia|]; split; auto|].
  split; [destruct A3 as [->|A3]|destruct B3 as [->|B3]];
    (left; reflexivity) || (right; assumption).
Qed.

(** The observation times that the count query reports for a symbol are
    the earliest and the latest among its rows. *)
Lemma count_rows_times (symbols : list string) (cutoffTime : Z)
  (t : list Row.t) (row : CountRow.t) :
  In row (count_rows symbols cutoffTime t) ->
  exists lo hi,
    CountRow.oldest_timestamp row = Some lo
    /\ CountRow.newest_timestamp row = Some hi
    /\ (forall r, In r t -> Row.symbol r = CountRow.symbol row ->
          lo <= Row.timestamp r <= hi)
    /\ (exists r, In r t /\ Row.symbol r = CountRow.symbol row
                  /\ Row.timestamp r = lo)
    /\ (exists r, In r t /\ Row.symbol r = CountRow.symbol row
                  /\ Row.timestamp r = hi).
Proof.
  unfold count_rows. rewrite in_map_iff. intros [s [<- Hs]].
  apply counted_symbols_In in Hs. destruct Hs as [Hs [r0 [Hr0 E0]]].
  unfold count_row. simpl. rewrite (group_of_requested _ _ _ Hs).
  assert (forall r, In r (filter (has_symbol s) t)
                    <-> In r t /\ Row.symbol r = s) as Hg
    by (intros r; rewrite filter_In; unfold has_symbol;
        rewrite String.eqb_eq; reflexivity).
  destruct (sql_min_max_spec (map Row.timestamp (filter (has_symbol s) t)))
    as [lo [hi [H1 [H2 [H3 [H4 H5]]]]]].
  { intros E. assert (In r0 (filter (has_symbol s) t)) as Hin
      by (apply Hg; auto).
    apply (in_map Row.timestamp) in Hin. rewrite E in Hin. exact Hin. }
  exists lo, hi. split; [exact H1|]. split; [exact H2|].
  split.
  { intros r Hr Er. apply H3, in_map, Hg. auto. }
  apply in_map_iff in H4, H5.
  destruct H4 as [r1 [E1 K1]]. destruct H5 as [r2 [E2 K2]].
  apply Hg in K1, K2.
  split; [exists r1|exists r2]; tauto.
Qed.

Lemma kept_after_cleanup (symbols : list string) (cutoffTime : Z)
  (t : list Row.t) (s : string) :
  In s symbols ->
  total_count t s
  = stale_count cutoffTime t s
    + total_count (filter (fun r => negb (purged symbols cutoffTime r)) t) s.
Proof.
  intros Hs. unfold total_count, stale_count.
  rewrite (count_filter_split (is_stale cutoffTime) (filter (has_symbol s) t)).
  rewrite !filter_filter. f_equal. f_equal. apply filter_ext. intros r.
  unfold purged, has_symbol.
  destruct (String.eqb_spec (Row.symbol r) s) as [E|_];
    [|rewrite andb_false_r; reflexivity].
  assert (symbol_in symbols r = true) as ->
    by (apply symbol_in_In; rewrite E; exact Hs).
  simpl. rewrite andb_true_r. reflexivity.
Qed.

(** X3.  A live cleanup returns, for each requested symbol that has rows,
    an entry in which [totalRecords] is the number of its rows before the
    run, [deletedRecords] the number of them observed before the cutoff,
    [keptRecords] the number of its rows after the run, so that the total
    is deleted plus kept; the action is [deleted] exactly when something
    was deleted; and [oldestTimestamp] and [newestTimestamp] are the
    earliest and latest observation times of its rows before the run. *)
Theorem live_cleanup_accounts (symbols : list string) (keepHours : Q)
  (now : Z) (d : Database) :
  symbols <> [] ->
  exists res d',
    cleanupOldOptionsData symbols keepHours false now d = (Returned res, d')
    /\ Forall
         (fun e =>
            let s := CleanupEntry.symbol e in
            let stale := stale_count (cutoff now keepHours) (table d) s in
            CleanupEntry.totalRecords e = total_count (table d) s
            /\ CleanupEntry.deletedRecords e = Some stale
            /\ CleanupEntry.oldRecords e = None
            /\ CleanupEntry.keptRecords e = total_count (table d') s
            /\ CleanupEntry.totalRecords e
               = stale + CleanupEntry.keptRecords e
            /\ CleanupEntry.action e
               = (if 0 <? stale then deleted else no_action)
            /\ exists lo hi,
                 CleanupEntry.oldestTimestamp e = Some lo
                 /\ CleanupEntry.newestTimestamp e = Some hi
                 /\ (forall r, In r (table d) -> Row.symbol r = s ->
                       lo <= Row.timestamp r <= hi)
                 /\ (exists r, In r (table d) /\ Row.symbol r = s
                               /\ Row.timestamp r = lo)
                 /\ (exists r, In r (table d) /\ Row.symbol r = s
                               /\ Row.timestamp r = hi))
         (CleanupResult.results res).
Proof.
  intros Hne.
  destruct (cleanup_live_form symbols keepHours now d Hne)
    as [d' [H1 [H2 _]]].
  rewrite H1. eexists. exists d'. split; [reflexivity|]. simpl.
  apply Forall_forall. intros e He. apply in_map_iff in He.
  destruct He as [row [<- Hrow]].
  destruct (count_rows_exact _ _ _ _ Hrow) as [Hs [_ [Ht Ho]]].
  pose proof (count_rows_times _ _ _ _ Hrow) as Htimes.
  pose proof (kept_after_cleanup symbols (cutoff now keepHours) (table d)
                (CountRow.symbol row) Hs) as Hkept.
  rewrite <- H2 in Hkept.
  pose proof (count_rows_nonneg _ _ _ _ Hrow) as Hpos.
  unfold live_entry.
  destruct (0 <? CountRow.old_records row) eqn:E; simpl;
    rewrite <- ?Ho, ?E.
  - repeat split; try assumption; try reflexivity; lia.
  - apply Z.ltb_ge in E.
    assert (CountRow.old_records row = 0) as Hz by lia.
    rewrite Hz in *. simpl.
    repeat split; try assumption; try reflexivity; lia.
Qed.

Lemma live_cleanup_accounts_witness :
  exists res d',
    cleanupOldOptionsData ["SPX"] (1 # 2) false now_example three_observations
    = (Returned res, d')
    /\ map CleanupEntry.keptRecords (CleanupResult.results res) = [1]
    /\ map CleanupEntry.deletedRecords (CleanupResult.results res)
       = [Some 2].
Proof.
  destruct (live_cleanup_accounts ["SPX"] (1 # 2) now_example
              three_observations)
    as [res [d' [H1 _]]].
  - discriminate.
  - exists res, d'. split; [exact H1|].
    assert (cleanupOldOptionsData ["SPX"] (1 # 2) false now_example
              three_observations = (Returned res, d')) as E by exact H1.
    vm_compute in E. injection E as <- <-. split; reflexivity.
Defined.

(** X4.  Cleanup is idempotent: after a live cleanup, a second live
    cleanup of the same symbols whose cutoff is not later deletes nothing,
    reports [no_action] for every symbol and leaves the table as the first
    run left it. *)
Theorem second_cleanup_deletes_nothing (symbols : list string)
  (keepHours keepHours' : Q) (now now' : Z) (d : Database) :
  symbols <> [] ->
  cutoff now' keepHours' <= cutoff now keepHours ->
  exists res d1 res' d2,
    cleanupOldOptionsData symbols keepHours false now d = (Returned res, d1)
    /\ cleanupOldOptionsData symbols keepHours' false now' d1
       = (Returned res', d2)
    /\ table d2 = table d1
    /\ CleanupResult.totalDeleted res' = 0
    /\ Forall (fun e => CleanupEntry.action e = no_action
                        /\ CleanupEntry.deletedRecords e = Some 0)
         (CleanupResult.results res').
Proof.
  intros Hne Hcut.
  destruct (cleanup_live_form symbols keepHours now d Hne)
    as [d1 [H1 [H2 _]]].
  destruct (cleanup_live_form symbols keepHours' now' d1 Hne)
    as [d2 [K1 [K2 _]]].
  assert (forall r, In r (table d1) ->
            purged symbols (cutoff now' keepHours') r = false) as Hclean.
  { intros r Hr. rewrite H2 in Hr. apply filter_In in Hr.
    destruct Hr as [_ Hr]. apply negb_true_iff in Hr.
    unfold purged, is_stale in *.
    destruct (symbol_in symbols r); [|reflexivity]. simpl in *.
    apply Z.ltb_ge in Hr. apply Z.ltb_ge. lia. }
  assert (table d2 = table d1) as Hsame.
  { rewrite K2. apply filter_all. intros r Hr.
    rewrite (Hclean r Hr). reflexivity. }
  eexists. exists d1. eexists. exists d2.
  split; [exact H1|]. split; [exact K1|].
  split; [exact Hsame|]. simpl.
  split; [rewrite Hsame; lia|].
  apply Forall_forall. intros e He. apply in_map_iff in He.
  destruct He as [row [<- Hrow]].
  destruct (count_rows_exact _ _ _ _ Hrow) as [Hs [_ [_ Ho]]].
  assert (CountRow.old_records row = 0) as Hz.
  { rewrite Ho. unfold stale_count.
    rewrite filter_none; [reflexivity|].
    intros r Hr. specialize (Hclean r Hr). unfold purged, has_symbol in *.
    destruct (String.eqb_spec (Row.symbol r) (CountRow.symbol row))
      as [E|_]; [|reflexivity].
    assert (symbol_in symbols r = true) as Hin
      by (apply symbol_in_In; rewrite E; exact Hs).
    rewrite Hin in Hclean. exact Hclean. }
  unfold live_entry. rewrite Hz. simpl. split; reflexivity.
Qed.

Lemma second_cleanup_deletes_nothing_witness :
  exists res d1 res' d2,
    cleanupOldOptionsData ["SPX"] (1 # 2) false now_example three_observations
    = (Returned res, d1)
    /\ cleanupOldOptionsData ["SPX"] (1 # 2) false now_example d1
       = (Returned res', d2)
    /\ table d2 = table d1
    /\ CleanupResult.totalDeleted res' = 0.
Proof.
  destruct (second_cleanup_deletes_nothing ["SPX"] (1 # 2) (1 # 2)
              now_example now_example three_observations)
    as [res [d1 [res' [d2 [H1 [H2 [H3 [H4 _]]]]]]]].
  - discriminate.
  - apply Z.le_refl.
  - exists res, d1, res', d2. auto.
Defined.

(** X5.  [cleanupAllOldOptionsData] over an empty table opens no
    transaction: it runs its one query and returns zero symbols, zero
    deletions and no result.  Over any table a live run removes exactly
    the rows observed before the cutoff, whatever their symbol, reports
    their number as [totalDeleted] and the number of distinct symbols as
    [symbolsProcessed]; a dry run changes nothing. *)
Theorem cleanup_all_removes_stale (keepHours : Q) (dryRun : bool) (now : Z)
  (d : Database) :
  exists res d',
    cleanupAllOldOptionsData keepHours dryRun now d = (Returned res, d')
    /\ (table d = [] ->
        res = CleanupResult.make true dryRun None None 0 0 []
        /\ d' = mkDatabase [] (id_seq d) (log d ++ [StSelect]))
    /\ (dryRun = true -> table d' = table d)
    /\ (dryRun = false ->
        table d'
        = filter (fun r => negb (is_stale (cutoff now keepHours) r))
            (table d)
        /\ CleanupResult.totalDeleted res
           = count (filter (is_stale (cutoff now keepHours)) (table d)))
    /\ CleanupResult.symbolsProcessed res
       = count (distinct String.eqb (map Row.symbol (table d))).
Proof.
  destruct (cleanupAllOldOptionsData_form keepHours dryRun now d)
    as [Hempty Hsome].
  destruct (table d) as [|r0 t] eqn:Et.
  - rewrite (Hempty eq_refl). eexists. eexists. split; [reflexivity|].
    simpl. repeat split; auto.
  - destruct Hsome as [Hne Hrun]; [discriminate|]. rewrite Hrun.
    set (d1 := mkDatabase (r0 :: t) (id_seq d) (log d ++ [StSelect])) in *.
    set (symbols :=
           order_by String.leb
             (distinct String.eqb (map Row.symbol (r0 :: t)))) in *.
    assert (count symbols
            = count (distinct String.eqb (map Row.symbol (r0 :: t))))
      as Hcount.
    { unfold count. f_equal. symmetry.
      apply Permutation_length, Permutation_order_by. }
    destruct dryRun.
    + rewrite (cleanup_dry_run_form symbols keepHours now d1 Hne).
      eexists. eexists. split; [reflexivity|]. simpl.
      split; [discriminate|]. split; [reflexivity|].
      split; [discriminate|exact Hcount].
    + destruct (cleanup_live_form symbols keepHours now d1 Hne)
        as [d' [H1 [H2 _]]].
      rewrite H1. eexists. exists d'. split; [reflexivity|].
      cbn [CleanupResult.totalDeleted CleanupResult.symbolsProcessed].
      split; [discriminate|]. split; [discriminate|].
      split; [|exact Hcount]. intros _.
      assert (table d'
              = filter (fun r => negb (is_stale (cutoff now keepHours) r))
                  (r0 :: t)) as Ht.
      { rewrite H2. apply filter_ext_in. intros r Hr.
        unfold purged, symbols.
        change (table d1) with (r0 :: t) in Hr.
        rewrite (symbol_in_all (r0 :: t) r Hr). reflexivity. }
      split; [exact Ht|]. rewrite Ht.
      pose proof (count_filter_split (is_stale (cutoff now keepHours))
                    (r0 :: t)) as Hsplit.
      change (table d1) with (r0 :: t). lia.
Qed.

Lemma cleanup_all_removes_stale_witness :
  exists res d',
    cleanupAllOldOptionsData (1 # 2) false now_example three_observations
    = (Returned res, d')
    /\ map Row.id (table d') = [3]
    /\ CleanupResult.totalDeleted res = 2.
Proof.
  destruct (cleanup_all_removes_stale (1 # 2) false now_example
              three_observations)
    as [res [d' [H1 [_ [_ [H4 _]]]]]].
  destruct (H4 eq_refl) as [Ht Hn].
  exists res, d'. split; [exact H1|].
  split; [rewrite Ht; vm_compute; reflexivity|].
  rewrite Hn. vm_compute. reflexivity.
Defined.

(** ** More on ingestion *)

Lemma length_substring_le (n : nat) (s : string) :
  (String.length (substring 0 n s) <= n)%nat.
Proof.
  revert s. induction n as [|n IH]; intros [|c s]; simpl; try lia.
  specialize (IH s). lia.
Qed.

Lemma before_space_no_space (s : string) : has_space (before_space s) = false.
Proof.
  induction s as [|c s IH]; simpl; [reflexivity|].
  destruct (Ascii.eqb c " ") eqn:E; simpl; [reflexivity|].
  rewrite E. exact IH.
Qed.

Lemma no_space_not_all_spaces (s : string) (n m : nat) :
  has_space s = false -> (n < String.length s)%nat -> (0 < m)%nat ->
  all_spaces (substring n m s) = false.
Proof.
  revert n m. induction s as [|c s IH]; intros n m Hs Hn Hm; simpl in *;
    [lia|].
  apply orb_false_iff in Hs. destruct Hs as [Hc Hs].
  destruct n as [|n].
  - destruct m as [|m]; [lia|]. simpl. rewrite Hc. reflexivity.
  - apply IH; [exact Hs|lia|exact Hm].
Qed.

Lemma before_space_substring (n : nat) (s : string) :
  (String.length (before_space s) < n)%nat ->
  before_space (substring 0 n s) = before_space s.
Proof.
  revert n. induction s as [|c s IH]; intros n Hn; simpl in *.
  - destruct n; reflexivity.
  - destruct n as [|n]; [lia|]. simpl.
    destruct (Ascii.eqb c " "); [reflexivity|].
    simpl in Hn. rewrite IH; [reflexivity|lia].
Qed.

Lemma varchar_inr (n : nat) (column : string) (v : option string)
  (s' : string) :
  varchar n column v = inr (Some s') ->
  exists s,
    v = Some s /\ (String.length s' <= n)%nat
    /\ (s' = s
        \/ ((n < String.length s)%nat /\ s' = substring 0 n s
            /\ all_spaces (substring n (String.length s - n) s) = true)).
Proof.
  unfold varchar. destruct v as [s|]; [|discriminate].
  destruct (Nat.leb_spec (String.length s) n) as [Hle|Hgt].
  - intros [= <-]. exists s. auto.
  - destruct (all_spaces (substring n (String.length s - n) s)) eqn:E;
      [|discriminate].
    intros [= <-]. exists s. split; [reflexivity|].
    split; [apply length_substring_le|]. right. auto.
Qed.

Lemma varchar_no_space (n : nat) (column : string) (s s' : string) :
  has_space s = false ->
  varchar n column (Some s) = inr (Some s') ->
  s' = s /\ (String.length s <= n)%nat.
Proof.
  intros Hs Hv. destruct (varchar_inr _ _ _ _ Hv) as [s0 [E [Hlen Hcase]]].
  injection E as <-.
  destruct Hcase as [->|[Hgt [_ Hall]]]; [auto|].
  rewrite (no_space_not_all_spaces s n (String.length s - n) Hs Hgt) in Hall;
    [discriminate|lia].
Qed.

Lemma to_decimal_10_2_range (n : jsnum) (x : numeric) :
  to_decimal_10_2 n = Some x -> in_decimal_10_2 x = true.
Proof.
  destruct n as [q|]; unfold to_decimal_10_2;
    [|intros [= <-]; reflexivity].
  cbv zeta.
  destruct (Z.abs (round_half_away (q * 100)) <? 10 ^ 10) eqn:E;
    [|discriminate].
  intros [= <-]. exact E.
Qed.

Lemma check_in_inr (column : string) (allowed : list string) (s : string)
  (u : unit) :
  check_in column allowed s = inr u -> In s allowed.
Proof.
  unfold check_in.
  destruct (existsb (String.eqb s) allowed) eqn:E; [|discriminate].
  intros _. apply existsb_string_In. exact E.
Qed.

Section IngestionInvariants.
Variable pf : string -> jsnum.

(** A row that passes the checks of the upsert statement is well formed. *)
Lemma proposed_row_ok_row (i : Z) (o : Quote.t) (q : Row.t) :
  proposed_row i (values pf o) = inr q -> row_ok q.
Proof.
  intros Hq.
  destruct (proposed_row_columns _ _ _ Hq)
    as [Hprice [_ [_ [Hstrike _]]]].
  revert Hq. pass_checks. intros [= <-].
  repeat match goal with
         | H : not_null _ ?x = inr _ |- _ =>
             unfold not_null in H; destruct x eqn:?; inversion H; subst;
             clear H
         end.
  simpl in *.
  unfold underlyingSymbol in *.
  destruct (Quote.symbol o) as [sym|] eqn:Es; [|simpl in *; discriminate].
  destruct (String.eqb sym "") eqn:Eempty; [simpl in *; discriminate|].
  match goal with
  | H : varchar 20 "symbol" _ = _ |- _ =>
      destruct (varchar_no_space _ _ _ _ (before_space_no_space sym) H)
        as [-> Hlen]
  end.
  match goal with
  | H : varchar 100 "option_symbol" _ = _ |- _ =>
      apply varchar_inr in H; destruct H as [x [Ex [Hk Hcase]]];
      injection Ex as <-
  end.
  repeat match goal with
         | H : check_in _ _ _ = inr _ |- _ => apply check_in_inr in H
         end.
  unfold row_ok. cbn [Row.symbol Row.expiration_type Row.option_type
                      Row.option_symbol Row.strike].
  split; [exact Hlen|].
  split; [assumption|]. split; [assumption|]. split; [exact Hk|].
  split; [apply (to_decimal_10_2_range _ _ Hstrike)|].
  split.
  { intros f x Hx. specialize (Hprice f). rewrite Hx in Hprice.
    unfold stored_price in Hprice.
    destruct (Values.price f (values pf o)); [|discriminate].
    symmetry in Hprice. exact (to_decimal_10_2_range _ _ Hprice). }
  destruct Hcase as [->|[_ [-> _]]]; [reflexivity|].
  symmetry. apply before_space_substring. lia.
Qed.

Lemma proposes_any_id (j : Z) (o : Quote.t) (q : Row.t) :
  proposed_row j (values pf o) = inr q ->
  proposes pf o (Row.option_symbol q) /\ row_error pf o = None.
Proof.
  intros Hq. unfold proposes, row_error.
  rewrite (proposed_row_id j 0), Hq. split; [|reflexivity].
  exists (with_id 0 q). split; reflexivity.
Qed.

Lemma same_identity_refl (r : Row.t) : same_identity r r.
Proof. unfold same_identity. repeat split. Qed.

Lemma same_identity_trans (a b c : Row.t) :
  same_identity a b -> same_identity b c -> same_identity a c.
Proof. unfold same_identity. intuition congruence. Qed.

Lemma same_identity_update (q old : Row.t) :
  Row.option_symbol q = Row.option_symbol old ->
  same_identity old (do_update q old).
Proof. intros E. unfold same_identity. simpl. repeat split. exact E. Qed.

Lemma row_ok_update (q old : Row.t) :
  row_ok q -> row_ok old ->
  Row.option_symbol q = Row.option_symbol old ->
  row_ok (do_update q old).
Proof.
  unfold row_ok. intros [_ [_ [_ [Q4 [_ [Q6 _]]]]]]
                        [O1 [O2 [O3 [_ [O5 [_ O7]]]]]] E.
  simpl.
  split; [exact O1|]. split; [exact O2|]. split; [exact O3|].
  split; [exact Q4|]. split; [exact O5|].
  split; [|rewrite E; exact O7].
  intros f n Hn. apply (Q6 f n). destruct f; exact Hn.
Qed.

(** What the upsert statement does to the rows, case by case. *)
Lemma upsertQuery_cases (v : Values.t) (c : Client) :
  let j := serial c + 1 in
  let c0 := mkClient (rows c) j (snapshot c) (executed c ++ [StUpsert]) in
  match proposed_row j v with
  | inl e => upsertQuery v c = (Thrown e, c0)
  | inr q =>
      match find (same_key (Row.option_symbol q)) (rows c) with
      | Some old =>
          upsertQuery v c
          = (Returned (Row.id old, false),
             with_rows
               (map (fun x => if same_key (Row.option_symbol q) x
                              then do_update q x else x) (rows c)) c0)
      | None =>
          upsertQuery v c
          = (Returned (j, true), with_rows (rows c ++ [q]) c0)
      end
  end.
Proof.
  unfold upsertQuery. simpl.
  destruct (proposed_row (serial c + 1) v) as [e|q]; [reflexivity|].
  destruct (find (same_key (Row.option_symbol q)) (rows c)); reflexivity.
Qed.

(** The effect of the loop on the rows and on the counters: the rows it
    found keep their place and their identity, those whose key the batch
    does not write are untouched, and new rows come after them, one for
    each insertion. *)
Lemma upsert_each_effect (batch : list Quote.t) :
  forall results i u c,
  exists f extra,
    rows (snd (upsert_each pf batch results i u c))
    = map f (rows c) ++ extra
    /\ snapshot (snd (upsert_each pf batch results i u c)) = snapshot c
    /\ (forall r, same_identity r (f r))
    /\ (forall r,
          (forall o, In o batch -> ~ proposes pf o (Row.option_symbol r)) ->
          f r = r)
    /\ (forall results' i' u',
          fst (upsert_each pf batch results i u c)
          = Returned (results', i', u') ->
          exists new,
            results' = results ++ new
            /\ List.length new = List.length batch
            /\ i' = i + count extra
            /\ u' = u + (count batch - count extra)
            /\ count extra <= count batch)
    /\ (Forall (fun o => row_error pf o = None) batch <->
        exists res, fst (upsert_each pf batch results i u c) = Returned res).
Proof.
  induction batch as [|o batch IH]; intros results i u c.
  - exists (fun r => r), []. simpl. rewrite map_id, app_nil_r.
    split; [reflexivity|]. split; [reflexivity|].
    split; [apply same_identity_refl|]. split; [reflexivity|].
    split.
    + intros results' i' u' [= <- <- <-]. exists [].
      rewrite app_nil_r. unfold count. cbn [List.length].
      repeat split; try reflexivity; lia.
    + split; [eauto|constructor].
  - cbn [upsert_each].
    pose proof (upsertQuery_cases (values pf o) c) as Hq. cbv zeta in Hq.
    destruct (proposed_row (serial c + 1) (values pf o)) as [e|q] eqn:Ep.
    + rewrite Hq. exists (fun r => r), []. simpl.
      rewrite map_id, app_nil_r.
      split; [reflexivity|]. split; [reflexivity|].
      split; [apply same_identity_refl|]. split; [reflexivity|].
      split; [discriminate|].
      split; [|intros [res Hres]; discriminate].
      intros Hall. inversion Hall as [|x l Hx _]; subst.
      unfold row_error in Hx. rewrite (proposed_row_id (serial c + 1) 0), Ep
        in Hx. discriminate.
    + destruct (proposes_any_id _ _ _ Ep) as [Hprop Hok].
      destruct (find (same_key (Row.option_symbol q)) (rows c))
        as [old|] eqn:Efind; rewrite Hq;
        match goal with
        | |- context [upsert_each pf batch ?rs ?a ?b ?c1] =>
            destruct (IH rs a b c1)
              as [f' [extra' [H1 [H2 [H3 [H4 [H5 H6]]]]]]]
        end.
      * exists (fun r => f' (if same_key (Row.option_symbol q) r
                            then do_update q r else r)), extra'.
        split; [rewrite H1; simpl; rewrite map_map; reflexivity|].
        split; [rewrite H2; reflexivity|].
        split.
        { intros r. eapply same_identity_trans; [|apply H3].
          destruct (same_key (Row.option_symbol q) r) eqn:Ek;
            [|apply same_identity_refl].
          apply same_identity_update. symmetry. apply String.eqb_eq.
          exact Ek. }
        split.
        { intros r Hr.
          assert (same_key (Row.option_symbol q) r = false) as ->.
          { apply String.eqb_neq. intros E.
            apply (Hr o (or_introl eq_refl)). rewrite E. exact Hprop. }
          apply H4. intros o' Ho'. apply Hr. right. exact Ho'. }
        split.
        { intros results' i' u' Hres.
          destruct (H5 _ _ _ Hres) as [new [E1 [E2 [E3 [E4 E5]]]]].
          exists (mkUpsertEntry (Row.id old) updated :: new).
          rewrite E1, <- app_assoc. unfold count in *.
          cbn [List.length app] in *. rewrite ?Nat2Z.inj_succ in *.
          repeat split; try reflexivity; lia. }
        rewrite <- H6. split;
          [intros Hall; inversion Hall; assumption
          |intros Hall; constructor; assumption].
      * exists f', (f' q :: extra').
        split; [rewrite H1; simpl; rewrite map_app, <- app_assoc;
                reflexivity|].
        split; [rewrite H2; reflexivity|].
        split; [exact H3|].
        split.
        { intros r Hr. apply H4. intros o' Ho'. apply Hr. right. exact Ho'. }
        split.
        { intros results' i' u' Hres.
          destruct (H5 _ _ _ Hres) as [new [E1 [E2 [E3 [E4 E5]]]]].
          exists (mkUpsertEntry (serial c + 1) inserted :: new).
          rewrite E1, <- app_assoc. unfold count in *.
          cbn [List.length app] in *. rewrite ?Nat2Z.inj_succ in *.
          repeat split; try reflexivity; lia. }
        rewrite <- H6. split;
          [intros Hall; inversion Hall; assumption
          |intros Hall; constructor; assumption].
Qed.

(** A property of rows that accepted rows have and updates keep holds of
    the whole table after the loop. *)
Lemma upsert_each_preserves (P : Row.t -> Prop) (batch : list Quote.t) :
  (forall j o q, proposed_row j (values pf o) = inr q -> P q) ->
  (forall q old,
     P q -> P old -> Row.option_symbol q = Row.option_symbol old ->
     P (do_update q old)) ->
  forall results i u c,
    Forall P (rows c) ->
    Forall P (rows (snd (upsert_each pf batch results i u c))).
Proof.
  intros Hnew Hupd.
  induction batch as [|o batch IH]; intros results i u c Hc; [exact Hc|].
  cbn [upsert_each].
  pose proof (upsertQuery_cases (values pf o) c) as Hq. cbv zeta in Hq.
  destruct (proposed_row (serial c + 1) (values pf o)) as [e|q] eqn:Ep.
  - rewrite Hq. exact Hc.
  - destruct (find (same_key (Row.option_symbol q)) (rows c)) as [old|];
      rewrite Hq; apply IH; simpl.
    + apply Forall_forall. intros x Hx. apply in_map_iff in Hx.
      destruct Hx as [y [<- Hy]]. rewrite Forall_forall in Hc.
      destruct (same_key (Row.option_symbol q) y) eqn:Ek; [|auto].
      apply Hupd; [exact (Hnew _ _ _ Ep)|auto|].
      symmetry. apply String.eqb_eq. exact Ek.
    + apply Forall_app. split; [exact Hc|].
      constructor; [exact (Hnew _ _ _ Ep)|constructor].
Qed.

End IngestionInvariants.

(** X6.  Ingestion keeps the table well formed, whether the batch is
    committed or rolled back: the keys stay distinct, every row satisfies
    the column types and [CHECK] constraints of the schema, and the
    underlying symbol of every row is its option symbol up to the first
    space. *)
Theorem ingestion_keeps_table_ok (pf : string -> jsnum)
  (batch : list Quote.t) (d : Database) :
  table_ok (table d) ->
  table_ok (table (snd (insertOptionsData pf batch d))).
Proof.
  intros [Hu Hok]. unfold insertOptionsData.
  set (c0 := query_BEGIN (connect d)).
  destruct (upsert_each_unique_keys pf batch [] 0 0 c0 Hu) as [U1 U2].
  pose proof (upsert_each_preserves pf row_ok batch
                (proposed_row_ok_row pf) row_ok_update [] 0 0 c0 Hok) as P1.
  destruct (upsert_each pf batch [] 0 0 c0) as [[[[results i] u]|e] c];
    simpl in *.
  - split; assumption.
  - unfold query_ROLLBACK. simpl. rewrite U2. simpl. split; assumption.
Qed.

Lemma ingestion_keeps_table_ok_witness :
  table_ok
    (table
       (snd (insertOptionsData parseFloat_decimal
               [quote_AAPL (JString "1.20") 1000; quote_AAPL JNull 2000]
               empty_database))).
Proof.
  apply (ingestion_keeps_table_ok parseFloat_decimal
           [quote_AAPL (JString "1.20") 1000; quote_AAPL JNull 2000]
           empty_database).
  split; constructor.
Defined.

(** X7.  A batch all of whose records are acceptable is committed:
    [totalProcessed] is the length of the batch and of [results], it is
    [insertedCount] plus [updatedCount], and the table has grown by
    [insertedCount] rows. *)
Theorem accepted_batch_is_committed (pf : string -> jsnum)
  (batch : list Quote.t) (d : Database) :
  Forall (fun o => row_error pf o = None) batch ->
  exists s d',
    insertOptionsData pf batch d = (Returned s, d')
    /\ UpsertSummary.success s = true
    /\ UpsertSummary.totalProcessed s = count batch
    /\ count (UpsertSummary.results s) = count batch
    /\ UpsertSummary.insertedCount s + UpsertSummary.updatedCount s
       = UpsertSummary.totalProcessed s
    /\ 0 <= UpsertSummary.insertedCount s
    /\ 0 <= UpsertSummary.updatedCount s
    /\ count (table d') = count (table d) + UpsertSummary.insertedCount s.
Proof.
  intros Hall. unfold insertOptionsData.
  set (c0 := query_BEGIN (connect d)).
  destruct (upsert_each_effect pf batch [] 0 0 c0)
    as [f [extra [H1 [_ [_ [_ [H5 H6]]]]]]].
  destruct (proj1 H6 Hall) as [[[results i] u] Hres].
  destruct (H5 _ _ _ Hres) as [new [E1 [E2 [E3 [E4 E5]]]]].
  destruct (upsert_each pf batch [] 0 0 c0) as [out c] eqn:Erun.
  simpl in Hres, H1. subst out.
  eexists. eexists. split; [reflexivity|].
  cbn [UpsertSummary.success UpsertSummary.totalProcessed
       UpsertSummary.results UpsertSummary.insertedCount
       UpsertSummary.updatedCount].
  assert (count results = count batch) as Hlen
    by (rewrite E1; unfold count; simpl; rewrite E2; reflexivity).
  pose proof (count_nonneg extra).
  split; [reflexivity|]. split; [exact Hlen|]. split; [exact Hlen|].
  split; [lia|]. split; [lia|]. split; [lia|].
  unfold query_COMMIT, record, release. cbn [table rows].
  rewrite H1. unfold count. rewrite length_app, length_map.
  unfold count in E3. subst c0. simpl. lia.
Qed.

Lemma accepted_batch_is_committed_witness :
  exists s d',
    insertOptionsData parseFloat_decimal
      [quote_AAPL (JString "1.20") 1000; quote_AAPL JNull 2000]
      empty_database
    = (Returned s, d')
    /\ UpsertSummary.insertedCount s = 1
    /\ UpsertSummary.updatedCount s = 1
    /\ count (table d') = 1.
Proof.
  destruct (accepted_batch_is_committed parseFloat_decimal
              [quote_AAPL (JString "1.20") 1000; quote_AAPL JNull 2000]
              empty_database)
    as [s [d' [H1 _]]].
  - repeat constructor.
  - exists s, d'. split; [exact H1|].
    assert (insertOptionsData parseFloat_decimal
              [quote_AAPL (JString "1.20") 1000; quote_AAPL JNull 2000]
              empty_database = (Returned s, d')) as E by exact H1.
    vm_compute in E. injection E as <- <-. repeat split.
Defined.

(** X8.  Ingestion never deletes and never moves a row, and never changes
    the identity of one: after any batch, committed or not, the rows that
    were stored are still there in the same order, each with its [id],
    option symbol, underlying symbol, expiration date and type, strike and
    option type, and the rows whose key no record of the batch writes are
    exactly as they were; new rows come after them. *)
Theorem ingestion_never_deletes (pf : string -> jsnum)
  (batch : list Quote.t) (d : Database) :
  exists f extra,
    table (snd (insertOptionsData pf batch d)) = map f (table d) ++ extra
    /\ (forall r, same_identity r (f r))
    /\ (forall r,
          (forall o, In o batch -> ~ proposes pf o (Row.option_symbol r)) ->
          f r = r).
Proof.
  unfold insertOptionsData.
  set (c0 := query_BEGIN (connect d)).
  destruct (upsert_each_effect pf batch [] 0 0 c0)
    as [f [extra [H1 [H2 [H3 [H4 _]]]]]].
  destruct (upsert_each pf batch [] 0 0 c0) as [[[[results i] u]|e] c];
    simpl in *.
  - exists f, extra. auto.
  - exists (fun r => r), []. unfold query_ROLLBACK. simpl. rewrite H2.
    simpl. rewrite map_id, app_nil_r.
    split; [reflexivity|]. split; [apply same_identity_refl|reflexivity].
Qed.

Lemma ingestion_never_deletes_witness :
  exists r',
    table (snd (insertOptionsData parseFloat_decimal
                  [quote_AAPL (JString "1.30") 2000] two_contracts))
    = [r'; sample_row 2 "TSLA" "TSLA 250919C400" "Call" 40000
             (Some (Dec 820)) 1000]
    /\ Row.id r' = 1 /\ Row.strike r' = Dec 23250.
Proof.
  destruct (ingestion_never_deletes parseFloat_decimal
              [quote_AAPL (JString "1.30") 2000] two_contracts)
    as [f [extra [H1 [H2 H3]]]].
  assert (extra = []) as ->.
  { apply (f_equal (@List.length Row.t)) in H1.
    rewrite length_app, length_map in H1. vm_compute in H1.
    destruct extra; [reflexivity|]. simpl in H1. lia. }
  exists (f (sample_row 1 "AAPL" "AAPL 250919P232.5" "Put" 23250
               (Some (Dec 115)) 1000)).
  split.
  - rewrite H1. simpl.
    rewrite (H3 (sample_row 2 "TSLA" "TSLA 250919C400" "Call" 40000
                   (Some (Dec 820)) 1000)); [reflexivity|].
    intros o [<-|[]] [p [Hp Hk]].
    vm_compute in Hp. injection Hp as <-. discriminate.
  - destruct (H2 (sample_row 1 "AAPL" "AAPL 250919P232.5" "Put" 23250
                    (Some (Dec 115)) 1000))
      as [I1 [_ [_ [_ [I5 _]]]]].
    split; [exact I1|exact I5].
Defined.

Lemma do_update_same (q r : Row.t) :
  (forall f, Row.price f r = Row.price f q) ->
  Row.timestamp r = Row.timestamp q ->
  Row.option_symbol r = Row.option_symbol q ->
  do_update q r = r.
Proof.
  intros Hp Ht Hk.
  pose proof (Hp Ask). pose proof (Hp Bid). pose proof (Hp Mid).
  pose proof (Hp Close). pose proof (Hp High). pose proof (Hp Last).
  pose proof (Hp Low). pose proof (Hp Open). pose proof (Hp PreviousClose).
  destruct r, q. simpl in *. subst. reflexivity.
Qed.

(** One acceptable record, upserted into a table with distinct keys:
    either its key is new and its row is appended, or the stored row of
    that key is updated in place. *)
Lemma upsert_one (pf : string -> jsnum) (o : Quote.t) (d : Database)
  (p : Row.t) :
  unique_keys (table d) ->
  proposed_row 0 (values pf o) = inr p ->
  exists d' r',
    filter (same_key (Row.option_symbol p)) (table d') = [r']
    /\ unique_keys (table d')
    /\ (forall f, Row.price f r' = Row.price f p)
    /\ Row.timestamp r' = Row.timestamp p
    /\ Row.option_symbol r' = Row.option_symbol p
    /\ id_seq d' = id_seq d + 1
    /\ ((~ In (Row.option_symbol p) (map Row.option_symbol (table d))
         /\ insertOptionsData pf [o] d
            = (Returned
                 (UpsertSummary.make true 1 1 0
                    [mkUpsertEntry (id_seq d + 1) inserted]), d')
         /\ r' = with_id (id_seq d + 1) p
         /\ table d' = table d ++ [r'])
        \/ (exists old,
              In old (table d)
              /\ Row.option_symbol old = Row.option_symbol p
              /\ insertOptionsData pf [o] d
                 = (Returned
                      (UpsertSummary.make true 1 0 1
                         [mkUpsertEntry (Row.id old) updated]), d')
              /\ same_identity old r'
              /\ List.length (table d') = List.length (table d))).
Proof.
  intros Hu Hp.
  pose proof (insertOptionsData_unique_keys pf [o] d Hu) as Hu'.
  set (q := with_id (id_seq d + 1) p).
  assert (proposed_row (id_seq d + 1) (values pf o) = inr q) as Hq
    by (rewrite (proposed_row_id 0), Hp; reflexivity).
  pose proof (upsertQuery_cases (values pf o) (query_BEGIN (connect d)))
    as Hcase.
  cbv zeta in Hcase. cbn [serial query_BEGIN record connect rows] in Hcase.
  rewrite Hq in Hcase. change (Row.option_symbol q) with (Row.option_symbol p)
    in Hcase.
  unfold insertOptionsData in *. cbn [upsert_each] in *.
  destruct (find (same_key (Row.option_symbol p)) (table d)) as [old|]
    eqn:Efind; rewrite Hcase in *; clear Hcase;
    unfold with_rows, query_COMMIT, record, release in *;
    cbn [rows serial snapshot executed table fst snd] in *.
  - destruct (find_some _ _ Efind) as [Hin Hk]. apply String.eqb_eq in Hk.
    eexists (mkDatabase
               (map (fun x => if same_key (Row.option_symbol p) x
                              then do_update q x else x) (table d)) _ _).
    exists (do_update q old).
    split.
    { cbn [table]. rewrite <- Hk.
      apply (filter_same_key_update (table d) old (fun x => do_update q x)
               Hu Hin).
      intros x. simpl. congruence. }
    split; [exact Hu'|].
    split; [intros f; destruct f; reflexivity|].
    split; [reflexivity|]. split; [reflexivity|]. split; [reflexivity|].
    right. exists old. split; [exact Hin|]. split; [exact Hk|].
    split; [reflexivity|].
    split; [apply same_identity_update; simpl; congruence|].
    cbn [table]. apply length_map.
  - eexists (mkDatabase (table d ++ [q]) _ _). exists q.
    split.
    { cbn [table]. rewrite filter_app.
      rewrite (filter_none (same_key (Row.option_symbol p)) (table d)
                 (find_none _ _ Efind)).
      cbn [app filter]. unfold same_key at 1.
      change (Row.option_symbol q) with (Row.option_symbol p).
      rewrite String.eqb_refl. reflexivity. }
    split; [exact Hu'|].
    split; [intros f; destruct f; reflexivity|].
    split; [reflexivity|]. split; [reflexivity|]. split; [reflexivity|].
    left. split; [exact (find_none_key _ _ Efind)|].
    split; [reflexivity|]. split; reflexivity.
Qed.

(** X9.  Round trip of one acceptable record through
    [insertOptionsData]: afterwards exactly one row carries its key; each
    price column of that row is NULL when the record's value is missing,
    [null], empty, NaN or zero, and otherwise its [parseFloat] brought to
    two decimal places; its observation time is the record's.  When the
    key was not stored before, the row is the record itself with a fresh
    [id], appended to the table, and one insertion is reported. *)
Theorem upsert_then_lookup (pf : string -> jsnum) (o : Quote.t)
  (d : Database) (p : Row.t) :
  unique_keys (table d) ->
  proposed_row 0 (values pf o) = inr p ->
  exists s d' r',
    insertOptionsData pf [o] d = (Returned s, d')
    /\ filter (same_key (Row.option_symbol p)) (table d') = [r']
    /\ (forall f,
          Row.price f r'
          = (if ToBoolean (Quote.price f o)
             then to_decimal_10_2 (parseFloat pf (Quote.price f o))
             else None))
    /\ (forall f,
          Row.price f r' = None <-> ToBoolean (Quote.price f o) = false)
    /\ Quote.timestamp o = Some (Row.timestamp r')
    /\ (~ In (Row.option_symbol p) (map Row.option_symbol (table d)) ->
        UpsertSummary.insertedCount s = 1
        /\ r' = with_id (id_seq d + 1) p
        /\ table d' = table d ++ [r']).
Proof.
  intros Hu Hp.
  destruct (upsert_one pf o d p Hu Hp)
    as [d' [r' [H1 [_ [H3 [H4 [_ [_ Hcase]]]]]]]].
  destruct (proposed_row_columns _ _ _ Hp) as [Hprice [Hts _]].
  assert (exists s, insertOptionsData pf [o] d = (Returned s, d')
                    /\ (~ In (Row.option_symbol p)
                            (map Row.option_symbol (table d)) ->
                        UpsertSummary.insertedCount s = 1
                        /\ r' = with_id (id_seq d + 1) p
                        /\ table d' = table d ++ [r'])) as [s [Hs Hnew]].
  { destruct Hcase as [[Hnot [Hrun [Hr Ht]]]|[old [Hin [Hk [Hrun _]]]]].
    - eexists. split; [exact Hrun|]. intros _. simpl. auto.
    - eexists. split; [exact Hrun|]. intros Hnot. exfalso. apply Hnot.
      rewrite <- Hk. apply in_map. exact Hin. }
  exists s, d', r'. split; [exact Hs|]. split; [exact H1|].
  split.
  { intros f. rewrite H3, Hprice, values_price. unfold price_value.
    destruct (ToBoolean (Quote.price f o)); reflexivity. }
  split.
  { intros f. rewrite H3.
    apply (stored_price_null_iff_falsy pf 0 o p f Hp). }
  split; [rewrite <- H4 in Hts; exact Hts|exact Hnew].
Qed.

Lemma upsert_then_lookup_witness :
  exists s d' r',
    insertOptionsData parseFloat_decimal [quote_AAPL (JNumber (JFin 0)) 1000]
      empty_database
    = (Returned s, d')
    /\ table d' = [r']
    /\ Row.ask r' = None
    /\ Row.bid r' = Some (Dec 110)
    /\ Row.symbol r' = "AAPL"
    /\ Row.id r' = 1.
Proof.
  destruct (upsert_then_lookup parseFloat_decimal
              (quote_AAPL (JNumber (JFin 0)) 1000) empty_database
              (Row.make 0 "AAPL" 1758240000000 (Dec 23250) "Weekly"
                 None (Some (Dec 110)) (Some (Dec 115)) None None
                 (Some (Dec 112)) None None (Some (Dec 105))
                 "Put" "AAPL 250919P232.5" 1000))
    as [s [d' [r' [H1 [_ [_ [_ [_ H6]]]]]]]].
  - constructor.
  - vm_compute. reflexivity.
  - destruct H6 as [_ [Hr Ht]]; [simpl; tauto|].
    exists s, d', r'. split; [exact H1|]. split; [exact Ht|].
    rewrite Hr. repeat split.
Defined.

(** X10.  Upserting is idempotent: after an acceptable record has been
    upserted, upserting the same record again reports one update and no
    insertion and leaves the table exactly as it was. *)
Theorem upsert_twice_changes_nothing (pf : string -> jsnum) (o : Quote.t)
  (d : Database) :
  unique_keys (table d) ->
  row_error pf o = None ->
  exists s1 d1 s2 d2,
    insertOptionsData pf [o] d = (Returned s1, d1)
    /\ insertOptionsData pf [o] d1 = (Returned s2, d2)
    /\ table d2 = table d1
    /\ UpsertSummary.insertedCount s2 = 0
    /\ UpsertSummary.updatedCount s2 = 1.
Proof.
  intros Hu Hok.
  destruct (proposed_row_ok pf 0 o Hok) as [p [Hp _]].
  destruct (upsert_one pf o d p Hu Hp)
    as [d1 [r1 [F1 [U1 [P1 [T1 [K1 [_ Hcase1]]]]]]]].
  assert (exists s1, insertOptionsData pf [o] d = (Returned s1, d1))
    as [s1 Hs1].
  { destruct Hcase1 as [[_ [Hrun _]]|[old [_ [_ [Hrun _]]]]]; eauto. }
  destruct (upsert_one pf o d1 p U1 Hp)
    as [d2 [r2 [F2 [_ [P2 [T2 [K2 [_ Hcase2]]]]]]]].
  assert (In r1 (table d1)) as Hin1.
  { assert (In r1 (filter (same_key (Row.option_symbol p)) (table d1)))
      as H by (rewrite F1; left; reflexivity).
    apply filter_In in H. tauto. }
  destruct Hcase2 as [[Hnot _]|[old [Hin [Hk [Hrun [Hid Hlen]]]]]].
  { exfalso. apply Hnot. rewrite <- K1. apply in_map. exact Hin1. }
  assert (old = r1) as ->.
  { assert (In old (filter (same_key (Row.option_symbol p)) (table d1)))
      as H by (apply filter_In; split; [exact Hin|];
               apply String.eqb_eq; exact Hk).
    rewrite F1 in H. destruct H as [<-|[]]. reflexivity. }
  exists s1, d1. eexists. exists d2.
  split; [exact Hs1|]. split; [exact Hrun|].
  split; [|split; reflexivity].
  (* the second run rewrites the row with the values it already has *)
  unfold insertOptionsData in Hrun. cbn [upsert_each] in Hrun.
  pose proof (upsertQuery_cases (values pf o) (query_BEGIN (connect d1)))
    as Hcase.
  cbv zeta in Hcase. cbn [serial query_BEGIN record connect rows] in Hcase.
  rewrite (proposed_row_id 0 (id_seq d1 + 1)), Hp in Hcase.
  cbn [with_id Row.option_symbol] in Hcase.
  rewrite <- K1, (find_same_key _ _ U1 Hin1) in Hcase.
  rewrite Hcase in Hrun. clear Hcase.
  unfold with_rows, query_COMMIT, record, release in Hrun.
  cbn [rows serial snapshot executed] in Hrun.
  apply (f_equal snd) in Hrun. cbn [snd] in Hrun. subst d2. cbn [table].
  rewrite <- (map_id (table d1)) at 2. apply map_ext_in. intros x Hx.
  destruct (same_key (Row.option_symbol r1) x) eqn:Ex; [|reflexivity].
  assert (x = r1) as ->.
  { assert (In x (filter (same_key (Row.option_symbol p)) (table d1)))
      as H by (apply filter_In; split; [exact Hx|]; rewrite <- K1; exact Ex).
    rewrite F1 in H. destruct H as [<-|[]]. reflexivity. }
  apply do_update_same; simpl; auto.
Qed.

Lemma upsert_twice_changes_nothing_witness :
  exists s1 d1 s2 d2,
    insertOptionsData parseFloat_decimal [quote_AAPL (JString "1.20") 1000]
      two_contracts
    = (Returned s1, d1)
    /\ insertOptionsData parseFloat_decimal
         [quote_AAPL (JString "1.20") 1000] d1
       = (Returned s2, d2)
    /\ table d2 = table d1
    /\ UpsertSummary.updatedCount s2 = 1.
Proof.
  destruct (upsert_twice_changes_nothing parseFloat_decimal
              (quote_AAPL (JString "1.20") 1000) two_contracts)
    as [s1 [d1 [s2 [d2 [H1 [H2 [H3 [_ H5]]]]]]]].
  - repeat constructor; simpl; intuition discriminate.
  - vm_compute. reflexivity.
  - exists s1, d1, s2, d2. auto.
Defined.

(** ** Aggregation *)

Lemma key_eqb_eq (a b : Z * numeric) : key_eqb a b = true <-> a = b.
Proof.
  destruct a as [x m], b as [y n]. unfold key_eqb. simpl.
  rewrite andb_true_iff, Z.eqb_eq, numeric_eqb_eq.
  split; [intros [-> ->]; reflexivity|].
  intros H. injection H. auto.
Qed.

Section Distinct.
Context {A : Type} (eqb : A -> A -> bool).
Hypothesis eqb_eq : forall a b, eqb a b = true <-> a = b.

Lemma In_distinct_eq (x : A) (l : list A) :
  In x (distinct eqb l) <-> In x l.
Proof.
  induction l as [|y l IH]; simpl; [reflexivity|].
  destruct (existsb (eqb y) l) eqn:E; simpl; rewrite IH; [|reflexivity].
  split; [tauto|]. intros [<-|H]; [|exact H].
  apply existsb_exists in E. destruct E as [z [Hz Eyz]].
  apply eqb_eq in Eyz. subst z. exact Hz.
Qed.

Lemma NoDup_distinct_eq (l : list A) : NoDup (distinct eqb l).
Proof.
  induction l as [|y l IH]; simpl; [constructor|].
  destruct (existsb (eqb y) l) eqn:E; [exact IH|].
  constructor; [|exact IH].
  rewrite In_distinct_eq. intros Hy.
  assert (existsb (eqb y) l = true) as E'
    by (apply existsb_exists; exists y; split; [exact Hy|apply eqb_eq;
        reflexivity]).
  congruence.
Qed.

(** Grouping counts every row once. *)
Lemma count_by_key {B : Type} (key : B -> A) (keys : list A) (l : list B) :
  NoDup keys ->
  Zsum (map (fun k => count (filter (fun r => eqb (key r) k) l)) keys)
  = count (filter (fun r => existsb (eqb (key r)) keys) l).
Proof.
  induction 1 as [|k keys Hk Hnd IH]; simpl.
  - rewrite filter_none; [reflexivity|]. reflexivity.
  - rewrite IH. symmetry.
    apply (count_filter_or (fun r => eqb (key r) k)
             (fun r => existsb (eqb (key r)) keys)).
    intros r _ Hr. apply eqb_eq in Hr.
    destruct (existsb (eqb (key r)) keys) eqn:E; [|reflexivity].
    apply existsb_exists in E. destruct E as [y [Hy Ey]].
    apply eqb_eq in Ey. subst. contradiction.
Qed.
End Distinct.

Lemma key_leb_total (a b : Z * numeric) :
  key_leb a b = true \/ key_leb b a = true.
Proof.
  unfold key_leb.
  destruct (Z.ltb_spec (fst a) (fst b)); [auto|].
  destruct (Z.ltb_spec (fst b) (fst a)); [auto|].
  apply numeric_leb_total.
Qed.

Lemma key_leb_trans (a b c : Z * numeric) :
  key_leb a b = true -> key_leb b c = true -> key_leb a c = true.
Proof.
  unfold key_leb.
  destruct (Z.ltb_spec (fst a) (fst b)); destruct (Z.ltb_spec (fst b) (fst a));
    destruct (Z.ltb_spec (fst b) (fst c));
    destruct (Z.ltb_spec (fst c) (fst b));
    destruct (Z.ltb_spec (fst a) (fst c));
    destruct (Z.ltb_spec (fst c) (fst a));
    try congruence; try lia.
  apply numeric_leb_trans.
Qed.

Lemma key_leb_strict (a b : Z * numeric) :
  key_leb a b = true -> a <> b -> key_lt a b.
Proof.
  unfold key_leb, key_lt. destruct a as [x m], b as [y n]. simpl.
  destruct (Z.ltb_spec x y); [auto|].
  destruct (Z.ltb_spec y x); [discriminate|].
  intros Hle Hne. right. split; [lia|]. split; [exact Hle|].
  intros ->. apply Hne. f_equal. lia.
Qed.

Lemma StronglySorted_strict {A : Type} (R : A -> A -> Prop) (l : list A) :
  StronglySorted R l -> NoDup l ->
  StronglySorted (fun a b => R a b /\ a <> b) l.
Proof.
  induction 1 as [|x l Hs IH Hx]; intros Hnd; [constructor|].
  inversion Hnd as [|? ? Hnot Hnd']; subst.
  constructor; [exact (IH Hnd')|].
  rewrite Forall_forall in *. intros y Hy. split; [exact (Hx y Hy)|].
  intros ->. contradiction.
Qed.

Lemma aggregate_keys (with_symbols : bool) (hits : list Row.t) :
  map aggregate_key (aggregate with_symbols hits)
  = order_by key_leb (distinct key_eqb (map group_key hits)).
Proof.
  unfold aggregate. rewrite map_map.
  rewrite <- (map_id (order_by _ _)) at 2.
  apply map_ext. intros [x m]. reflexivity.
Qed.

(** The groups of an aggregation: one per key, in the order of the keys,
    every row in exactly one of them. *)
Lemma aggregate_structure (with_symbols : bool) (hits : list Row.t) :
  StronglySorted key_lt (map aggregate_key (aggregate with_symbols hits))
  /\ Zsum (map AggregateRow.option_count (aggregate with_symbols hits))
     = count hits
  /\ (forall k,
        In k (map aggregate_key (aggregate with_symbols hits))
        <-> exists r, In r hits /\ group_key r = k).
Proof.
  rewrite aggregate_keys.
  set (keys := order_by key_leb (distinct key_eqb (map group_key hits))).
  assert (forall k, In k keys <-> exists r, In r hits /\ group_key r = k)
    as Hkeys.
  { intros k. unfold keys.
    rewrite (In_order_by key_leb), (In_distinct_eq key_eqb key_eqb_eq),
      in_map_iff.
    split; intros [r [H1 H2]]; exists r; auto. }
  assert (NoDup keys) as Hnd.
  { eapply Permutation_NoDup; [apply Permutation_order_by|].
    apply (NoDup_distinct_eq key_eqb key_eqb_eq). }
  split; [|split; [|exact Hkeys]].
  - eapply StronglySorted_impl;
      [|apply StronglySorted_strict;
        [exact (order_by_sorted key_leb key_leb_total key_leb_trans _)
        |exact Hnd]].
    intros a b [H1 H2]. exact (key_leb_strict a b H1 H2).
  - unfold aggregate. fold keys. rewrite map_map.
    cbn [aggregate_group AggregateRow.option_count].
    rewrite (count_by_key key_eqb key_eqb_eq group_key keys hits Hnd).
    rewrite filter_all; [reflexivity|].
    intros r Hr. apply existsb_exists. exists (group_key r).
    split; [|apply key_eqb_refl]. apply Hkeys. exists r. auto.
Qed.

(** X11.  [getAggregatedOptionsData] returns one row per pair of
    expiration date and strike among the rows of the symbol that expire
    in the range and have a [mid]: the rows of the result are in strictly
    increasing order of (expiration date, strike), so no pair occurs
    twice; their [option_count]s add up to the number of those rows; a
    pair is in the result exactly when one of those rows has it; and the
    table is not changed. *)
Theorem aggregated_groups_partition (symbol : string)
  (startDate endDate : Z) (d : Database) :
  exists result d',
    getAggregatedOptionsData symbol startDate endDate d
    = (Returned result, d')
    /\ table d' = table d
    /\ StronglySorted key_lt (map aggregate_key result)
    /\ Zsum (map AggregateRow.option_count result)
       = count
           (filter
              (fun r =>
                 has_symbol symbol r && expires_between startDate endDate r
                 && mid_not_null r)
              (table d))
    /\ (forall k,
          In k (map aggregate_key result)
          <-> exists r,
                In r (table d) /\ Row.symbol r = symbol
                /\ startDate <= Row.expiration_date r <= endDate
                /\ Row.mid r <> None
                /\ group_key r = k).
Proof.
  unfold getAggregatedOptionsData. simpl.
  set (hits := filter _ (table d)).
  destruct (aggregate_structure false hits) as [H1 [H2 H3]].
  eexists. eexists. split; [reflexivity|]. simpl.
  split; [reflexivity|]. split; [exact H1|]. split; [exact H2|].
  intros k. rewrite H3.
  assert (forall r,
             In r hits
             <-> In r (table d) /\ Row.symbol r = symbol
                 /\ startDate <= Row.expiration_date r <= endDate
                 /\ Row.mid r <> None) as Hhits.
  { intros r. unfold hits, has_symbol, expires_between, mid_not_null.
    rewrite filter_In, !andb_true_iff, String.eqb_eq, !Z.leb_le.
    destruct (Row.mid r); intuition congruence. }
  split; intros [r [Hr Hk]]; exists r.
  - apply Hhits in Hr. tauto.
  - split; [apply Hhits; tauto|tauto].
Qed.

Lemma aggregated_groups_partition_witness :
  exists g1 g2 d',
    getAggregatedOptionsData "SPX" 0 253402214400000 call_and_put
    = (Returned [g1; g2], d')
    /\ key_lt (aggregate_key g1) (aggregate_key g2)
    /\ AggregateRow.option_count g1 + AggregateRow.option_count g2 = 3.
Proof.
  destruct (aggregated_groups_partition "SPX" 0 253402214400000
              call_and_put) as [result [d' [H1 [_ [H3 [H4 _]]]]]].
  assert (exists g1 g2, result = [g1; g2]) as [g1 [g2 ->]].
  { vm_compute in H1. injection H1 as <- _. eexists. eexists. reflexivity. }
  exists g1, g2, d'. split; [exact H1|].
  split.
  - simpl in H3. inversion H3 as [|? ? _ Hall]; subst.
    inversion Hall; subst. assumption.
  - unfold Zsum in H4. simpl in H4. rewrite Z.add_0_r in H4. exact H4.
Defined.

(** The sums and counts of one group whose rows are calls and puts with a
    [mid]. *)
Lemma sums_split (g : list Row.t) :
  (forall r, In r g -> type_checked r /\ Row.mid r <> None) ->
  forall c p t : numeric,
    t = numeric_add c p ->
    exists c' p',
      fold_left
        (fun acc v =>
           match v, acc with
           | None, _ => acc
           | Some x, None => Some x
           | Some x, Some a => Some (numeric_add a x)
           end)
        (map (fun r => if is_type "Call" r then Row.mid r else Some (Dec 0))
           g)
        (Some c) = Some c'
      /\ fold_left
           (fun acc v =>
              match v, acc with
              | None, _ => acc
              | Some x, None => Some x
              | Some x, Some a => Some (numeric_add a x)
              end)
           (map (fun r => if is_type "Put" r then Row.mid r else Some (Dec 0))
              g)
           (Some p) = Some p'
      /\ fold_left
           (fun acc v =>
              match v, acc with
              | None, _ => acc
              | Some x, None => Some x
              | Some x, Some a => Some (numeric_add a x)
              end)
           (map Row.mid g) (Some t)
         = Some (numeric_add c' p').
Proof.
  induction g as [|r g IH]; intros Hg c p t ->.
  - exists c, p. simpl. auto.
  - destruct (Hg r (or_introl eq_refl)) as [Hty Hmid].
    assert (forall x, In x g -> type_checked x /\ Row.mid x <> None) as Hg'
      by (intros x Hx; apply Hg; right; exact Hx).
    destruct (Row.mid r) as [m|] eqn:Em; [|congruence].
    cbn [map fold_left]. rewrite Em. unfold is_type.
    destruct Hty as [E|[E|[]]]; rewrite <- E; cbn [String.eqb Ascii.eqb
      Bool.eqb andb]; apply (IH Hg');
      destruct c, p, m; simpl; try reflexivity; f_equal; lia.
Qed.

Lemma group_call_put (g : list Row.t) :
  (forall r, In r g -> type_checked r /\ Row.mid r <> None) ->
  0 < count g ->
  count (filter (is_type "Call") g) + count (filter (is_type "Put") g)
  = count g
  /\ exists c p,
       sql_sum
         (map (fun r => if is_type "Call" r then Row.mid r else Some (Dec 0))
            g) = Some c
       /\ sql_sum
            (map (fun r => if is_type "Put" r then Row.mid r else Some (Dec 0))
               g) = Some p
       /\ sql_sum (map Row.mid g) = Some (numeric_add c p).
Proof.
  intros Hg Hpos. split.
  - rewrite <- (count_filter_or (is_type "Call") (is_type "Put")).
    + rewrite filter_all; [reflexivity|].
      intros r Hr. destruct (Hg r Hr) as [[E|[E|[]]] _];
        unfold is_type; rewrite <- E; reflexivity.
    + intros r _. unfold is_type. rewrite String.eqb_eq. intros ->.
      reflexivity.
  - destruct g as [|r g]; [unfold count in Hpos; simpl in Hpos; lia|].
    destruct (Hg r (or_introl eq_refl)) as [Hty Hmid].
    assert (forall x, In x g -> type_checked x /\ Row.mid x <> None) as Hg'
      by (intros x Hx; apply Hg; right; exact Hx).
    destruct (Row.mid r) as [m|] eqn:Em; [|congruence].
    unfold sql_sum. cbn [map fold_left]. rewrite Em. unfold is_type.
    destruct Hty as [E|[E|[]]]; rewrite <- E; cbn [String.eqb Ascii.eqb
      Bool.eqb andb]; apply (sums_split g Hg');
      destruct m; simpl; try reflexivity; f_equal; lia.
Qed.

Lemma members_checked (sel : Row.t -> bool) (startDate endDate : Z)
  (k : Z * numeric) (t : list Row.t) :
  Forall type_checked t ->
  forall r,
    In r (filter mid_not_null (group_members sel startDate endDate k t)) ->
    type_checked r /\ Row.mid r <> None.
Proof.
  intros Ht r Hr. unfold group_members in Hr.
  rewrite !filter_In in Hr. destruct Hr as [[Hin _] Hmid].
  rewrite Forall_forall in Ht. split; [exact (Ht r Hin)|].
  unfold mid_not_null in Hmid. destruct (Row.mid r); congruence.
Qed.

(** X12.  On a table that satisfies the [CHECK] constraint on
    [option_type], every row that either aggregation query returns splits
    into calls and puts: [call_count + put_count = option_count], the
    three sums are not NULL, and [total_mid_price] is [call_mid_price]
    plus [put_mid_price]. *)
Theorem aggregated_calls_and_puts (symbol : string) (symbols : list string)
  (startDate endDate : Z) (d : Database) (result : list AggregateRow.t)
  (g : AggregateRow.t) :
  Forall type_checked (table d) ->
  fst (getAggregatedOptionsData symbol startDate endDate d) = Returned result
  \/ fst (getAggregatedOptionsDataMultiSymbol symbols startDate endDate d)
     = Returned result ->
  In g result ->
  AggregateRow.call_count g + AggregateRow.put_count g
  = AggregateRow.option_count g
  /\ exists c p,
       AggregateRow.call_mid_price g = Some c
       /\ AggregateRow.put_mid_price g = Some p
       /\ AggregateRow.total_mid_price g = Some (numeric_add c p).
Proof.
  intros Ht Hrun Hg.
  assert (exists sel,
             In g
               (aggregate (match sel with inl _ => false | inr _ => true end)
                  (filter
                     (fun r =>
                        match sel with
                        | inl s => has_symbol s
                        | inr l => symbol_in l
                        end r
                        && expires_between startDate endDate r
                        && mid_not_null r)
                     (table d)))) as [sel Hin].
  { destruct Hrun as [Hrun|Hrun].
    - exists (inl symbol : string + list string).
      unfold getAggregatedOptionsData in Hrun. simpl in Hrun.
      injection Hrun as <-. exact Hg.
    - exists (inr symbols : string + list string).
      unfold getAggregatedOptionsDataMultiSymbol in Hrun.
      destruct symbols; simpl in Hrun; [discriminate|].
      injection Hrun as <-. exact Hg. }
  apply aggregate_members in Hin.
  destruct Hin as [[A1 [A2 [A3 [A4 [A5 A6]]]]] Hpos].
  rewrite A1, A2, A3, A4, A5, A6. rewrite A4 in Hpos.
  apply group_call_put; [|exact Hpos].
  apply members_checked. exact Ht.
Qed.

Lemma aggregated_calls_and_puts_witness :
  exists g,
    In g [g]
    /\ fst (getAggregatedOptionsData "SPX" 0 253402214400000 call_and_put)
       = Returned
           [g;
            AggregateRow.make 1758240000000 (Dec 610000) (Some (Dec 250))
              (Some (Dec 0)) (Some (Dec 250)) 1 1 0 None]
    /\ AggregateRow.call_count g + AggregateRow.put_count g
       = AggregateRow.option_count g
    /\ AggregateRow.total_mid_price g = Some (Dec 800).
Proof.
  set (g := AggregateRow.make 1758240000000 (Dec 600000) (Some (Dec 500))
              (Some (Dec 300)) (Some (Dec 800)) 2 1 1 None).
  exists g. split; [left; reflexivity|]. split; [vm_compute; reflexivity|].
  destruct (aggregated_calls_and_puts "SPX" [] 0 253402214400000
              call_and_put
              [g;
               AggregateRow.make 1758240000000 (Dec 610000) (Some (Dec 250))
                 (Some (Dec 0)) (Some (Dec 250)) 1 1 0 None] g)
    as [H1 _].
  - unfold call_and_put. cbn [table].
    repeat (apply Forall_cons; [unfold type_checked; simpl; tauto|]).
    apply Forall_nil.
  - left. vm_compute. reflexivity.
  - left. reflexivity.
  - split; [exact H1|reflexivity].
Defined.

Lemma distinct_constant (s : string) (l : list string) :
  l <> [] -> (forall x, In x l -> x = s) ->
  distinct String.eqb l = [s].
Proof.
  induction l as [|x l IH]; intros Hne Hall; [congruence|].
  assert (x = s) as -> by (apply Hall; left; reflexivity).
  destruct l as [|y l]; [reflexivity|].
  assert (y = s) as -> by (apply Hall; right; left; reflexivity).
  cbn [distinct existsb]. rewrite String.eqb_refl. cbn [orb].
  apply IH; [discriminate|]. intros z Hz. apply Hall. right. exact Hz.
Qed.

(** X13.  Asking the multi-symbol aggregation for a single symbol gives
    the rows of the single-symbol aggregation, each with that symbol in
    its [symbols] column, and leaves the same database behind. *)
Theorem multi_symbol_of_one_symbol (symbol : string) (startDate endDate : Z)
  (d : Database) :
  exists result d',
    getAggregatedOptionsData symbol startDate endDate d
    = (Returned result, d')
    /\ getAggregatedOptionsDataMultiSymbol [symbol] startDate endDate d
       = (Returned (map (name_symbols symbol) result), d').
Proof.
  unfold getAggregatedOptionsData, getAggregatedOptionsDataMultiSymbol.
  simpl.
  eexists. eexists. split; [reflexivity|]. f_equal. f_equal.
  rewrite (filter_ext
             (fun r =>
                symbol_in [symbol] r && expires_between startDate endDate r
                && mid_not_null r)
             (fun r =>
                has_symbol symbol r && expires_between startDate endDate r
                && mid_not_null r)).
  2:{ intros r. unfold symbol_in, has_symbol. simpl.
      rewrite orb_false_r, String.eqb_sym. reflexivity. }
  set (hits := filter _ (table d)).
  unfold aggregate. rewrite map_map. apply map_ext_in. intros k Hk.
  apply In_order_by, In_distinct_incl, in_map_iff in Hk.
  destruct Hk as [r [Ek Hr]].
  unfold aggregate_group, name_symbols. cbn [AggregateRow.expiration_date
    AggregateRow.strike AggregateRow.call_mid_price
    AggregateRow.put_mid_price AggregateRow.total_mid_price
    AggregateRow.option_count AggregateRow.call_count
    AggregateRow.put_count].
  f_equal. f_equal.
  rewrite (distinct_constant symbol).
  - reflexivity.
  - intros E. apply map_eq_nil in E.
    assert (In r (filter (fun r0 => key_eqb (group_key r0) k) hits)) as Hin
      by (apply filter_In; split; [exact Hr|]; rewrite Ek;
          apply key_eqb_refl).
    rewrite E in Hin. exact Hin.
  - intros x Hx. apply in_map_iff in Hx. destruct Hx as [y [<- Hy]].
    apply filter_In in Hy. destruct Hy as [Hy _]. unfold hits in Hy.
    apply filter_In in Hy. destruct Hy as [_ Hy].
    rewrite !andb_true_iff in Hy. destruct Hy as [[Hy _] _].
    apply String.eqb_eq in Hy. exact Hy.
Qed.

(** ** The cleanup handler as a whole *)

Lemma cleanup_table (symbols : list string) (keepHours : Q) (dryRun : bool)
  (now : Z) (d : Database) :
  symbols <> [] ->
  exists res d',
    cleanupOldOptionsData symbols keepHours dryRun now d = (Returned res, d')
    /\ table d'
       = (if dryRun then table d
          else filter (fun r => negb (purged symbols (cutoff now keepHours) r))
                 (table d)).
Proof.
  intros Hne. destruct dryRun.
  - rewrite (cleanup_dry_run_form symbols keepHours now d Hne).
    eexists. eexists. split; reflexivity.
  - destruct (cleanup_live_form symbols keepHours now d Hne)
      as [d' [H1 [H2 _]]].
    eexists. exists d'. split; [exact H1|exact H2].
Qed.

Lemma cleanup_all_table (keepHours : Q) (dryRun : bool) (now : Z)
  (d : Database) :
  exists res d' symbols,
    cleanupAllOldOptionsData keepHours dryRun now d = (Returned res, d')
    /\ table d'
       = (if dryRun then table d
          else filter (fun r => negb (purged symbols (cutoff now keepHours) r))
                 (table d)).
Proof.
  destruct (cleanupAllOldOptionsData_form keepHours dryRun now d)
    as [Hempty Hsome]. cbv zeta in Hempty, Hsome.
  destruct (table d) as [|r t] eqn:Et.
  - rewrite (Hempty eq_refl). eexists. eexists. exists [].
    split; [reflexivity|]. cbn [table]. destruct dryRun; reflexivity.
  - destruct Hsome as [Hne Hrun]; [discriminate|]. rewrite Hrun.
    destruct (cleanup_table _ keepHours dryRun now
                (mkDatabase (r :: t) (id_seq d) (log d ++ [StSelect])) Hne)
      as [res [d' [H1 H2]]].
    exists res, d'. eexists. split; [exact H1|exact H2].
Qed.

(** X14.  What a request to [POST /api/cleanup-options] can do to the
    table: it never adds or alters a row, it keeps every row observed at
    or after the cutoff, and it removes a row only when the request is
    authenticated, [keepHours] is positive and [dryRun] is not set, in
    which case the answer has status 200.  A request that is not
    authenticated is answered with 401 and does not reach the
    database. *)
Theorem POST_cleanup_effect (env : Environment) (request : Request)
  (now : Z) (d : Database) :
  exists response d' keep,
    POST env request now d = (response, d')
    /\ table d' = filter keep (table d)
    /\ (forall r,
          In r (table d) ->
          cutoff now (requested_keepHours request) <= Row.timestamp r ->
          In r (table d'))
    /\ (table d' <> table d ->
        verifyApiKey env request = true
        /\ (0 < requested_keepHours request)%Q
        /\ requested_dryRun request = false
        /\ exists result, response = Status200 result)
    /\ (verifyApiKey env request = false -> response = Status401 /\ d' = d).
Proof.
  unfold POST, requested_keepHours, requested_dryRun.
  set (h := match CleanupBody.keepHours (body request) with
            | Some h => h
            | None => (1 # 2)%Q
            end).
  set (dry := match CleanupBody.dryRun (body request) with
              | Some b => b
              | None => false
              end).
  assert (forall t : list Row.t, t = filter (fun _ => true) t) as Hid
    by (intros t; symmetry; apply filter_all; reflexivity).
  destruct (verifyApiKey env request) eqn:Hv; cbn [negb].
  2:{ exists Status401, d, (fun _ => true).
      split; [reflexivity|]. split; [apply Hid|].
      split; [auto|]. split; [congruence|auto]. }
  destruct (Qle_bool h 0) eqn:Hh.
  { eexists. exists d, (fun _ => true).
    split; [reflexivity|]. split; [apply Hid|].
    split; [auto|]. split; [congruence|discriminate]. }
  assert (0 < h)%Q as Hpos.
  { apply Qnot_le_lt. intros Hle. apply Qle_bool_iff in Hle. congruence. }
  assert (exists res d' symbols,
             match CleanupBody.symbols (body request) with
             | Some (s :: rest) =>
                 cleanupOldOptionsData (s :: rest) h dry now d
             | _ => cleanupAllOldOptionsData h dry now d
             end = (Returned res, d')
             /\ table d'
                = (if dry then table d
                   else filter
                          (fun r => negb (purged symbols (cutoff now h) r))
                          (table d))) as [res [d' [symbols [Hrun Ht]]]].
  { destruct (CleanupBody.symbols (body request)) as [[|s rest]|];
      try apply cleanup_all_table.
    destruct (cleanup_table (s :: rest) h dry now d) as [res [d' H]];
      [discriminate|].
    exists res, d', (s :: rest). exact H. }
  rewrite Hrun.
  exists (Status200 res), d'.
  exists (if dry then (fun _ => true)
          else (fun r => negb (purged symbols (cutoff now h) r))).
  split; [reflexivity|].
  split; [rewrite Ht; destruct dry; [apply Hid|reflexivity]|].
  split; [|split; [|discriminate]].
  - intros r Hr Hts. rewrite Ht. destruct dry; [exact Hr|].
    apply filter_In. split; [exact Hr|].
    unfold purged, is_stale.
    destruct (Z.ltb_spec (Row.timestamp r) (cutoff now h)); [lia|].
    rewrite andb_false_r. reflexivity.
  - intros Hne. split; [reflexivity|]. split; [exact Hpos|].
    split; [|eexists; reflexivity].
    destruct dry; [congruence|reflexivity].
Qed.

Lemma POST_cleanup_effect_witness :
  exists response d',
    POST (mkEnvironment (Some "secret"))
      (mkRequest (Some "secret") (CleanupBody.make None None None))
      now_example three_observations
    = (response, d')
    /\ In (sample_row 3 "SPX" "SPX 250919C6100" "Call" 610000
             (Some (Dec 250)) (now_example - 600000)) (table d').
Proof.
  destruct (POST_cleanup_effect (mkEnvironment (Some "secret"))
              (mkRequest (Some "secret") (CleanupBody.make None None None))
              now_example three_observations)
    as [response [d' [keep [H1 [_ [H3 _]]]]]].
  exists response, d'. split; [exact H1|].
  apply H3.
  - simpl. tauto.
  - vm_compute. discriminate.
Defined.

(** ** The handler [GET /api/cleanup-options] *)

Lemma split_comma_cons (s : string) :
  exists x l, split_comma s = x :: l.
Proof.
  induction s as [|c s [x [l IH]]]; simpl; [eauto|].
  destruct (Ascii.eqb c ","); [eauto|]. rewrite IH. eauto.
Qed.

Lemma split_comma_concat (s : string) :
  String.concat "," (split_comma s) = s.
Proof.
  induction s as [|c s IH]; [reflexivity|]. simpl.
  destruct (Ascii.eqb_spec c ","%char) as [->|Hc].
  - destruct (split_comma_cons s) as [x [l E]].
    cbn [String.concat]. rewrite E in *. rewrite IH. reflexivity.
  - destruct (split_comma_cons s) as [x [l E]]. rewrite E in *.
    destruct l as [|y l]; simpl in *; rewrite IH; reflexivity.
Qed.

(** X15.  How [GET /api/cleanup-options] reads [keepHours] and [dryRun]:
    the answer is 400 exactly when the request is authenticated and
    [parseFloat] of the [keepHours] parameter is a negative number; a
    [keepHours] whose [parseFloat] is NaN or zero is treated as if the
    parameter were absent, that is as 0.5; and any [dryRun] other than the
    exact string [true] is treated as absent, that is as a live run. *)
Theorem GET_cleanup_parameters (parseFloat_string : string -> jsnum)
  (trim : string -> string) (env : Environment) (request : Request)
  (searchParams : SearchParams) (now : Z) (d : Database) :
  (fst (CleanupOptions.GET parseFloat_string trim env request searchParams
          now d)
   = Status400 "keepHours must be a positive number"
   <-> verifyApiKey env request = true
       /\ exists s q,
            param_keepHours searchParams = Some s
            /\ parseFloat_string s = JFin q /\ (q < 0)%Q)
  /\ (forall s,
        param_keepHours searchParams = Some s ->
        ToBoolean (JNumber (parseFloat_string s)) = false ->
        CleanupOptions.GET parseFloat_string trim env request searchParams
          now d
        = CleanupOptions.GET parseFloat_string trim env request
            (without_keepHours searchParams) now d)
  /\ (param_dryRun searchParams <> Some "true" ->
      CleanupOptions.GET parseFloat_string trim env request searchParams
        now d
      = CleanupOptions.GET parseFloat_string trim env request
          (without_dryRun searchParams) now d).
Proof.
  split; [|split].
  - unfold CleanupOptions.GET.
    destruct (verifyApiKey env request); cbn [negb];
      [|split; [discriminate|intros [? _]; discriminate]].
    set (h := match parseFloat parseFloat_string _ with
              | JFin q => if Qeq_bool q 0 then (1 # 2)%Q else q
              | JNaN => (1 # 2)%Q
              end).
    assert ((h <= 0)%Q
            <-> exists s q,
                  param_keepHours searchParams = Some s
                  /\ parseFloat_string s = JFin q /\ (q < 0)%Q) as Hh.
    { unfold h. destruct (param_keepHours searchParams) as [s|]; simpl.
      - destruct (parseFloat_string s) as [q|] eqn:Eq.
        + destruct (Qeq_bool q 0) eqn:E0.
          * apply Qeq_bool_iff in E0. split.
            { intros H. exfalso. revert H. apply Qlt_not_le. reflexivity. }
            { intros [s' [q' [Es [Eq' Hlt]]]].
              injection Es as <-. rewrite Eq in Eq'. injection Eq' as <-.
              rewrite E0 in Hlt. exfalso. revert Hlt. apply Qlt_irrefl. }
          * assert (~ q == 0)%Q as Hne
              by (intros H; apply Qeq_bool_iff in H; congruence).
            split.
            { intros Hle. exists s, q. split; [reflexivity|].
              split; [exact Eq|].
              apply Qle_lteq in Hle. destruct Hle; [assumption|contradiction]. }
            { intros [s' [q' [Es [Eq' Hlt]]]].
              injection Es as <-. rewrite Eq in Eq'. injection Eq' as <-.
              apply Qlt_le_weak. exact Hlt. }
        + split.
          * intros H. exfalso. revert H. apply Qlt_not_le. reflexivity.
          * intros [s' [q' [Es [Eq' _]]]]. injection Es as <-. congruence.
      - split.
        + intros H. exfalso. revert H. apply Qlt_not_le. reflexivity.
        + intros [s' [q' [Es _]]]. discriminate. }
    destruct (Qle_bool h 0) eqn:Eh.
    + apply Qle_bool_iff in Eh. split; [|reflexivity].
      intros _. split; [reflexivity|]. apply Hh. exact Eh.
    + assert (~ (h <= 0)%Q) as Hn
        by (intros H; apply Qle_bool_iff in H; congruence).
      split; [|intros [_ H]; apply Hh in H; contradiction].
      destruct (match
                  match param_symbols searchParams with
                  | Some symbolsParam =>
                      if String.eqb symbolsParam "" then None
                      else Some (map trim (split_comma symbolsParam))
                  | None => None
                  end
                with
                | Some (s :: rest) => _
                | _ => _
                end) as [[res|e] d']; simpl; discriminate.
  - intros s Es Hfalsy. unfold CleanupOptions.GET, without_keepHours.
    cbn [param_keepHours param_dryRun param_symbols]. rewrite Es.
    cbn [parseFloat]. simpl in Hfalsy.
    destruct (parseFloat_string s) as [q|]; [|reflexivity].
    apply negb_false_iff in Hfalsy. rewrite Hfalsy. reflexivity.
  - intros Hdry. unfold CleanupOptions.GET, without_dryRun.
    cbn [param_keepHours param_dryRun param_symbols].
    destruct (param_dryRun searchParams) as [s|]; [|reflexivity].
    destruct (String.eqb_spec s "true") as [->|_]; [congruence|reflexivity].
Qed.

Lemma GET_cleanup_parameters_witness :
  CleanupOptions.GET parseFloat_decimal (fun s => s)
    (mkEnvironment (Some "secret"))
    (mkRequest (Some "secret") (CleanupBody.make None None None))
    (mkSearchParams (Some "0") (Some "yes") (Some "SPX"))
    now_example three_observations
  = CleanupOptions.GET parseFloat_decimal (fun s => s)
      (mkEnvironment (Some "secret"))
      (mkRequest (Some "secret") (CleanupBody.make None None None))
      (mkSearchParams None None (Some "SPX"))
      now_example three_observations.
Proof.
  destruct (GET_cleanup_parameters parseFloat_decimal (fun s => s)
              (mkEnvironment (Some "secret"))
              (mkRequest (Some "secret") (CleanupBody.make None None None))
              (mkSearchParams (Some "0") (Some "yes") (Some "SPX"))
              now_example three_observations) as [_ [H2 _]].
  rewrite (H2 "0"); [|reflexivity|vm_compute; reflexivity].
  destruct (GET_cleanup_parameters parseFloat_decimal (fun s => s)
              (mkEnvironment (Some "secret"))
              (mkRequest (Some "secret") (CleanupBody.make None None None))
              (without_keepHours
                 (mkSearchParams (Some "0") (Some "yes") (Some "SPX")))
              now_example three_observations) as [_ [_ H3]].
  rewrite H3; [reflexivity|discriminate].
Defined.

(** X16.  The [symbols] parameter of [GET /api/cleanup-options]: the
    pieces between its commas, put back together with commas, are the
    parameter itself; an authenticated request with a non-empty [symbols]
    and an accepted [keepHours] is answered with status 200 by the cleanup
    of the named symbols, never of all symbols, and [symbolsProcessed] is
    the number of pieces, empty and repeated ones included. *)
Theorem GET_cleanup_symbols (parseFloat_string : string -> jsnum)
  (trim : string -> string) (env : Environment) (request : Request)
  (searchParams : SearchParams) (now : Z) (d : Database)
  (symbolsParam : string) :
  param_symbols searchParams = Some symbolsParam ->
  symbolsParam <> "" ->
  verifyApiKey env request = true ->
  fst (CleanupOptions.GET parseFloat_string trim env request searchParams
         now d)
  <> Status400 "keepHours must be a positive number" ->
  String.concat "," (split_comma symbolsParam) = symbolsParam
  /\ exists keepHours dryRun result d',
       CleanupOptions.GET parseFloat_string trim env request searchParams
         now d
       = (Status200 result, d')
       /\ cleanupOldOptionsData (map trim (split_comma symbolsParam))
            keepHours dryRun now d
          = (Returned result, d')
       /\ (0 < keepHours)%Q
       /\ CleanupResult.symbolsProcessed result
          = count (split_comma symbolsParam).
Proof.
  intros Hs Hne Hv H400. split; [apply split_comma_concat|].
  unfold CleanupOptions.GET in *. rewrite Hv, Hs in *. cbn [negb] in *.
  destruct (String.eqb_spec symbolsParam "") as [|_]; [contradiction|].
  set (h := match parseFloat parseFloat_string _ with
            | JFin q => if Qeq_bool q 0 then (1 # 2)%Q else q
            | JNaN => (1 # 2)%Q
            end) in *.
  set (dry := match param_dryRun searchParams with
              | Some s => String.eqb s "true"
              | None => false
              end) in *.
  destruct (Qle_bool h 0) eqn:Eh; [simpl in H400; congruence|].
  assert (0 < h)%Q as Hpos.
  { apply Qnot_le_lt. intros Hle. apply Qle_bool_iff in Hle. congruence. }
  destruct (split_comma_cons symbolsParam) as [x [l E]].
  assert (map trim (split_comma symbolsParam) <> []) as Hne'
    by (rewrite E; discriminate).
  assert (exists d',
             cleanupOldOptionsData (map trim (split_comma symbolsParam))
               h dry now d
             = (Returned
                  (CleanupResult.make true dry (Some (cutoff now h)) (Some h)
                     (count (map trim (split_comma symbolsParam)))
                     (if dry then 0 else count (table d) - count (table d'))
                     (map (if dry then dry_entry else live_entry)
                        (count_rows (map trim (split_comma symbolsParam))
                           (cutoff now h) (table d)))), d')) as [d' Hrun].
  { destruct dry.
    - rewrite (cleanup_dry_run_form _ h now d Hne'). eexists. reflexivity.
    - destruct (cleanup_live_form _ h now d Hne') as [d' [H1 _]].
      exists d'. exact H1. }
  exists h, dry. eexists. exists d'.
  split; [|split; [exact Hrun|split; [exact Hpos|]]].
  - destruct (map trim (split_comma symbolsParam)) as [|s rest] eqn:Em;
      [congruence|].
    rewrite Hrun. reflexivity.
  - cbn [CleanupResult.symbolsProcessed]. unfold count.
    rewrite length_map. reflexivity.
Qed.

Lemma GET_cleanup_symbols_witness :
  exists result d',
    CleanupOptions.GET parseFloat_decimal (fun s => s)
      (mkEnvironment (Some "secret"))
      (mkRequest (Some "secret") (CleanupBody.make None None None))
      (mkSearchParams None (Some "true") (Some "SPX,,SPX"))
      now_example three_observations
    = (Status200 result, d')
    /\ CleanupResult.symbolsProcessed result = 3.
Proof.
  destruct (GET_cleanup_symbols parseFloat_decimal (fun s => s)
              (mkEnvironment (Some "secret"))
              (mkRequest (Some "secret") (CleanupBody.make None None None))
              (mkSearchParams None (Some "true") (Some "SPX,,SPX"))
              now_example three_observations "SPX,,SPX")
    as [_ [h [dry [result [d' [H1 [_ [_ H4]]]]]]]].
  - reflexivity.
  - discriminate.
  - reflexivity.
  - vm_compute. discriminate.
  - exists result, d'. split; [exact H1|]. rewrite H4. reflexivity.
Defined.

(** ** Authentication *)

Lemma substring_all (s : string) : substring 0 (String.length s) s = s.
Proof. induction s as [|c s IH]; simpl; [reflexivity|]. rewrite IH. reflexivity. Qed.

Lemma prefix_split (p s : string) :
  String.prefix p s = true ->
  s = (p ++ substring_from (String.length p) s)%string.
Proof.
  unfold substring_from. revert s.
  induction p as [|c p IH]; intros s H; simpl.
  - rewrite Nat.sub_0_r, substring_all. reflexivity.
  - destruct s as [|c' s]; simpl in H; [discriminate|].
    destruct (ascii_dec c c') as [->|]; [|discriminate].
    simpl. rewrite <- (IH s H). reflexivity.
Qed.

Lemma prefix_append (p k : string) :
  String.prefix p (p ++ k) = true
  /\ substring_from (String.length p) (p ++ k) = k.
Proof.
  unfold substring_from. induction p as [|c p [IH1 IH2]]; simpl.
  - split; [destruct k; reflexivity|].
    rewrite Nat.sub_0_r. apply substring_all.
  - destruct (ascii_dec c c); [|congruence]. split; assumption.
Qed.

Lemma option_string_eqb_eq (a b : option string) :
  option_string_eqb a b = true <-> a = b.
Proof.
  destruct a as [x|], b as [y|]; simpl; try (split; congruence).
  rewrite String.eqb_eq. split; congruence.
Qed.

(** X17.  [verifyApiKey] of [lib/auth.js] accepts a request in exactly two
    ways: the method is [x-api-key] or [both] and the [X-API-Key] header
    is the non-empty value of the configured variable, [API_KEY] if none is
    configured; or the method is [bearer] or [both] and the
    [authorization] header is [Bearer ] followed by the non-empty value of
    the configured variable, [VERCEL_API_KEY] if none is configured.  So
    nothing is accepted when the variable is unset or empty, or under any
    other method.  With the default configuration this is the check that
    the route handlers make. *)
Theorem verifyApiKey_accepts_iff (env : string -> option string)
  (headers : Headers) (config : AuthConfig) :
  (Auth.verifyApiKey env headers config = true
   <-> (In (method config) [Some "x-api-key"; Some "both"]
        /\ exists k,
             k <> ""
             /\ env (or_default (apiKeyEnvVar config) "API_KEY") = Some k
             /\ header_x_api_key headers = Some k)
       \/ (In (method config) [Some "bearer"; Some "both"]
           /\ exists k,
                k <> ""
                /\ env (or_default (bearerEnvVar config) "VERCEL_API_KEY")
                   = Some k
                /\ header_authorization headers
                   = Some ("Bearer " ++ k)%string))
  /\ (forall body,
        Auth.verifyApiKey env headers Auth.default_config
        = verifyApiKey (mkEnvironment (env "API_KEY"))
            (mkRequest (header_x_api_key headers) body)).
Proof.
  split.
  - unfold Auth.verifyApiKey.
    set (m1 := option_string_eqb (method config) (Some "x-api-key")
               || option_string_eqb (method config) (Some "both")).
    set (m2 := option_string_eqb (method config) (Some "bearer")
               || option_string_eqb (method config) (Some "both")).
    assert (m1 = true <-> In (method config) [Some "x-api-key"; Some "both"])
      as Hm1.
    { unfold m1. rewrite orb_true_iff, !option_string_eqb_eq. simpl.
      split; [intros [->| ->]; auto|intros [<-|[<-|[]]]; auto]. }
    assert (m2 = true <-> In (method config) [Some "bearer"; Some "both"])
      as Hm2.
    { unfold m2. rewrite orb_true_iff, !option_string_eqb_eq. simpl.
      split; [intros [->| ->]; auto|intros [<-|[<-|[]]]; auto]. }
    set (v1 := env (or_default (apiKeyEnvVar config) "API_KEY")).
    set (v2 := env (or_default (bearerEnvVar config) "VERCEL_API_KEY")).
    assert ((if m1
             then match v1 with
                  | Some expected =>
                      negb (String.eqb expected "")
                      && option_string_eqb (header_x_api_key headers)
                           (Some expected)
                  | None => false
                  end
             else false) = true
            <-> In (method config) [Some "x-api-key"; Some "both"]
                /\ exists k,
                     k <> "" /\ v1 = Some k
                     /\ header_x_api_key headers = Some k) as H1.
    { rewrite <- Hm1. destruct m1; [|split; [discriminate|intros [? _];
        discriminate]].
      destruct v1 as [e|];
        [|split; [discriminate|intros [_ [k [_ [? _]]]]; discriminate]].
      rewrite andb_true_iff, negb_true_iff, option_string_eqb_eq,
        String.eqb_neq.
      split.
      - intros [Hne Hk]. split; [reflexivity|]. exists e. auto.
      - intros [_ [k [Hne [Ek Hk]]]]. injection Ek as <-. auto. }
    assert ((if m2
             then match v2, header_authorization headers with
                  | Some expected, Some auth =>
                      negb (String.eqb expected "")
                      && negb (String.eqb auth "")
                      && String.prefix "Bearer " auth
                      && String.eqb (substring_from 7 auth) expected
                  | _, _ => false
                  end
             else false) = true
            <-> In (method config) [Some "bearer"; Some "both"]
                /\ exists k,
                     k <> "" /\ v2 = Some k
                     /\ header_authorization headers
                        = Some ("Bearer " ++ k)%string) as H2.
    { rewrite <- Hm2. destruct m2; [|split; [discriminate|intros [? _];
        discriminate]].
      destruct v2 as [e|];
        [|split; [discriminate|intros [_ [k [_ [? _]]]]; discriminate]].
      destruct (header_authorization headers) as [auth|];
        [|split; [discriminate|intros [_ [k [_ [_ ?]]]]; discriminate]].
      rewrite !andb_true_iff, !negb_true_iff, !String.eqb_neq, String.eqb_eq.
      split.
      - intros [[[Hne _] Hp] Hk]. split; [reflexivity|]. exists e.
        split; [exact Hne|]. split; [reflexivity|].
        rewrite (prefix_split "Bearer " auth Hp). simpl String.length.
        rewrite Hk. reflexivity.
      - intros [_ [k [Hne [Ek Hk]]]]. injection Ek as <-.
        injection Hk as ->.
        destruct (prefix_append "Bearer " e) as [Hp Hs].
        split; [split; [split; [exact Hne|discriminate]|exact Hp]|exact Hs]. }
    rewrite <- H1, <- H2.
    destruct (if m1 then _ else false); [tauto|].
    split; [auto|intros [?|?]; [discriminate|assumption]].
  - intros body. unfold Auth.verifyApiKey, verifyApiKey. simpl.
    destruct (env "API_KEY") as [e|]; [|reflexivity].
    destruct (header_x_api_key headers) as [k|]; simpl.
    + destruct (negb (String.eqb e "") && String.eqb k e); reflexivity.
    + rewrite andb_false_r. reflexivity.
Qed.

(** X18.  The two preconfigured checks are separate: [backendAuth.verify]
    never accepts a request on its [X-API-Key] header alone, and
    [optionsAuth.verify] never accepts one on its [authorization] header
    alone. *)
Theorem preconfigured_checks_are_separate (env : string -> option string)
  (headers : Headers) :
  (header_authorization headers = None ->
   Auth.backendAuth_verify env headers = false)
  /\ (header_x_api_key headers = None ->
      Auth.optionsAuth_verify env headers = false).
Proof.
  unfold Auth.backendAuth_verify, Auth.optionsAuth_verify, Auth.verifyApiKey.
  simpl. split; intros ->.
  - destruct (env "VERCEL_API_KEY"); reflexivity.
  - destruct (env "API_KEY"); simpl; [|reflexivity].
    rewrite andb_false_r. reflexivity.
Qed.

Lemma preconfigured_checks_are_separate_witness :
  Auth.backendAuth_verify both_keys (mkHeaders (Some "token") None) = false
  /\ Auth.backendAuth_verify both_keys (mkHeaders None (Some "Bearer token"))
     = true
  /\ Auth.optionsAuth_verify both_keys (mkHeaders None (Some "Bearer secret"))
     = false.
Proof.
  destruct (preconfigured_checks_are_separate both_keys
              (mkHeaders (Some "token") None)) as [H1 _].
  destruct (preconfigured_checks_are_separate both_keys
              (mkHeaders None (Some "Bearer secret"))) as [_ H2].
  split; [apply H1; reflexivity|].
  split; [reflexivity|apply H2; reflexivity].
Defined.

(** ** The command line *)

Section CliFacts.
Variable parseInt_string : string -> jsnum.
Variable trim : string -> string.

Lemma options_from_step (pre args : list string) (o0 o1 o : CliOptions.t) :
  options_from parseInt_string trim pre o0 o1 ->
  options_from parseInt_string trim args o1 o ->
  options_from parseInt_string trim (pre ++ args) o0 o.
Proof.
  unfold options_from.
  intros [A1 [A2 [A3 [A4 A5]]]] [B1 [B2 [B3 [B4 B5]]]].
  assert (forall x, In x pre -> In x (pre ++ args)) as Hl
    by (intros; apply in_or_app; auto).
  assert (forall x, In x args -> In x (pre ++ args)) as Hr
    by (intros; apply in_or_app; auto).
  repeat split.
  - destruct B1 as [B1|[B1 [B1' [v [Hv B1'']]]]].
    + rewrite B1. destruct A1 as [A1|[A1 [A1' [v [Hv A1'']]]]]; [auto|].
      right. split; [exact A1|]. split; [auto|]. exists v. auto.
    + right. split; [exact B1|]. split; [auto|]. exists v. auto.
  - destruct B2 as [B2|[B2 B2']]; [|auto].
    rewrite B2. destruct A2 as [A2|[A2 A2']]; auto.
  - destruct B3 as [B3|[B3 B3']]; [|auto].
    rewrite B3. destruct A3 as [A3|[A3 A3']]; auto.
  - destruct B4 as [B4|[B4 B4']]; [|auto].
    rewrite B4. destruct A4 as [A4|[A4 A4']]; auto.
  - destruct B5 as [B5|[B5 [v [Hv B5']]]].
    + rewrite B5. destruct A5 as [A5|[A5 [v [Hv A5']]]]; [auto|].
      right. split; [auto|]. exists v. auto.
    + right. split; [auto|]. exists v. auto.
Qed.

Lemma parse_loop_options (n : nat) :
  forall args o0 o,
    (List.length args <= n)%nat ->
    Cli.parse_loop parseInt_string trim args o0 = inl o ->
    options_from parseInt_string trim args o0 o.
Proof.
  induction n as [|n IH]; intros args o0 o Hlen Hrun.
  - destruct args; [|simpl in Hlen; lia].
    simpl in Hrun. injection Hrun as <-. unfold options_from. tauto.
  - destruct args as [|arg rest].
    { simpl in Hrun. injection Hrun as <-. unfold options_from. tauto. }
    simpl in Hlen. cbn [Cli.parse_loop] in Hrun.
    destruct (String.eqb_spec arg "--symbols") as [->|_].
    { destruct rest as [|value rest']; [discriminate|].
      simpl in Hlen.
      change (options_from parseInt_string trim (["--symbols"; value] ++ rest') o0 o);
        eapply options_from_step;
        [|apply IH; [lia|exact Hrun]].
      unfold options_from. simpl.
      repeat split; auto. right. split; [auto|]. exists value. auto. }
    destruct (String.eqb_spec arg "--keep-hours") as [->|_].
    { destruct rest as [|value rest']; [discriminate|].
      simpl in Hlen.
      destruct (parseInt_string value) as [hours|] eqn:Ep; [|discriminate].
      destruct (Qle_bool 1 hours) eqn:Eh; [|discriminate].
      change (options_from parseInt_string trim (["--keep-hours"; value] ++ rest') o0 o);
        eapply options_from_step;
        [|apply IH; [lia|exact Hrun]].
      unfold options_from. simpl.
      repeat split; auto. right. split; [apply Qle_bool_iff; exact Eh|].
      split; [auto|]. exists value. auto. }
    destruct (String.eqb_spec arg "--dry-run") as [->|_].
    { change (options_from parseInt_string trim (["--dry-run"] ++ rest) o0 o);
        eapply options_from_step;
        [|apply IH; [lia|exact Hrun]].
      unfold options_from. simpl. repeat split; auto. }
    destruct (String.eqb_spec arg "--all") as [->|_].
    { change (options_from parseInt_string trim (["--all"] ++ rest) o0 o);
        eapply options_from_step;
        [|apply IH; [lia|exact Hrun]].
      unfold options_from. simpl. repeat split; auto. }
    destruct (String.eqb_spec arg "--help") as [->|_]; [|discriminate].
    change (options_from parseInt_string trim (["--help"] ++ rest) o0 o);
        eapply options_from_step;
      [|apply IH; [lia|exact Hrun]].
    unfold options_from. simpl. repeat split; auto.
Qed.

End CliFacts.

(** X19.  What the cleanup script can be made to do from its command
    line: whenever [main] goes on to a cleanup, [keepHours] is either the
    default 0.5 or the [parseInt] of an argument and at least 1, so it is
    positive and no fraction of an hour can be asked for; a dry run was
    asked for with [--dry-run]; the cleanup of all symbols was asked for
    with [--all]; and the cleanup of named symbols was asked for with
    [--symbols], its list being the pieces of an argument between commas,
    of which there is at least one. *)
Theorem cleanup_script_plan (parseInt_string : string -> jsnum)
  (trim : string -> string) (args : list string) (keepHours : Q)
  (dryRun : bool) (symbols : option (list string)) :
  Cli.main parseInt_string trim args
  = match symbols with
    | Some l => CleanSymbols l keepHours dryRun
    | None => CleanAll keepHours dryRun
    end ->
  (0 < keepHours)%Q
  /\ (keepHours = (1 # 2)%Q
      \/ (1 <= keepHours)%Q
         /\ In "--keep-hours" args
         /\ exists v, In v args /\ parseInt_string v = JFin keepHours)
  /\ (dryRun = true -> In "--dry-run" args)
  /\ (symbols = None -> In "--all" args)
  /\ (forall l,
        symbols = Some l ->
        l <> [] /\ In "--symbols" args
        /\ exists v, In v args /\ l = map trim (split_comma v)).
Proof.
  unfold Cli.main, Cli.parseArguments. intros Hmain.
  destruct (Cli.parse_loop parseInt_string trim args _) as [o|reason] eqn:Hrun;
    [|destruct symbols; discriminate].
  apply (parse_loop_options parseInt_string trim (List.length args)) in Hrun;
    [|lia].
  destruct Hrun as [H1 [H2 [H3 [_ H5]]]]. simpl in H1, H2, H3, H5.
  destruct (CliOptions.help o); [destruct symbols; discriminate|].
  assert (CliOptions.keepHours o = keepHours
          /\ CliOptions.dryRun o = dryRun
          /\ CliOptions.symbols o = symbols
          /\ CliOptions.all o
             = match symbols with Some _ => false | None => true end)
    as [<- [<- [<- Hall]]].
  { destruct (CliOptions.all o), (CliOptions.symbols o), symbols;
      try discriminate; injection Hmain; intros; subst; auto. }
  assert (CliOptions.keepHours o = (1 # 2)%Q
          \/ (1 <= CliOptions.keepHours o)%Q
             /\ In "--keep-hours" args
             /\ exists v, In v args
                          /\ parseInt_string v = JFin (CliOptions.keepHours o))
    as Hk by exact H1.
  split.
  { destruct Hk as [->|[Hk _]]; [reflexivity|].
    eapply Qlt_le_trans; [|exact Hk]. reflexivity. }
  split; [exact Hk|].
  split; [intros E; destruct H2 as [H2|[_ H2]]; [congruence|exact H2]|].
  split.
  - intros E. rewrite E in Hall.
    destruct H3 as [H3|[_ H3]]; [congruence|exact H3].
  - intros l El. destruct H5 as [H5|[H5 [v [Hv H5']]]]; [congruence|].
    rewrite El in H5'. injection H5' as ->.
    split; [|split; [exact H5|exists v; auto]].
    destruct (split_comma_cons v) as [x [l' E]]. rewrite E. discriminate.
Qed.

Lemma cleanup_script_plan_witness :
  Cli.main parseInt_decimal (fun s => s)
    ["--symbols"; "AAPL,TSLA"; "--keep-hours"; "12"; "--dry-run"]
  = CleanSymbols ["AAPL"; "TSLA"] 12 true
  /\ (0 < 12)%Q.
Proof.
  split; [reflexivity|].
  destruct (cleanup_script_plan parseInt_decimal (fun s => s)
              ["--symbols"; "AAPL,TSLA"; "--keep-hours"; "12"; "--dry-run"]
              12 true (Some ["AAPL"; "TSLA"])) as [H _].
  - reflexivity.
  - exact H.
Defined.

(** X20.  The script refuses a [--keep-hours] whose [parseInt] is not a
    number or is below 1, whatever else is on the command line after it,
    provided the arguments before it are flags without a value; so with
    [parseInt] cutting a decimal literal at its point, the 0.5 of the
    usage text can only be had by leaving [--keep-hours] out. *)
Theorem keep_hours_below_one_refused (parseInt_string : string -> jsnum)
  (trim : string -> string) (flags rest : list string) (value : string) :
  Forall (fun a => In a ["--dry-run"; "--all"; "--help"]) flags ->
  (parseInt_string value = JNaN
   \/ exists h, parseInt_string value = JFin h /\ (h < 1)%Q) ->
  Cli.main parseInt_string trim (flags ++ "--keep-hours" :: value :: rest)
  = Exit1 KeepHoursNotPositive.
Proof.
  intros Hflags Hvalue. unfold Cli.main, Cli.parseArguments.
  generalize (CliOptions.make None (1 # 2) false false false).
  induction Hflags as [|a flags Ha _ IH]; intros o0.
  - cbn [app Cli.parse_loop]. simpl String.eqb.
    destruct Hvalue as [->|[h [-> Hh]]]; [reflexivity|].
    destruct (Qle_bool 1 h) eqn:E; [|reflexivity].
    apply Qle_bool_iff in E. exfalso. revert E. apply Qlt_not_le. exact Hh.
  - cbn [app Cli.parse_loop].
    destruct Ha as [<-|[<-|[<-|[]]]]; simpl String.eqb; apply IH.
Qed.

Lemma keep_hours_below_one_refused_witness :
  Cli.main parseInt_decimal (fun s => s)
    ["--all"; "--keep-hours"; "0.5"; "--dry-run"]
  = Exit1 KeepHoursNotPositive.
Proof.
  apply (keep_hours_below_one_refused parseInt_decimal (fun s => s)
           ["--all"] ["--dry-run"] "0.5").
  - apply Forall_cons; [simpl; tauto|apply Forall_nil].
  - right. exists 0%Q. split; reflexivity.
Defined.

(** ** Saving what was collected *)

Section PersistFacts.
Variable pf : string -> jsnum.

Lemma upsert_each_stores (batch : list Quote.t) :
  forall results i u c res c',
    upsert_each pf batch results i u c = (Returned res, c') ->
    (forall k,
       In k (map Row.option_symbol (rows c)) ->
       In k (map Row.option_symbol (rows c')))
    /\ (forall o k,
          In o batch -> proposes pf o k ->
          In k (map Row.option_symbol (rows c'))).
Proof.
  induction batch as [|a batch IH]; intros results i u c res c' Hrun.
  - simpl in Hrun. injection Hrun as _ <-. split; [auto|intros o k []].
  - cbn [upsert_each] in Hrun.
    pose proof (upsertQuery_cases (values pf a) c) as Hcase.
    cbv zeta in Hcase.
    destruct (proposed_row (serial c + 1) (values pf a)) as [e|q] eqn:Eq.
    { rewrite Hcase in Hrun. discriminate. }
    assert (forall k, proposes pf a k -> k = Row.option_symbol q) as Hkey.
    { intros k [p [Hp Hk]].
      rewrite (proposed_row_id 0 (serial c + 1)), Hp in Eq.
      injection Eq as <-. rewrite <- Hk. reflexivity. }
    destruct (find (same_key (Row.option_symbol q)) (rows c)) as [old|]
      eqn:Ef; rewrite Hcase in Hrun; apply IH in Hrun;
      destruct Hrun as [Hkeep Hst]; cbn [with_rows rows] in Hkeep.
    + rewrite keys_update in Hkeep by (intros x; reflexivity).
      split; [exact Hkeep|].
      intros o k [<-|Ho] Hp; [|exact (Hst o k Ho Hp)].
      apply Hkeep. rewrite (Hkey k Hp).
      destruct (find_some _ _ Ef) as [Hin Hk]. apply String.eqb_eq in Hk.
      rewrite <- Hk. apply in_map. exact Hin.
    + rewrite map_app in Hkeep.
      split; [intros k Hk; apply Hkeep, in_or_app; auto|].
      intros o k [<-|Ho] Hp; [|exact (Hst o k Ho Hp)].
      apply Hkeep, in_or_app. right. rewrite (Hkey k Hp). left. reflexivity.
Qed.

Lemma row_error_dec (o : Quote.t) :
  {row_error pf o = None} + {row_error pf o <> None}.
Proof.
  destruct (row_error pf o); [right; discriminate|left; reflexivity].
Qed.

Lemma insert_rejected (batch : list Quote.t) (d : Database) :
  Exists (fun o => row_error pf o <> None) batch ->
  exists e d',
    insertOptionsData pf batch d = (Thrown e, d') /\ table d' = table d.
Proof.
  intros Hex. unfold insertOptionsData.
  destruct (upsert_each_thrown pf batch Hex [] 0 0 (query_BEGIN (connect d)))
    as [e [pre [o [post [c' [H1 [_ [_ [_ [H5 _]]]]]]]]]].
  rewrite H1. exists e. eexists. split; [reflexivity|].
  unfold query_ROLLBACK, record. simpl in *. rewrite H5. reflexivity.
Qed.

Lemma insert_accepted (batch : list Quote.t) (d : Database) :
  Forall (fun o => row_error pf o = None) batch ->
  exists s d',
    insertOptionsData pf batch d = (Returned s, d')
    /\ UpsertSummary.totalProcessed s = count batch
    /\ (forall o k,
          In o batch -> proposes pf o k ->
          In k (map Row.option_symbol (table d'))).
Proof.
  intros Hall. unfold insertOptionsData.
  set (c0 := query_BEGIN (connect d)).
  destruct (upsert_each_effect pf batch [] 0 0 c0)
    as [f [extra [_ [_ [_ [_ [H5 H6]]]]]]].
  destruct (proj1 H6 Hall) as [[[results i] u] Hres].
  destruct (H5 _ _ _ Hres) as [new [E1 [E2 _]]].
  destruct (upsert_each pf batch [] 0 0 c0) as [out c] eqn:Erun.
  simpl in Hres. subst out.
  destruct (upsert_each_stores batch _ _ _ _ _ _ Erun) as [_ Hst].
  eexists. eexists. split; [reflexivity|].
  cbn [UpsertSummary.totalProcessed].
  split; [rewrite E1; unfold count; simpl; rewrite E2; reflexivity|].
  exact Hst.
Qed.

End PersistFacts.

(** X21.  What [POST /api/collect-options] leaves in the database after a
    collection.  Without [saveToDatabase] the database is not touched.
    With it, when every collected record is acceptable, each of them has
    its row in the table afterwards, however old its timestamp, because
    the cleanup runs before the save; and when some record is rejected,
    nothing is saved but the rows that the cleanup removed stay removed.
    The handler does not validate [keepHours]. *)
Theorem collected_records_are_saved (pf : string -> jsnum)
  (saveToDatabase cleanupOldData : bool) (keepHours : Q)
  (symbols : list string) (result : list Quote.t) (now : Z) (d : Database) :
  exists cleanupResult databaseResult d',
    CollectOptions.persist pf saveToDatabase cleanupOldData keepHours symbols
      result now d
    = (cleanupResult, databaseResult, d')
    /\ (saveToDatabase = false ->
        cleanupResult = None /\ databaseResult = None /\ d' = d)
    /\ (saveToDatabase = true ->
        Forall (fun o => row_error pf o = None) result ->
        (forall o k,
           In o result -> proposes pf o k ->
           In k (map Row.option_symbol (table d')))
        /\ (result <> [] ->
            exists s,
              databaseResult = Some s
              /\ UpsertSummary.totalProcessed s = count result))
    /\ (saveToDatabase = true -> cleanupOldData = true -> symbols <> [] ->
        Exists (fun o => row_error pf o <> None) result ->
        databaseResult = None
        /\ cleanupResult <> None
        /\ table d'
           = filter
               (fun r =>
                  negb (purged (map normalize_symbol symbols)
                          (cutoff now keepHours) r))
               (table d)).
Proof.
  unfold CollectOptions.persist.
  destruct saveToDatabase; cbn [andb].
  2:{ eexists. eexists. eexists. split; [reflexivity|].
      split; [auto|]. split; discriminate. }
  set (first :=
         if cleanupOldData
         then match cleanupOldOptionsData (map normalize_symbol symbols)
                      keepHours false now d with
              | (Returned r, d') => (Some r, d')
              | (Thrown _, d') => (None, d')
              end
         else (None, d)).
  assert (cleanupOldData = true -> symbols <> [] ->
          fst first <> None
          /\ table (snd first)
             = filter
                 (fun r =>
                    negb (purged (map normalize_symbol symbols)
                            (cutoff now keepHours) r))
                 (table d)) as Hfirst.
  { intros -> Hne. unfold first.
    destruct (cleanup_table (map normalize_symbol symbols) keepHours false
                now d) as [res [d1 [H1 H2]]].
    { destruct symbols; [congruence|discriminate]. }
    rewrite H1. simpl. split; [discriminate|exact H2]. }
  destruct first as [cleanupResult d1]. cbn [fst snd] in Hfirst.
  destruct (Forall_Exists_dec (fun o => row_error pf o = None)
              (row_error_dec pf) result) as [Hall|Hex].
  - destruct (insert_accepted pf result d1 Hall) as [s [d' [H1 [H2 H3]]]].
    destruct (0 <? count result) eqn:Epos.
    + rewrite H1. exists cleanupResult, (Some s), d'.
      split; [reflexivity|]. split; [discriminate|].
      split.
      * intros _ _. split; [exact H3|]. intros _. exists s. auto.
      * intros _ _ _ Hex. exfalso.
        apply Exists_exists in Hex. destruct Hex as [o [Ho Hbad]].
        rewrite Forall_forall in Hall. exact (Hbad (Hall o Ho)).
    + assert (result = []) as ->.
      { destruct result; [reflexivity|].
        unfold count in Epos. simpl in Epos.
        apply Z.ltb_ge in Epos. lia. }
      exists cleanupResult, None, d1.
      split; [reflexivity|]. split; [discriminate|].
      split.
      * intros _ _. split; [intros o k []|congruence].
      * intros _ _ _ Hex. inversion Hex.
  - assert ((0 <? count result) = true) as Epos.
    { destruct result; [inversion Hex|].
      unfold count. simpl. apply Z.ltb_lt. lia. }
    rewrite Epos.
    destruct (insert_rejected pf result d1 Hex) as [e [d' [H1 H2]]].
    rewrite H1. exists cleanupResult, None, d'.
    split; [reflexivity|]. split; [discriminate|].
    split.
    + intros _ Hall. exfalso.
      apply Exists_exists in Hex. destruct Hex as [o [Ho Hbad]].
      rewrite Forall_forall in Hall. exact (Hbad (Hall o Ho)).
    + intros _ Hc Hne _. destruct (Hfirst Hc Hne) as [F1 F2].
      split; [reflexivity|]. split; [exact F1|].
      rewrite H2. exact F2.
Qed.

Lemma collected_records_are_saved_witness :
  exists cleanupResult databaseResult d',
    CollectOptions.persist parseFloat_decimal true true (1 # 2)
      ["$SPX.X"] [quote_AAPL (JString "1.20") 1000] now_example
      three_observations
    = (cleanupResult, databaseResult, d')
    /\ In "AAPL 250919P232.5" (map Row.option_symbol (table d')).
Proof.
  destruct (collected_records_are_saved parseFloat_decimal true true (1 # 2)
              ["$SPX.X"] [quote_AAPL (JString "1.20") 1000] now_example
              three_observations)
    as [cleanupResult [databaseResult [d' [H1 [_ [H3 _]]]]]].
  exists cleanupResult, databaseResult, d'. split; [exact H1|].
  destruct H3 as [H3 _]; [reflexivity| |].
  - apply Forall_cons; [vm_compute; reflexivity|apply Forall_nil].
  - apply (H3 (quote_AAPL (JString "1.20") 1000)); [left; reflexivity|].
    eexists. split; [vm_compute; reflexivity|reflexivity].
Defined.

Lemma string_length_append (a b : string) :
  String.length (a ++ b) = (String.length a + String.length b)%nat.
Proof. induction a as [|c a IH]; simpl; [reflexivity|]. rewrite IH. reflexivity. Qed.

Lemma strip_trailing_dot_X_append (s : string) :
  strip_trailing_dot_X (s ++ ".X") = s.
Proof.
  induction s as [|c s IH]; [reflexivity|].
  cbn [append strip_trailing_dot_X]. rewrite IH.
  destruct (String.eqb_spec (String c (s ++ ".X")) ".X") as [E|_];
    [|reflexivity].
  exfalso. apply (f_equal String.length) in E. simpl in E.
  rewrite string_length_append in E. simpl in E. lia.
Qed.

Lemma strip_trailing_dot_X_length (s : string) :
  (String.length (strip_trailing_dot_X s) <= String.length s)%nat.
Proof.
  induction s as [|c s IH]; [simpl; lia|].
  cbn [strip_trailing_dot_X].
  destruct (String.eqb (String c s) ".X"); cbn [String.length]; lia.
Qed.

(** X22.  The symbols that [POST /api/collect-options] hands to the
    cleanup: a vendor symbol written [$NAME.X] is cleaned up under
    [NAME], whatever [NAME] is; at most one [$] in front and one [.X] at
    the end are removed, so the result is never longer than the symbol and
    at most three characters shorter. *)
Theorem normalized_symbol (name symbol : string) :
  normalize_symbol ("$" ++ name ++ ".X") = name
  /\ (String.length (normalize_symbol symbol) <= String.length symbol
      <= String.length (normalize_symbol symbol) + 3)%nat.
Proof.
  split; [exact (strip_trailing_dot_X_append name)|].
  unfold normalize_symbol.
  assert (forall s,
             (String.length s <= String.length (strip_trailing_dot_X s) + 2)
               %nat) as Hlow.
  { induction s as [|c s IH]; [simpl; lia|].
    cbn [strip_trailing_dot_X].
    destruct (String.eqb_spec (String c s) ".X") as [E|_];
      [rewrite E; simpl; lia|cbn [String.length]; lia]. }
  pose proof (strip_trailing_dot_X_length (strip_leading_dollar symbol)).
  pose proof (Hlow (strip_leading_dollar symbol)).
  assert (String.length (strip_leading_dollar symbol) <= String.length symbol
          <= String.length (strip_leading_dollar symbol) + 1)%nat.
  { destruct symbol as [|c s]; [simpl; lia|].
    destruct (Ascii.eqb_spec c "$"%char) as [->|Hc]; [simpl; lia|].
    assert (strip_leading_dollar (String c s) = String c s) as ->.
    { unfold strip_leading_dollar.
      destruct c as [[] [] [] [] [] [] [] []]; try reflexivity.
      congruence. }
    simpl. lia. }
  lia.
Qed.

(** ** The token manager *)

Lemma ensure_each_app (m : TokenManager.t) (calls calls' : list TokenCall) :
  ensure_each m (calls ++ calls')
  = (let '(oks, n, m1) := ensure_each m calls in
     let '(oks', n', m2) := ensure_each m1 calls' in
     (oks ++ oks', n + n', m2)).
Proof.
  revert m. induction calls as [|c calls IH]; intros m.
  - cbn [app ensure_each].
    destruct (ensure_each m calls') as [[oks' n'] m2]. reflexivity.
  - cbn [app ensure_each].
    destruct (TokenManager.ensureValidToken m _ _ _ _) as [[ok rq] m1].
    rewrite IH.
    destruct (ensure_each m1 calls) as [[oks n] m2].
    destruct (ensure_each m2 calls') as [[oks' n'] m3].
    cbn [app]. f_equal. f_equal. lia.
Qed.

(** A manager without a token that has used up its attempts stays as it
    is. *)
Lemma locked_out (m : TokenManager.t) (calls : list TokenCall) :
  TokenManager.accessToken m = None ->
  TokenManager.MAX_REFRESH_ATTEMPTS <= TokenManager.refreshAttempts m ->
  ensure_each m calls = (repeat false (List.length calls), 0, m).
Proof.
  intros Htok Hmax. induction calls as [|c calls IH]; [reflexivity|].
  cbn [ensure_each]. unfold TokenManager.ensureValidToken.
  rewrite Htok. cbn [truthy_string andb].
  unfold TokenManager.canAttemptRefresh.
  destruct (negb (truthy_string (TokenManager.refreshToken m)));
    [rewrite IH; reflexivity|].
  apply Z.leb_le in Hmax. rewrite Hmax, IH. reflexivity.
Qed.

Lemma failed_refreshes (r : string) (k : nat) :
  forall (m : TokenManager.t) (calls : list TokenCall),
    TokenManager.accessToken m = None ->
    TokenManager.refreshToken m = Some r -> r <> "" ->
    List.length calls = k ->
    Forall (fun c => call_response c = None) calls ->
    TokenManager.refreshAttempts m + Z.of_nat k
    <= TokenManager.MAX_REFRESH_ATTEMPTS ->
    exists m',
      ensure_each m calls = (repeat false k, Z.of_nat k, m')
      /\ TokenManager.accessToken m' = None
      /\ TokenManager.refreshToken m' = Some r
      /\ TokenManager.refreshAttempts m'
         = TokenManager.refreshAttempts m + Z.of_nat k.
Proof.
  induction k as [|k IH]; intros m calls Htok Hr Hne Hlen Hfail Hmax.
  - destruct calls; [|discriminate]. exists m. simpl.
    repeat split; auto. lia.
  - destruct calls as [|c calls]; [discriminate|].
    injection Hlen as Hlen. inversion Hfail as [|? ? Hc Hfail']; subst.
    rewrite Nat2Z.inj_succ in Hmax.
    cbn [ensure_each]. unfold TokenManager.ensureValidToken.
    rewrite Htok. cbn [truthy_string andb].
    unfold TokenManager.canAttemptRefresh, TokenManager.refreshAccessToken.
    rewrite Hr. cbn [truthy_string].
    assert (String.eqb r "" = false) as -> by (apply String.eqb_neq; exact Hne).
    cbn [negb].
    assert ((TokenManager.MAX_REFRESH_ATTEMPTS
             <=? TokenManager.refreshAttempts m) = false) as ->
      by (apply Z.leb_gt; lia).
    rewrite Hc.
    cbn [TokenManager.accessToken TokenManager.refreshToken
         TokenManager.tokenExpiry TokenManager.lastRefreshAttempt
         TokenManager.refreshAttempts].
    destruct (IH (TokenManager.make (TokenManager.accessToken m) (Some r)
                    (TokenManager.tokenExpiry m) false (call_sent c)
                    (TokenManager.refreshAttempts m + 1)) calls)
      as [m' [H1 [H2 [H3 H4]]]]; auto.
    { cbn [TokenManager.refreshAttempts]. lia. }
    rewrite H1. exists m'.
    cbn [TokenManager.refreshAttempts] in H4.
    rewrite Nat2Z.inj_succ. cbn [repeat].
    repeat split; auto; try lia.
    f_equal. f_equal. lia.
Qed.

(** X23.  A freshly built token manager whose first three token requests
    fail is locked out for good: the three calls of [ensureValidToken]
    answer false after one request each, and every call after them answers
    false without making a request and without changing the manager,
    whatever the clock reads and whatever the endpoint would have
    answered.  No waiting time brings the attempts back. *)
Theorem three_failures_lock_out (TRADESTATION_REFRESH_TOKEN : string)
  (failing later : list TokenCall) :
  TRADESTATION_REFRESH_TOKEN <> "" ->
  List.length failing = 3%nat ->
  Forall (fun c => call_response c = None) failing ->
  exists m,
    ensure_each
      (TokenManager.constructor (Some TRADESTATION_REFRESH_TOKEN)) failing
    = ([false; false; false], 3, m)
    /\ TokenManager.refreshAttempts m = TokenManager.MAX_REFRESH_ATTEMPTS
    /\ ensure_each m later = (repeat false (List.length later), 0, m)
    /\ ensure_each
         (TokenManager.constructor (Some TRADESTATION_REFRESH_TOKEN))
         (failing ++ later)
       = (repeat false (3 + List.length later), 3, m).
Proof.
  intros Hne Hlen Hfail.
  set (m0 := TokenManager.constructor (Some TRADESTATION_REFRESH_TOKEN)).
  assert (TokenManager.refreshToken m0 = Some TRADESTATION_REFRESH_TOKEN)
    as Hr.
  { unfold m0, TokenManager.constructor. cbn [truthy_string].
    assert (String.eqb TRADESTATION_REFRESH_TOKEN "" = false) as ->
      by (apply String.eqb_neq; exact Hne).
    reflexivity. }
  destruct (failed_refreshes TRADESTATION_REFRESH_TOKEN 3 m0 failing)
    as [m [H1 [H2 [H3 H4]]]]; auto.
  { unfold m0, TokenManager.constructor, TokenManager.MAX_REFRESH_ATTEMPTS.
    simpl. lia. }
  assert (TokenManager.refreshAttempts m = 3) as H4'
    by (rewrite H4; reflexivity).
  assert (ensure_each m later = (repeat false (List.length later), 0, m))
    as Hlater.
  { apply locked_out; [exact H2|].
    unfold TokenManager.MAX_REFRESH_ATTEMPTS. lia. }
  exists m. split; [exact H1|]. split; [exact H4'|]. split; [exact Hlater|].
  rewrite ensure_each_app, H1, Hlater. reflexivity.
Qed.

Lemma three_failures_lock_out_witness :
  exists m,
    ensure_each (TokenManager.constructor (Some "refresh"))
      ([mkTokenCall 0 0 1 None; mkTokenCall 10 10 11 None;
        mkTokenCall 20 20 21 None]
       ++ [mkTokenCall 900000 900000 900001
             (Some (TokenManager.mkTokenResponse (Some "token")
                      (JFin 1200)))])
    = ([false; false; false; false], 3, m).
Proof.
  destruct (three_failures_lock_out "refresh"
              [mkTokenCall 0 0 1 None; mkTokenCall 10 10 11 None;
               mkTokenCall 20 20 21 None]
              [mkTokenCall 900000 900000 900001
                 (Some (TokenManager.mkTokenResponse (Some "token")
                          (JFin 1200)))])
    as [m [_ [_ [_ H]]]].
  - discriminate.
  - reflexivity.
  - repeat constructor.
  - exists m. exact H.
Defined.

(** X24.  The number of failed attempts that the token manager remembers
    never leaves the range from 0 to [MAX_REFRESH_ATTEMPTS]; a call of
    [ensureValidToken] that makes no request leaves the manager as it
    was; a request is made only below the maximum; and a call that
    answers true either found a token that [isTokenValid] accepts and made
    no request, or made a request that succeeded and reset the attempts to
    0, whether or not the token it got is one that [isTokenValid]
    accepts. *)
Theorem refresh_attempts_bounded (m : TokenManager.t) (now sent received : Z)
  (response : option TokenManager.TokenResponse) :
  0 <= TokenManager.refreshAttempts m <= TokenManager.MAX_REFRESH_ATTEMPTS ->
  exists ok requested m',
    TokenManager.ensureValidToken m now sent received response
    = (ok, requested, m')
    /\ 0 <= TokenManager.refreshAttempts m'
       <= TokenManager.MAX_REFRESH_ATTEMPTS
    /\ TokenManager.refreshToken m' = TokenManager.refreshToken m
    /\ (requested = false -> m' = m)
    /\ (requested = true ->
        TokenManager.refreshAttempts m < TokenManager.MAX_REFRESH_ATTEMPTS
        /\ TokenManager.lastRefreshAttempt m' = sent
        /\ TokenManager.isRefreshing m' = false)
    /\ (ok = true ->
        (requested = false /\ TokenManager.isTokenValid m now = true)
        \/ (requested = true /\ response <> None
            /\ TokenManager.refreshAttempts m' = 0)).
Proof.
  unfold TokenManager.MAX_REFRESH_ATTEMPTS. intros Hb.
  unfold TokenManager.ensureValidToken.
  destruct (truthy_string (TokenManager.accessToken m)
            && TokenManager.isTokenValid m now) eqn:Ev.
  { apply andb_true_iff in Ev. destruct Ev as [_ Ev].
    exists true, false, m. split; [reflexivity|].
    split; [exact Hb|]. split; [reflexivity|]. split; [reflexivity|].
    split; [discriminate|]. intros _. left. auto. }
  unfold TokenManager.canAttemptRefresh, TokenManager.refreshAccessToken,
    TokenManager.MAX_REFRESH_ATTEMPTS.
  destruct (negb (truthy_string (TokenManager.refreshToken m))).
  { exists false, false, m. split; [reflexivity|].
    split; [exact Hb|]. split; [reflexivity|]. split; [reflexivity|].
    split; discriminate. }
  destruct (Z.leb_spec 3 (TokenManager.refreshAttempts m)).
  { exists false, false, m. split; [reflexivity|].
    split; [exact Hb|]. split; [reflexivity|]. split; [reflexivity|].
    split; discriminate. }
  destruct response as [data|].
  - eexists. eexists. eexists. split; [reflexivity|].
    cbn [TokenManager.refreshAttempts TokenManager.refreshToken
         TokenManager.isRefreshing TokenManager.lastRefreshAttempt].
    split; [lia|]. split; [reflexivity|]. split; [discriminate|].
    split; [intros _; split; [lia|split; reflexivity]|].
    intros _. right. split; [reflexivity|]. split; [discriminate|reflexivity].
  - eexists. eexists. eexists. split; [reflexivity|].
    cbn [TokenManager.refreshAttempts TokenManager.refreshToken
         TokenManager.isRefreshing TokenManager.lastRefreshAttempt].
    split; [lia|]. split; [reflexivity|]. split; [discriminate|].
    split; [intros _; split; [lia|split; reflexivity]|discriminate].
Qed.

Lemma refresh_attempts_bounded_witness :
  exists m',
    TokenManager.ensureValidToken (TokenManager.constructor (Some "refresh"))
      1000 1000 1200
      (Some (TokenManager.mkTokenResponse (Some "token") (JFin 0)))
    = (true, true, m')
    /\ TokenManager.refreshAttempts m' = 0
    /\ TokenManager.isTokenValid m' 1200 = false.
Proof.
  destruct (refresh_attempts_bounded
              (TokenManager.constructor (Some "refresh")) 1000 1000 1200
              (Some (TokenManager.mkTokenResponse (Some "token") (JFin 0))))
    as [ok [requested [m' [H1 [_ [_ [_ [_ H6]]]]]]]].
  - unfold TokenManager.MAX_REFRESH_ATTEMPTS. simpl. lia.
  - assert (ok = true /\ requested = true) as [-> ->].
    { vm_compute in H1. injection H1 as <- <- _. split; reflexivity. }
    exists m'. split; [exact H1|].
    destruct (H6 eq_refl) as [[? _]|[_ [_ H]]]; [discriminate|].
    split; [exact H|].
    vm_compute in H1. injection H1 as <-. reflexivity.
Defined.

(** ** The collector *)

Lemma clean_legs_In (rawData : Collector.RawData)
  (expiration : Collector.Expiration) (clock : nat -> Z)
  (legs : list Collector.Leg) :
  forall k o,
    In o (Collector.clean_legs rawData expiration clock k legs) ->
    exists leg j,
      In leg legs
      /\ Quote.timestamp o = Some (clock j)
      /\ Quote.symbol o = Collector.or_null_string (Collector.Symbol leg)
      /\ Quote.option_type o
         = Collector.or_null_string (Collector.OptionType leg)
      /\ Quote.strike o = Collector.or_null (Collector.StrikePrice leg)
      /\ Quote.expiration_date o = Collector.expiration_Date expiration
      /\ (forall f,
            Quote.price f o
            = Collector.or_null (Collector.price f rawData)).
Proof.
  induction legs as [|leg legs IH]; intros k o Hin; [destruct Hin|].
  destruct Hin as [<-|Hin].
  - exists leg, k. split; [left; reflexivity|].
    repeat split. intros f. destruct f; reflexivity.
  - destruct (IH _ _ Hin) as [leg' [j [H1 H2]]].
    exists leg', j. split; [right; exact H1|exact H2].
Qed.

Lemma clean_legs_length (rawData : Collector.RawData)
  (expiration : Collector.Expiration) (clock : nat -> Z)
  (legs : list Collector.Leg) (k : nat) :
  List.length (Collector.clean_legs rawData expiration clock k legs)
  = List.length legs.
Proof.
  revert k. induction legs as [|leg legs IH]; intros k; simpl;
    [reflexivity|]. rewrite IH. reflexivity.
Qed.

Lemma price_value_or_null (pf : string -> jsnum) (v : jsval) :
  price_value pf (Collector.or_null v) = price_value pf v.
Proof.
  unfold price_value, Collector.or_null.
  destruct (ToBoolean v) eqn:E; [rewrite E|]; reflexivity.
Qed.

(** X25.  From the vendor's chain entry to the table: [cleanOptionsData]
    gives one record per leg; every record carries the prices of the
    entry, not of the leg, and the date of the expiration; and when
    [insertOptionsData] accepts such a record, each price column of its row
    is NULL when the vendor's value is missing, empty, NaN or zero and
    otherwise [parseFloat] of the vendor's value at two decimals, so the
    [|| null] of the collector changes nothing that reaches the table;
    the row's expiration date is the expiration's and its timestamp is a
    reading of the collector's clock. *)
Theorem cleaned_entry_is_stored (pf : string -> jsnum)
  (rawData : Collector.RawData) (expiration : Collector.Expiration)
  (clock : nat -> Z) (o : Quote.t) (p : Row.t) :
  In o (Collector.cleanOptionsData rawData expiration clock) ->
  proposed_row 0 (values pf o) = inr p ->
  List.length (Collector.cleanOptionsData rawData expiration clock)
  = match Collector.raw_Legs rawData with
    | Some legs => List.length legs
    | None => 0%nat
    end
  /\ (forall f,
        Row.price f p
        = (if ToBoolean (Collector.price f rawData)
           then to_decimal_10_2 (parseFloat pf (Collector.price f rawData))
           else None))
  /\ Collector.expiration_Date expiration = Some (Row.expiration_date p)
  /\ exists j, Row.timestamp p = clock j.
Proof.
  intros Hin Hp. unfold Collector.cleanOptionsData in *.
  destruct (Collector.raw_Legs rawData) as [legs|]; [|destruct Hin].
  split; [apply clean_legs_length|].
  destruct (clean_legs_In _ _ _ _ _ _ Hin)
    as [leg [j [_ [Hts [_ [_ [_ [Hdate Hprice]]]]]]]].
  destruct (proposed_row_columns _ _ _ Hp) as [Hrow [Hts' [Hdate' _]]].
  split; [|split].
  - intros f. rewrite Hrow, values_price, Hprice, price_value_or_null.
    unfold price_value. destruct (ToBoolean (Collector.price f rawData));
      reflexivity.
  - rewrite <- Hdate, <- Hdate'. reflexivity.
  - exists j. simpl in Hts'. rewrite Hts in Hts'. congruence.
Qed.

Lemma cleaned_entry_is_stored_witness :
  exists o p,
    In o (Collector.cleanOptionsData spread_entry
            (Collector.mkExpiration (Some 1758240000000) (Some "Weekly"))
            (fun k => 1000 + Z.of_nat k))
    /\ proposed_row 0 (values parseFloat_decimal o) = inr p
    /\ Row.option_symbol p = "SPX 250919P6000"
    /\ Row.ask p = Some (Dec 0)
    /\ Row.mid p = Some (Dec 115)
    /\ Row.close p = None.
Proof.
  eexists. eexists.
  split; [right; left; reflexivity|].
  split; [vm_compute; reflexivity|].
  split; [reflexivity|].
  match goal with
  | |- Row.ask ?p = _ /\ _ =>
      destruct (cleaned_entry_is_stored parseFloat_decimal spread_entry
                  (Collector.mkExpiration (Some 1758240000000)
                     (Some "Weekly"))
                  (fun k => 1000 + Z.of_nat k)
                  (Quote.make (Some 1758240000000) (JString "6000")
                     (Some "Weekly") (JString "0") (JString "1.10")
                     (JString "1.15") JNull JNull (JString "1.12") JNull
                     JNull (JString "1.05") (Some "Put")
                     (Some "SPX 250919P6000") (Some 1001)) p)
        as [_ [H _]]
  end.
  - right. left. reflexivity.
  - vm_compute. reflexivity.
  - split; [exact (H Ask)|]. split; [exact (H Mid)|exact (H Close)].
Defined.

(** ** The data handlers *)

Section DataRouteFacts.
Variable parseInt_string : string -> option Z.
Variable timestamp_of_string : string -> option Z.
Variable toUpperCase : string -> string.

Lemma limit_of_default (searchParams : QueryParams) :
  (match query_limit searchParams with
   | Some s => parseInt_string s = None \/ parseInt_string s = Some 0
   | None => True
   end) ->
  DataRoutes.limit_of parseInt_string searchParams = 100.
Proof.
  unfold DataRoutes.limit_of.
  destruct (query_limit searchParams) as [s|]; [|reflexivity].
  intros [-> | ->]; reflexivity.
Qed.

Lemma In_firstn {A : Type} (n : nat) (l : list A) (x : A) :
  In x (firstn n l) -> In x l.
Proof.
  intros H. rewrite <- (firstn_skipn n l). apply in_or_app. auto.
Qed.

Lemma latest_rows (symbol : string) (limit : Z) (d : Database) :
  (limit < 0
   /\ fst (getLatestOptionsData symbol (Some limit) d) = Thrown NegativeLimit)
  \/ (0 <= limit
      /\ exists data,
           fst (getLatestOptionsData symbol (Some limit) d) = Returned data
           /\ count data <= limit
           /\ forall r, In r data -> In r (table d) /\ Row.symbol r = symbol).
Proof.
  unfold getLatestOptionsData.
  destruct (Z.ltb_spec limit 0) as [Hneg|Hpos]; [left; auto|].
  right. split; [exact Hpos|]. eexists. split; [reflexivity|]. split.
  - unfold count. pose proof (firstn_le_length (Z.to_nat limit)
      (order_by latest_leb
         (filter (has_symbol symbol) (rows (record StSelect (connect d)))))).
    lia.
  - intros r Hr. apply In_firstn, In_order_by, filter_In in Hr.
    destruct Hr as [Hr Hs]. apply String.eqb_eq in Hs. auto.
Qed.

Lemma latest_table (symbol : string) (limit : option Z) (d : Database) :
  table (snd (getLatestOptionsData symbol limit d)) = table d.
Proof.
  unfold getLatestOptionsData.
  destruct (match limit with Some n => n | None => 100 end <? 0);
    reflexivity.
Qed.

End DataRouteFacts.

(** X26.  [GET /api/options-data] only reads: the table is the same after
    every request.  It answers 400 exactly when an authenticated request
    has no symbol or an empty one; every row it returns is a stored row of
    the requested symbol; without a [startDate] it returns at most [limit]
    rows, where a [limit] that is missing, not a number or zero counts as
    100; and with a [startDate] the [limit] parameter has no effect. *)
Theorem options_data_GET_reads (parseInt_string : string -> option Z)
  (timestamp_of_string : string -> option Z) (env : Environment)
  (request : Request) (searchParams : QueryParams) (d : Database) :
  exists answer d',
    DataRoutes.options_data_GET parseInt_string timestamp_of_string env
      request searchParams d
    = (answer, d')
    /\ table d' = table d
    /\ (answer = Answer400 "Symbol parameter is required"
        <-> verifyApiKey env request = true
            /\ truthy_string (query_symbol searchParams) = false)
    /\ (forall data r,
          answer = Answer200 data -> In r data ->
          In r (table d) /\ query_symbol searchParams = Some (Row.symbol r))
    /\ (forall data,
          answer = Answer200 data ->
          truthy_string (query_startDate searchParams) = false ->
          count data <= DataRoutes.limit_of parseInt_string searchParams
          /\ (match query_limit searchParams with
              | Some s =>
                  parseInt_string s = None \/ parseInt_string s = Some 0
              | None => True
              end ->
              count data <= 100))
    /\ (truthy_string (query_startDate searchParams) = true ->
        DataRoutes.options_data_GET parseInt_string timestamp_of_string env
          request (without_limit searchParams) d
        = (answer, d')).
Proof.
  assert (truthy_string (query_startDate searchParams) = true ->
          DataRoutes.options_data_GET parseInt_string timestamp_of_string
            env request (without_limit searchParams) d
          = DataRoutes.options_data_GET parseInt_string timestamp_of_string
              env request searchParams d) as Hsame.
  { intros Estart.
    unfold DataRoutes.options_data_GET, without_limit,
      DataRoutes.endDateParam, truthy_value.
    cbn [query_symbol query_startDate query_endDate]. rewrite Estart.
    destruct (negb (verifyApiKey env request)); [reflexivity|].
    destruct (query_symbol searchParams) as [symbol|]; [|reflexivity].
    destruct (String.eqb symbol ""); [reflexivity|].
    destruct (query_startDate searchParams); [reflexivity|discriminate]. }
  cut (exists answer d',
          DataRoutes.options_data_GET parseInt_string timestamp_of_string env
            request searchParams d
          = (answer, d')
          /\ table d' = table d
          /\ (answer = Answer400 "Symbol parameter is required"
              <-> verifyApiKey env request = true
                  /\ truthy_string (query_symbol searchParams) = false)
          /\ (forall data r,
                answer = Answer200 data -> In r data ->
                In r (table d)
                /\ query_symbol searchParams = Some (Row.symbol r))
          /\ (forall data,
                answer = Answer200 data ->
                truthy_string (query_startDate searchParams) = false ->
                count data
                <= DataRoutes.limit_of parseInt_string searchParams
                /\ (match query_limit searchParams with
                    | Some s =>
                        parseInt_string s = None
                        \/ parseInt_string s = Some 0
                    | None => True
                    end ->
                    count data <= 100))).
  { intros [answer [d' [H1 [H2 [H3 [H4 H5]]]]]]. exists answer, d'.
    split; [exact H1|]. split; [exact H2|]. split; [exact H3|].
    split; [exact H4|]. split; [exact H5|].
    intros Estart. rewrite (Hsame Estart). exact H1. }
  clear Hsame. unfold DataRoutes.options_data_GET.
  destruct (verifyApiKey env request); cbn [negb].
  2:{ exists Answer401, d. split; [reflexivity|]. split; [reflexivity|].
      split; [split; [discriminate|intros [? _]; discriminate]|].
      split; discriminate. }
  destruct (query_symbol searchParams) as [symbol|] eqn:Es.
  2:{ eexists. exists d. split; [reflexivity|]. split; [reflexivity|].
      split; [split; auto|]. split; discriminate. }
  cbn [truthy_string].
  destruct (String.eqb_spec symbol "") as [->|Hne].
  { eexists. exists d. split; [reflexivity|]. split; [reflexivity|].
    split; [split; auto|]. split; discriminate. }
  cbn [negb]. unfold truthy_value.
  destruct (truthy_string (query_startDate searchParams)) eqn:Estart.
  - (* a date range *)
    destruct (query_startDate searchParams) as [startText|];
      [|discriminate].
    destruct (timestamp_of_string startText) as [startDate|];
      [destruct (timestamp_of_string
                   (DataRoutes.endDateParam searchParams)) as [endDate|]|].
    + unfold getOptionsData. cbn [fst snd].
      eexists. eexists. split; [reflexivity|]. split; [reflexivity|].
      split; [split; [discriminate|intros [_ ?]; discriminate]|].
      split; [|discriminate].
      intros data r [= <-] Hr.
      apply In_order_by, filter_In in Hr. destruct Hr as [Hr Hs].
      apply andb_true_iff in Hs. destruct Hs as [Hs _].
      apply String.eqb_eq in Hs. simpl in Hr. split; [exact Hr|].
      rewrite Hs. reflexivity.
    + eexists. eexists. split; [reflexivity|]. split; [reflexivity|].
      split; [split; [discriminate|intros [_ ?]; discriminate]|].
      split; discriminate.
    + eexists. eexists. split; [reflexivity|]. split; [reflexivity|].
      split; [split; [discriminate|intros [_ ?]; discriminate]|].
      split; discriminate.
  - (* the latest rows *)
    set (limit := DataRoutes.limit_of parseInt_string searchParams).
    pose proof (latest_table symbol (Some limit) d) as Ht.
    destruct (latest_rows symbol limit d)
      as [[Hneg Hrun]|[Hpos [data [Hrun [Hlen Hin]]]]];
      destruct (getLatestOptionsData symbol (Some limit) d) as [out d'];
      cbn [fst snd] in *; subst out.
    + exists Answer500, d'. split; [reflexivity|]. split; [exact Ht|].
      split; [split; [discriminate|intros [_ ?]; discriminate]|].
      split; discriminate.
    + exists (Answer200 data), d'. split; [reflexivity|].
      split; [exact Ht|].
      split; [split; [discriminate|intros [_ ?]; discriminate]|].
      split.
      { intros data' r [= <-] Hr. destruct (Hin r Hr) as [H1 H2].
        split; [exact H1|]. rewrite H2. reflexivity. }
      intros data' [= <-] _. split; [exact Hlen|].
      intros Hdefault.
      pose proof (limit_of_default parseInt_string searchParams Hdefault).
      unfold limit in Hlen. lia.
Qed.

Lemma options_data_GET_reads_witness :
  exists data d',
    DataRoutes.options_data_GET parseInt_digits timestamp_example
      (mkEnvironment (Some "secret"))
      (mkRequest (Some "secret") (CleanupBody.make None None None))
      (mkQueryParams (Some "SPX") None None (Some "0")) three_observations
    = (Answer200 data, d')
    /\ count data <= 100
    /\ table d' = table three_observations.
Proof.
  destruct (options_data_GET_reads parseInt_digits timestamp_example
              (mkEnvironment (Some "secret"))
              (mkRequest (Some "secret") (CleanupBody.make None None None))
              (mkQueryParams (Some "SPX") None None (Some "0"))
              three_observations)
    as [answer [d' [H1 [H2 [_ [_ [H5 _]]]]]]].
  assert (exists data, answer = Answer200 data) as [data ->].
  { vm_compute in H1. injection H1 as <- _. eexists. reflexivity. }
  exists data, d'. split; [exact H1|]. split; [|exact H2].
  destruct (H5 data eq_refl eq_refl) as [_ H]. apply H. simpl. auto.
Defined.

(** C7.  Through [GET /api/options-data] a limit of zero does not give an
    empty answer.  [getLatestOptionsData] itself returns no row for the
    limit 0, but the handler computes [parseInt(limit) || 100], which
    turns 0 into 100: an authenticated request for a symbol, without a
    [startDate] and with a [limit] that [parseInt] reads as 0, is answered
    with what the limit 100 gives, that is with the latest rows of the
    symbol up to a hundred of them, as many as the symbol has when it has
    fewer. *)
Theorem GET_limit_zero_answers_as_limit_100
  (parseInt_string : string -> option Z)
  (timestamp_of_string : string -> option Z) (env : Environment)
  (request : Request) (searchParams : QueryParams) (d : Database)
  (symbol limit : string) :
  verifyApiKey env request = true ->
  query_symbol searchParams = Some symbol -> symbol <> "" ->
  truthy_string (query_startDate searchParams) = false ->
  query_limit searchParams = Some limit ->
  parseInt_string limit = Some 0 ->
  fst (getLatestOptionsData symbol (Some 0) d) = Returned []
  /\ exists data d',
       DataRoutes.options_data_GET parseInt_string timestamp_of_string env
         request searchParams d
       = (Answer200 data, d')
       /\ getLatestOptionsData symbol (Some 100) d = (Returned data, d')
       /\ List.length data
          = Nat.min 100 (List.length (filter (has_symbol symbol) (table d)))
       /\ (forall r, In r data -> In r (table d) /\ Row.symbol r = symbol).
Proof.
  intros Hv Hs Hne Hstart Hl Hzero.
  split; [reflexivity|].
  unfold DataRoutes.options_data_GET, truthy_value.
  rewrite Hv, Hs, Hstart. cbn [negb].
  destruct (String.eqb_spec symbol "") as [|_]; [contradiction|].
  assert (DataRoutes.limit_of parseInt_string searchParams = 100) as ->
    by (unfold DataRoutes.limit_of; rewrite Hl, Hzero; reflexivity).
  unfold getLatestOptionsData. cbn [Z.ltb Z.compare].
  eexists. eexists. split; [reflexivity|]. split; [reflexivity|].
  cbn [rows record connect].
  split.
  - rewrite length_firstn.
    rewrite <- (Permutation_length
                  (Permutation_order_by latest_leb
                     (filter (has_symbol symbol) (table d)))).
    reflexivity.
  - intros r Hr. apply In_firstn, In_order_by, filter_In in Hr.
    destruct Hr as [Hr Hsym]. apply String.eqb_eq in Hsym. auto.
Qed.

Lemma GET_limit_zero_answers_as_limit_100_witness :
  exists data d',
    DataRoutes.options_data_GET parseInt_digits timestamp_example
      (mkEnvironment (Some "secret"))
      (mkRequest (Some "secret") (CleanupBody.make None None None))
      (mkQueryParams (Some "SPX") None None (Some "0")) three_instants
    = (Answer200 data, d')
    /\ map Row.timestamp data = [3000; 2000; 1000]
    /\ fst (getLatestOptionsData "SPX" (Some 0) three_instants)
       = Returned [].
Proof.
  destruct (GET_limit_zero_answers_as_limit_100 parseInt_digits
              timestamp_example (mkEnvironment (Some "secret"))
              (mkRequest (Some "secret") (CleanupBody.make None None None))
              (mkQueryParams (Some "SPX") None None (Some "0"))
              three_instants "SPX" "0")
    as [H0 [data [d' [H1 [H2 _]]]]];
    try reflexivity; try discriminate.
  exists data, d'. split; [exact H1|]. split; [|exact H0].
  vm_compute in H2. injection H2 as <- _. reflexivity.
Defined.

Lemma two_valued (a b : string) (l : list string) :
  NoDup l -> (forall x, In x l -> x = a \/ x = b) ->
  l = [] \/ l = [a] \/ l = [b] \/ l = [a; b] \/ l = [b; a].
Proof.
  intros Hnd Hin.
  destruct l as [|x [|y [|z l]]].
  - auto.
  - destruct (Hin x (or_introl eq_refl)) as [-> | ->]; auto.
  - inversion Hnd as [|? ? Hx _]; subst.
    destruct (Hin x (or_introl eq_refl)) as [-> | ->];
      destruct (Hin y (or_intror (or_introl eq_refl))) as [-> | ->];
      auto 6; exfalso; apply Hx; left; reflexivity.
  - exfalso.
    inversion Hnd as [|? ? Hx Hnd']; subst.
    inversion Hnd' as [|? ? Hy _]; subst.
    destruct (Hin x (or_introl eq_refl)) as [-> | ->];
      destruct (Hin y (or_intror (or_introl eq_refl))) as [-> | ->];
      destruct (Hin z (or_intror (or_intror (or_introl eq_refl))))
        as [-> | ->];
      solve [apply Hx; simpl; auto | apply Hy; simpl; auto].
Qed.

(** X27.  The special case of the aggregated handler: an authenticated
    request with a [startDate] whose symbol is SPX in any spelling that
    [toUpperCase] maps to [SPX] is answered from the rows of both SPX and
    SPXW.  The groups are in strictly increasing order of expiration date
    and strike, their [option_count]s add up to the number of rows of
    either symbol in the range that have a [mid], each group names in
    [symbols] which of the two it holds, and the table is unchanged. *)
Theorem aggregated_GET_index (parseInt_string : string -> option Z)
  (timestamp_of_string : string -> option Z) (toUpperCase : string -> string)
  (env : Environment) (request : Request) (searchParams : QueryParams)
  (d : Database) (symbol startText : string) (startDate endDate : Z) :
  verifyApiKey env request = true ->
  query_symbol searchParams = Some symbol -> symbol <> "" ->
  query_startDate searchParams = Some startText -> startText <> "" ->
  timestamp_of_string startText = Some startDate ->
  timestamp_of_string
    (or_default (query_endDate searchParams) "9999-12-31") = Some endDate ->
  toUpperCase symbol = "SPX" ->
  exists groups d',
    DataRoutes.aggregated_GET parseInt_string timestamp_of_string toUpperCase
      env request searchParams d
    = (Answer200 (aggregated_by_strike groups), d')
    /\ table d' = table d
    /\ StronglySorted key_lt (map aggregate_key groups)
    /\ Zsum (map AggregateRow.option_count groups)
       = count
           (filter
              (fun r =>
                 (has_symbol "SPX" r || has_symbol "SPXW" r)
                 && expires_between startDate endDate r && mid_not_null r)
              (table d))
    /\ Forall
         (fun g =>
            In (AggregateRow.symbols g)
              [Some "SPX"; Some "SPXW"; Some "SPX, SPXW"])
         groups.
Proof.
  intros Hv Hs Hne Hstart Hne' Ha Hb Hup.
  unfold DataRoutes.aggregated_GET, DataRoutes.endDateParam, truthy_value.
  rewrite Hv, Hs, Hstart. cbn [negb truthy_string].
  destruct (String.eqb_spec symbol "") as [|_]; [contradiction|].
  destruct (String.eqb_spec startText "") as [|_]; [contradiction|].
  cbn [negb]. rewrite Ha, Hb, Hup. cbn [String.eqb Ascii.eqb Bool.eqb].
  unfold getAggregatedOptionsDataMultiSymbol.
  cbn [rows record connect release table].
  set (hits := filter _ (table d)).
  assert (hits
          = filter
              (fun r =>
                 (has_symbol "SPX" r || has_symbol "SPXW" r)
                 && expires_between startDate endDate r && mid_not_null r)
              (table d)) as Ehits.
  { unfold hits. apply filter_ext. intros r.
    unfold symbol_in, has_symbol. cbn [existsb].
    rewrite orb_false_r. reflexivity. }
  destruct (aggregate_structure true hits) as [H1 [H2 _]].
  eexists. eexists. split; [reflexivity|]. split; [reflexivity|].
  split; [exact H1|]. split; [rewrite H2, Ehits; reflexivity|].
  apply Forall_forall. intros g Hg.
  unfold aggregate in Hg. apply in_map_iff in Hg.
  destruct Hg as [k [<- Hk]].
  apply In_order_by, In_distinct_incl, in_map_iff in Hk.
  destruct Hk as [r [Ek Hr]].
  cbn [aggregate_group AggregateRow.symbols].
  set (grp := filter (fun r0 => key_eqb (group_key r0) k) hits).
  assert (In r grp) as Hin
    by (apply filter_In; split; [exact Hr|]; rewrite Ek; apply key_eqb_refl).
  destruct (two_valued "SPX" "SPXW" (distinct String.eqb (map Row.symbol grp)))
    as [E|[E|[E|[E|E]]]].
  - apply NoDup_distinct_string.
  - intros x Hx. apply In_distinct_string, in_map_iff in Hx.
    destruct Hx as [y [<- Hy]]. apply filter_In in Hy.
    destruct Hy as [Hy _]. rewrite Ehits in Hy. apply filter_In in Hy.
    destruct Hy as [_ Hy]. rewrite !andb_true_iff, orb_true_iff in Hy.
    unfold has_symbol in Hy. rewrite !String.eqb_eq in Hy. tauto.
  - exfalso.
    assert (In (Row.symbol r) (distinct String.eqb (map Row.symbol grp)))
      as Hd by (apply In_distinct_string, in_map; exact Hin).
    rewrite E in Hd. exact Hd.
  - rewrite E. simpl. auto.
  - rewrite E. simpl. auto.
  - rewrite E. vm_compute. auto.
  - rewrite E. vm_compute. auto.
Qed.

Lemma aggregated_GET_index_witness :
  exists g d',
    DataRoutes.aggregated_GET parseInt_digits timestamp_example
      toUpperCase_ascii (mkEnvironment (Some "secret"))
      (mkRequest (Some "secret") (CleanupBody.make None None None))
      (mkQueryParams (Some "spx") (Some "2025-09-01") None None)
      index_contracts
    = (Answer200 (aggregated_by_strike [g]), d')
    /\ AggregateRow.option_count g = 2
    /\ AggregateRow.symbols g = Some "SPX, SPXW".
Proof.
  destruct (aggregated_GET_index parseInt_digits timestamp_example
              toUpperCase_ascii (mkEnvironment (Some "secret"))
              (mkRequest (Some "secret") (CleanupBody.make None None None))
              (mkQueryParams (Some "spx") (Some "2025-09-01") None None)
              index_contracts "spx" "2025-09-01" 1756684800000
              253402214400000)
    as [groups [d' [H1 [_ [_ [H4 _]]]]]];
    try reflexivity; try discriminate.
  assert (exists g, groups = [g]
                    /\ AggregateRow.symbols g = Some "SPX, SPXW")
    as [g [-> Hsym]].
  { vm_compute in H1. injection H1 as <- _. eexists. split; reflexivity. }
  exists g, d'. split; [exact H1|]. split; [|exact Hsym].
  unfold Zsum in H4. simpl in H4. rewrite Z.add_0_r in H4. rewrite H4.
  reflexivity.
Defined.
